(** * FormView: the form lifecycle controller of [views/form]

    A shallow embedding of the [FormView] module (validation, submission
    pipeline, error presentation and change tracking) together with the
    properties stated about it.

    JavaScript strings are modelled as [string] (Latin-1 code units),
    a DOM subtree as the list of its elements in document order, an
    element reference as the position of the element in that list, and
    JS objects used as dictionaries as [gmap string _]. *)

From stdpp Require Import base option list strings gmap.
From Stdlib Require Import Ascii String.

(** ** JavaScript values *)

(** The values that travel through the promise chains: results of hooks,
    thrown values and arguments of triggered events. *)
#[warnings="-register-all"]
Inductive JSVal : Type :=
| JSundefined
| JSnull
| JSbool (b : bool)
| JSnumber (n : Z)
| JSstring (s : string)
| JSelement (node : nat)
| JSerror (kind : string)
| JSobject (props : list (string * JSVal)).

(** ToBoolean *)
Definition truthy (x : JSVal) : bool :=
  match x with
  | JSundefined | JSnull => false
  | JSbool b => b
  | JSnumber n => negb (n =? 0)%Z
  | JSstring s => negb (String.eqb s "")
  | JSelement _ | JSerror _ | JSobject _ => true
  end.

Fixpoint assoc (k : string) (props : list (string * JSVal)) : JSVal :=
  match props with
  | [] => JSundefined
  | (k', x) :: rest => if String.eqb k k' then x else assoc k rest
  end.

(** Property read [x.k] on a value that is not null or undefined. *)
Definition prop (k : string) (x : JSVal) : JSVal :=
  match x with
  | JSobject props => assoc k props
  | _ => JSundefined
  end.

(** [x !== false] *)
Definition is_not_false (x : JSVal) : bool :=
  match x with
  | JSbool false => false
  | _ => true
  end.

(** ** The DOM *)

Inductive Tag : Type := input | textarea | select | button | form | div.

#[global] Instance Tag_eq_dec : EqDecision Tag.
Proof. solve_decision. Defined.

Record Element : Type := mkElement {
  tagName : Tag;
  attrs : gmap string string;
  classes : list string;
  (** [$(el).val()], a string.  A select without a selected option, for
      which it is [null], and a multiple select, for which it is an array,
      are not modelled. *)
  value : string;
  (** [el.validity && el.validity.valid]; [None] when the browser has no
      HTML5 constraint validation *)
  validity : option bool;
  (** the element lies inside [#coppa] *)
  in_coppa : bool
}.

Definition attr (name : string) (el : Element) : option string :=
  attrs el !! name.

Definition hasClass (c : string) (el : Element) : bool :=
  existsb (String.eqb c) (classes el).

Definition addClass (c : string) (el : Element) : Element :=
  if hasClass c el then el
  else mkElement (tagName el) (attrs el) (classes el ++ [c]) (value el)
                 (validity el) (in_coppa el).

Definition removeClass (c : string) (el : Element) : Element :=
  mkElement (tagName el) (attrs el)
            (List.filter (fun c' => negb (String.eqb c c')) (classes el))
            (value el) (validity el) (in_coppa el).

Definition setAttr (name val : string) (el : Element) : Element :=
  mkElement (tagName el) (<[name := val]> (attrs el)) (classes el) (value el)
            (validity el) (in_coppa el).

(** [$.trim] strips leading and trailing whitespace; in the Latin-1
    range that is the code units 9 to 13, 32 and 160. *)
Definition is_space (c : ascii) : bool :=
  let n := nat_of_ascii c in
  ((9 <=? n)%nat && (n <=? 13)%nat) || (n =? 32)%nat || (n =? 160)%nat.

Fixpoint ltrim (s : string) : string :=
  match s with
  | EmptyString => EmptyString
  | String c rest => if is_space c then ltrim rest else s
  end.

Fixpoint rtrim (s : string) : string :=
  match s with
  | EmptyString => EmptyString
  | String c rest =>
      match rtrim rest with
      | EmptyString => if is_space c then EmptyString else String c EmptyString
      | rest' => String c rest'
      end
  end.

Definition trim (s : string) : string := rtrim (ltrim s).

(** A tooltip view: the element it is anchored to and its message. *)
Record Tooltip : Type := mkTooltip {
  invalidEl : nat;
  message : string
}.

(** ** The view *)

(** The mutable state of one [FormView] instance.  The flags
    [_isSubmitting] and [_isHalted] are [undefined] until first set;
    they are only ever tested for truthiness, hence [false] here. *)
Record View : Type := mkView {
  dom : list Element;
  activeElement : option nat;
  _isFormEnabled : bool;
  _isSubmitting : bool;
  _isHalted : bool;
  _previousFormValues : option (gmap string string);
  _isErrorVisible : bool;
  _isSuccessVisible : bool;
  tooltips : list Tooltip
}.

Definition set_dom (f : list Element -> list Element) (v : View) : View :=
  mkView (f (dom v)) (activeElement v) (_isFormEnabled v) (_isSubmitting v)
         (_isHalted v) (_previousFormValues v) (_isErrorVisible v)
         (_isSuccessVisible v) (tooltips v).

Definition set_activeElement (a : option nat) (v : View) : View :=
  mkView (dom v) a (_isFormEnabled v) (_isSubmitting v)
         (_isHalted v) (_previousFormValues v) (_isErrorVisible v)
         (_isSuccessVisible v) (tooltips v).

Definition set_isFormEnabled (b : bool) (v : View) : View :=
  mkView (dom v) (activeElement v) b (_isSubmitting v)
         (_isHalted v) (_previousFormValues v) (_isErrorVisible v)
         (_isSuccessVisible v) (tooltips v).

Definition set_isSubmitting (b : bool) (v : View) : View :=
  mkView (dom v) (activeElement v) (_isFormEnabled v) b
         (_isHalted v) (_previousFormValues v) (_isErrorVisible v)
         (_isSuccessVisible v) (tooltips v).

Definition set_isHalted (b : bool) (v : View) : View :=
  mkView (dom v) (activeElement v) (_isFormEnabled v) (_isSubmitting v)
         b (_previousFormValues v) (_isErrorVisible v)
         (_isSuccessVisible v) (tooltips v).

Definition set_previousFormValues (o : option (gmap string string)) (v : View) : View :=
  mkView (dom v) (activeElement v) (_isFormEnabled v) (_isSubmitting v)
         (_isHalted v) o (_isErrorVisible v)
         (_isSuccessVisible v) (tooltips v).

Definition set_isErrorVisible (b : bool) (v : View) : View :=
  mkView (dom v) (activeElement v) (_isFormEnabled v) (_isSubmitting v)
         (_isHalted v) (_previousFormValues v) b
         (_isSuccessVisible v) (tooltips v).

Definition set_isSuccessVisible (b : bool) (v : View) : View :=
  mkView (dom v) (activeElement v) (_isFormEnabled v) (_isSubmitting v)
         (_isHalted v) (_previousFormValues v) (_isErrorVisible v)
         b (tooltips v).

Definition set_tooltips (ts : list Tooltip) (v : View) : View :=
  mkView (dom v) (activeElement v) (_isFormEnabled v) (_isSubmitting v)
         (_isHalted v) (_previousFormValues v) (_isErrorVisible v)
         (_isSuccessVisible v) ts.

(** [this.$(selector)]: the matching elements, in document order, each
    with its position in the DOM. *)
Fixpoint select_from (i : nat) (P : Element -> bool) (els : list Element)
  : list (nat * Element) :=
  match els with
  | [] => []
  | el :: rest =>
      if P el then (i, el) :: select_from (S i) P rest
      else select_from (S i) P rest
  end.

Definition query (P : Element -> bool) (v : View) : list (nat * Element) :=
  select_from 0 P (dom v).

(** Apply [f] to every element matching [P]. *)
Definition each (P : Element -> bool) (f : Element -> Element) (v : View) : View :=
  set_dom (List.map (fun el => if P el then f el else el)) v.

(** Apply [f] to the element at position [i]. *)
Definition at_node (i : nat) (f : Element -> Element) (v : View) : View :=
  set_dom (alter f i) v.

(** ** Events and the view monad *)

Inductive HookName : Type :=
| IsValidStart | IsValidEnd
| ShowValidationErrorsStart | ShowValidationErrorsEnd
| BeforeSubmit | Submit | AfterSubmit.

(** What a computation lets the outside observe, in order: signals
    emitted with [this.trigger], log entries, errors handed to
    [displayError], and the invocations of the overridable hooks. *)
Inductive Event : Type :=
| Triggered (name : string) (args : list JSVal)
| ViewEventLogged (name : string)
| ErrorLogged (err : JSVal)
| ErrorDisplayed (err : JSVal)
| Invoked (hook : HookName).

(** A settled promise, or the outcome of a call: a value, or a thrown
    value / rejection reason. *)
Inductive Outcome (A : Type) : Type :=
| Resolved (a : A)
| Rejected (e : JSVal).
Arguments Resolved {A} a.
Arguments Rejected {A} e.

(** Computations over the view: outcome, final view, emitted events.
    All code runs on one event loop; a promise chain is the sequence of
    its stages, each run on the view the previous one left behind. *)
Definition M (A : Type) : Type := View -> Outcome A * View * list Event.

Definition ret {A} (a : A) : M A := fun v => (Resolved a, v, []).

Definition throw {A} (e : JSVal) : M A := fun v => (Rejected e, v, []).

Definition bind {A B} (m : M A) (k : A -> M B) : M B := fun v =>
  match m v with
  | (Resolved a, v1, t1) =>
      match k a v1 with
      | (o, v2, t2) => (o, v2, t1 ++ t2)
      end
  | (Rejected e, v1, t1) => (Rejected e, v1, t1)
  end.

(** [.then(null, onRejected)] *)
Definition catch {A} (m : M A) (onRejected : JSVal -> M A) : M A := fun v =>
  match m v with
  | (Resolved a, v1, t1) => (Resolved a, v1, t1)
  | (Rejected e, v1, t1) =>
      match onRejected e v1 with
      | (o, v2, t2) => (o, v2, t1 ++ t2)
      end
  end.

Definition gets {A} (f : View -> A) : M A := fun v => (Resolved (f v), v, []).

Definition modify (f : View -> View) : M unit := fun v => (Resolved tt, f v, []).

Definition emit (e : Event) : M unit := fun v => (Resolved tt, v, [e]).

Declare Scope view_scope.
Delimit Scope view_scope with view.
Notation "x <- m ;; k" := (bind m (fun x => k))
  (at level 100, m at next level, right associativity) : view_scope.
Notation "m ;; k" := (bind m (fun _ => k))
  (at level 100, right associativity) : view_scope.
Local Open Scope view_scope.

(** An overridable method of a descendant view: it may read and change
    the view and may throw (or return a rejected promise).  What it
    displays shows in the view it leaves behind; of the hook itself the
    trace records the invocation only. *)
Definition Hook (A : Type) : Type := View -> Outcome A * View.

Definition invoke {A} (name : HookName) (hook : Hook A) : M A := fun v =>
  match hook v with
  | (o, v') => (o, v', [Invoked name])
  end.

Definition outcome {A} (r : Outcome A * View * list Event) : Outcome A := r.1.1.
Definition view_of {A} (r : Outcome A * View * list Event) : View := r.1.2.
Definition events_of {A} (r : Outcome A * View * list Event) : list Event := r.2.

(** ** Collaborators *)

(** [lib/validate]: the format checks for email addresses and passwords. *)
Class Validate : Type := {
  isEmailValid : string -> bool;
  isPasswordValid : string -> bool
}.

(** [lib/auth-errors]: the lookup from errors to user-facing strings. *)
Class AuthErrors : Type := {
  toMessage : JSVal -> string
}.

(** The user agent.  [blur()] on the focused element takes the focus
    away from it, but a user agent may ignore the call, for all elements
    or for some, such as those that are disabled. *)
Class UserAgent : Type := {
  honoursBlur : Element -> bool
}.

(** Modelled from the spec: [AuthErrors.toError] is not part of this
    module; the error taxonomy is keyed by symbolic kinds, and the
    error of a kind is identified by that kind. *)
Definition toError (type : string) : JSVal := JSerror type.

(** Modelled from the spec: [BaseView.hideError] is not part of this
    module; an error message is either visible or not. *)
Definition hideError (v : View) : View := set_isErrorVisible false v.

(** Modelled from the spec: [BaseView.hideSuccess] is not part of this
    module; a success message is either visible or not. *)
Definition hideSuccess (v : View) : View := set_isSuccessVisible false v.

(** Modelled from the spec: [BaseView.isErrorVisible] is not part of
    this module; it tells whether an error message is visible. *)
Definition isErrorVisible (v : View) : bool := _isErrorVisible v.

(** Modelled from the spec: [BaseView.displayError] is not part of this
    module; it displays the error to the user, which stays visible. *)
Definition displayError (err : JSVal) : M unit :=
  modify (set_isErrorVisible true) ;;
  emit (ErrorDisplayed err).

(** Modelled from the spec: [trigger] is inherited and not part of this
    module; it emits a signal that the host view and tests observe. *)
Definition trigger (name : string) (args : list JSVal) : M unit :=
  emit (Triggered name args).

(** Modelled from the spec: [BaseView.logViewEvent] is not part of this
    module; event logging is a provided service. *)
Definition logViewEvent (name : string) : M unit :=
  emit (ViewEventLogged name).

(** Modelled from the spec: [BaseView.logError] is not part of this
    module; error logging is a provided service. *)
Definition logError (err : JSVal) : M unit :=
  emit (ErrorLogged err).

(** The overridable methods of a descendant view. *)
Record Hooks : Type := mkHooks {
  isValidStart : Hook bool;
  isValidEnd : Hook bool;
  showValidationErrorsStart : Hook JSVal;
  showValidationErrorsEnd : Hook JSVal;
  beforeSubmit : Hook JSVal;
  submit : Hook JSVal;
  afterSubmit : JSVal -> Hook JSVal
}.

(** ** FormView *)

Definition is_submit_button (el : Element) : bool :=
  bool_decide (tagName el = button) && bool_decide (attr "type" el = Some "submit").

Definition is_input (el : Element) : bool := bool_decide (tagName el = input).

Definition is_form_field (el : Element) : bool :=
  bool_decide (tagName el = input) || bool_decide (tagName el = textarea)
  || bool_decide (tagName el = select).

Definition is_interactive (el : Element) : bool :=
  bool_decide (tagName el = input) || bool_decide (tagName el = textarea)
  || bool_decide (tagName el = button).

(** [this.$('input').not('#coppa input')] *)
Definition is_validated_input (el : Element) : bool :=
  is_input el && negb (in_coppa el).

Definition disableForm (v : View) : View :=
  set_isFormEnabled false (each is_submit_button (addClass "disabled") v).

Definition enableForm (v : View) : View :=
  set_isFormEnabled true (each is_submit_button (removeClass "disabled") v).

Definition isFormEnabled (v : View) : bool := _isFormEnabled v.

Definition isSubmitting (v : View) : bool := _isSubmitting v.

Definition isHalted (v : View) : bool := _isHalted v.

Definition getElementType (el : Element) : option string :=
  let fieldType := attr "type" el in
  if bool_decide (fieldType = Some "text") && hasClass "password" el
  then Some "password"
  else fieldType.

Definition getElementValue (el : Element) : string :=
  let value := value el in
  if negb (String.eqb value "") && bool_decide (getElementType el = Some "email")
  then trim value
  else value.

(** [el.attr('name') || el.attr('id')], as a property key *)
Definition field_name (el : Element) : string :=
  let id := default "undefined" (attr "id" el) in
  match attr "name" el with
  | Some name => if String.eqb name "" then id else name
  | None => id
  end.

(** [values[name] = val] on a plain object, for a string [val].  The
    map holds the own properties of the object.  Under the name
    [__proto__] no property is created: the assignment reaches the
    setter inherited from [Object.prototype], which ignores a value that
    is not an object. *)
Definition assign (name val : string) (values : gmap string string)
  : gmap string string :=
  if String.eqb name "__proto__" then values else <[name := val]> values.

Fixpoint getFormValues_loop (inputEls : list (nat * Element))
    (values : gmap string string) : gmap string string :=
  match inputEls with
  | [] => values
  | (_, el) :: rest =>
      if bool_decide (attr "data-novalue" el = None)
      then getFormValues_loop rest (assign (field_name el) (getElementValue el) values)
      else getFormValues_loop rest values
  end.

Definition getFormValues (v : View) : gmap string string :=
  getFormValues_loop (query is_form_field v) ∅.

(** The form controls. *)
Definition is_control (el : Element) : bool :=
  bool_decide (tagName el = input) || bool_decide (tagName el = textarea)
  || bool_decide (tagName el = select) || bool_decide (tagName el = button).

(** A form control that carries the [disabled] attribute. *)
Definition is_disabled (el : Element) : bool :=
  is_control el && bool_decide (attr "disabled" el <> None).

(** [blur()] on the elements matching [P]: the call reaches the element
    that has the focus, if it is among them, and the user agent decides
    whether it takes effect. *)
Definition blur {userAgent : UserAgent} (P : Element -> bool) (v : View) : View :=
  match activeElement v with
  | Some i =>
      match dom v !! i with
      | Some el => if P el && honoursBlur el then set_activeElement None v else v
      | None => v
      end
  | None => v
  end.

Definition halt {userAgent : UserAgent} (v : View) : View :=
  set_isHalted true
    (blur is_interactive (each is_interactive (setAttr "disabled" "disabled") v)).

Definition detectFormValueChanges (v : View) : option (gmap string string) :=
  let oldValues := _previousFormValues v in
  let newValues := getFormValues v in
  if negb (bool_decide (oldValues = Some newValues)) then Some newValues
  else None.

Definition updateFormValueChanges (v : View) : option (gmap string string) * View :=
  let newValues := detectFormValueChanges v in
  match newValues with
  | Some _ => (newValues, set_previousFormValues newValues v)
  | None => (newValues, v)
  end.

Section FormView.

Context {validate : Validate} {authErrors : AuthErrors} {userAgent : UserAgent}.

Definition validateEmail (el : Element) : bool :=
  let email := getElementValue el in
  isEmailValid email.

Definition validatePassword (el : Element) : bool :=
  let password := getElementValue el in
  isPasswordValid password.

Definition validateInput (el : Element) : bool :=
  let isRequired := bool_decide (attr "required" el <> None) in
  let value := getElementValue el in
  if isRequired && (String.length value =? 0)%nat then false
  else
    match validity el with
    | Some valid => valid
    | None => true
    end.

Definition isElementValid (el : Element) : bool :=
  let type := getElementType el in
  if bool_decide (type = Some "email") then validateEmail el
  else if bool_decide (type = Some "password") then validatePassword el
  else validateInput el.

Fixpoint isValid_loop (inputEls : list (nat * Element)) : bool :=
  match inputEls with
  | [] => true
  | (_, el) :: rest =>
      if negb (isElementValid el) then false else isValid_loop rest
  end.

Definition isValid (h : Hooks) : M bool :=
  ok <- invoke IsValidStart (isValidStart h) ;;
  if negb ok then ret false
  else
    inputEls <- gets (query is_validated_input) ;;
    if negb (isValid_loop inputEls) then ret false
    else invoke IsValidEnd (isValidEnd h).

Definition enableSubmitIfValid (h : Hooks) : M unit :=
  busy <- gets (fun v => isSubmitting v || isHalted v) ;;
  if busy then ret tt
  else
    modify hideError ;;
    modify hideSuccess ;;
    valid <- isValid h ;;
    if valid then modify enableForm else modify disableForm.

(** Modelled from the spec: [views/tooltip] is not part of this module.
    At most one validation tooltip is visible at a time; a tooltip that
    is destroyed runs its [destroyed] handler, which for the tooltips
    created by [showValidationError] removes the invalid marking of the
    field and emits [validation_error_removed]. *)
Definition Tooltip_destroy (tooltip : Tooltip) : M unit :=
  modify (at_node (invalidEl tooltip) (removeClass "invalid")) ;;
  trigger "validation_error_removed" [JSelement (invalidEl tooltip)].

(** Modelled from the spec: [views/tooltip] is not part of this module;
    every displayed tooltip is destroyed, in turn. *)
Fixpoint Tooltip_destroy_all (displayed : list Tooltip) : M unit :=
  match displayed with
  | [] => ret tt
  | tooltip :: rest => Tooltip_destroy tooltip ;; Tooltip_destroy_all rest
  end.

(** Modelled from the spec: [views/tooltip] is not part of this module;
    never more than one tooltip is visible at a time, so rendering one
    replaces the tooltip that was displayed. *)
Definition Tooltip_render (tooltip : Tooltip) : M unit :=
  displayed <- gets tooltips ;;
  Tooltip_destroy_all displayed ;;
  modify (set_tooltips [tooltip]).

(** An element that takes the focus when asked to: a form control that
    is not disabled, or another element that has a [tabindex].  Whether
    the element is rendered is not modelled. *)
Definition is_focusable (el : Element) : bool :=
  if is_control el then negb (is_disabled el)
  else bool_decide (attr "tabindex" el <> None).

(** [el.focus()]: the focus moves to the element if it can take it;
    focusing an element that is not there throws, and the exception is
    swallowed. *)
Definition focus (el : nat) (v : View) : View :=
  match dom v !! el with
  | Some x => if is_focusable x then set_activeElement (Some el) v else v
  | None => v
  end.

(** The tooltip renders asynchronously; its continuation (marking the
    field invalid, focusing it, emitting [validation_error]) is run
    here, in sequence. *)
Definition showValidationError (el : nat) (err : JSVal) : M JSVal :=
  logError err ;;
  let message := toMessage err in
  let tooltip := mkTooltip el message in
  Tooltip_render tooltip ;;
  modify (at_node el (addClass "invalid")) ;;
  modify (focus el) ;;
  trigger "validation_error" [JSelement el; JSstring message] ;;
  ret (JSstring message).

Definition showEmailValidationError (i : nat) (el : Element) : M JSVal :=
  let value := getElementValue el in
  let err := if negb (String.eqb value "") && negb (String.length value =? 0)%nat
             then toError "INVALID_EMAIL"
             else toError "EMAIL_REQUIRED" in
  showValidationError i err.

Definition showPasswordValidationError (i : nat) (el : Element) : M JSVal :=
  let passwordVal := getElementValue el in
  let errType := if negb (String.eqb passwordVal "")
                 then "PASSWORD_TOO_SHORT" else "PASSWORD_REQUIRED" in
  showValidationError i (toError errType).

Fixpoint showValidationErrors_loop (h : Hooks) (inputEls : list (nat * Element))
  : M JSVal :=
  match inputEls with
  | [] =>
      invoke ShowValidationErrorsEnd (showValidationErrorsEnd h) ;;
      ret JSundefined
  | (i, el) :: rest =>
      if negb (isElementValid el) then
        let fieldType := getElementType el in
        if bool_decide (fieldType = Some "email")
        then showEmailValidationError i el
        else if bool_decide (fieldType = Some "password")
        then showPasswordValidationError i el
        else ret JSundefined
      else showValidationErrors_loop h rest
  end.

Definition showValidationErrors (h : Hooks) : M JSVal :=
  modify hideError ;;
  shown <- invoke ShowValidationErrorsStart (showValidationErrorsStart h) ;;
  if truthy shown then ret JSundefined
  else
    inputEls <- gets (query is_validated_input) ;;
    showValidationErrors_loop h inputEls.

(** Modelled from the spec: the decorator [notify_delayed_request] is
    not part of this module; it observes the start and the end of the
    pipeline to tell the user that a request takes long, and is not
    part of the state machine. *)
Definition notifyDelayedRequest {A} (handler : M A) : M A := handler.

(** Modelled from the spec: the decorator [progress_indicator] is not
    part of this module; it toggles a busy visual on the submit control
    and is not part of the state machine. *)
Definition showButtonProgressIndicator {A} (handler : M A) : M A := handler.

Definition _submitForm (h : Hooks) : M JSVal :=
  notifyDelayedRequest (showButtonProgressIndicator (
    result <-
      catch
        (shouldSubmit <- invoke BeforeSubmit (beforeSubmit h) ;;
         if is_not_false shouldSubmit
         then invoke Submit (submit h)
         else ret JSundefined)
        (fun err => displayError err ;; throw err) ;;
    invoke AfterSubmit (afterSubmit h result))).

(** Modelled from the spec: the decorator [allow_only_one_submit] is not
    part of this module.  A submission already in flight is ignored: the
    call is dropped silently, without queuing and without an error.
    Otherwise the view is submitting until the handler's promise has
    settled. *)
Definition allowOnlyOneSubmit {A} (handler : M A) (dropped : A) : M A := fun v =>
  if isSubmitting v then (Resolved dropped, v, [])
  else
    match handler (set_isSubmitting true v) with
    | (o, v', t) => (o, set_isSubmitting false v', t)
    end.

(** The function handed to [allowOnlyOneSubmit].  The DOM event, when
    there is one, only has its propagation stopped. *)
Definition validateAndSubmit_handler (h : Hooks) : M JSVal :=
  trigger "submitStart" [] ;;
  halted <- gets isHalted ;;
  if halted then ret JSundefined
  else
    valid <- isValid h ;;
    if negb valid then
      displayed <- showValidationErrors h ;;
      throw displayed
    else
      enabled <- gets isFormEnabled ;;
      if negb enabled then ret JSundefined
      else
        logViewEvent "submit" ;;
        _submitForm h.

Definition validateAndSubmit (h : Hooks) : M JSVal :=
  allowOnlyOneSubmit (validateAndSubmit_handler h) JSundefined.

(** The handler of the [change], [input] and [keyup] events of the form:
    [ifFormValuesChanged(enableSubmitIfValid)]. *)
Definition ifFormValuesChanged {A} (handler : M A) : M (option A) := fun v =>
  match updateFormValueChanges v with
  | (Some _, v') =>
      match handler v' with
      | (Resolved a, v'', t) => (Resolved (Some a), v'', t)
      | (Rejected e, v'', t) => (Rejected e, v'', t)
      end
  | (None, v') => (Resolved None, v', [])
  end.

(** [afterRender]; [modelHasError] is [this.model.has('error')].  The
    call to the [afterRender] of the base view is left out. *)
Definition afterRender (h : Hooks) (modelHasError : bool) : M unit :=
  modify (fun v => (updateFormValueChanges v).2) ;;
  if negb modelHasError then enableSubmitIfValid h else ret tt.

(** *** The default strategies *)

Definition default_isValidStart : Hook bool := fun v => (Resolved true, v).

Definition default_isValidEnd : Hook bool := fun v => (Resolved true, v).

Definition default_showValidationErrorsStart : Hook JSVal :=
  fun v => (Resolved JSundefined, v).

Definition default_showValidationErrorsEnd : Hook JSVal :=
  fun v => (Resolved JSundefined, v).

Definition default_beforeSubmit : Hook JSVal :=
  fun v => (Resolved JSundefined, disableForm v).

Definition default_submit : Hook JSVal := fun v => (Resolved JSundefined, v).

Definition default_afterSubmit (result : JSVal) : Hook JSVal := fun v =>
  if truthy result && truthy (prop "halt" result) then (Resolved result, halt v)
  else if negb (isErrorVisible v) then (Resolved result, enableForm v)
  else (Resolved result, v).

Definition FormView : Hooks :=
  mkHooks default_isValidStart default_isValidEnd
          default_showValidationErrorsStart default_showValidationErrorsEnd
          default_beforeSubmit default_submit default_afterSubmit.

End FormView.

(** ** Vocabulary of the properties *)

Section Vocabulary.

Context {validate : Validate} {authErrors : AuthErrors} {userAgent : UserAgent}.

(** The semantic kind of a field, derived from its declared type and
    its class annotations. *)
Inductive FieldKind : Type := EmailField | PasswordField | GenericField.

Definition field_kind (el : Element) : FieldKind :=
  if bool_decide (getElementType el = Some "email") then EmailField
  else if bool_decide (getElementType el = Some "password") then PasswordField
  else GenericField.

(** The rule a field has to pass, by kind, in the words of the
    specification: an email is non-empty and passes the format check, a
    password is non-empty and passes the password check, any other
    field is non-empty when required and passes the native constraint
    validation when the browser has it. *)
Definition kind_specific_rule (el : Element) : bool :=
  let value := getElementValue el in
  match field_kind el with
  | EmailField => negb (String.eqb value "") && isEmailValid value
  | PasswordField => negb (String.eqb value "") && isPasswordValid value
  | GenericField =>
      (if bool_decide (attr "required" el <> None)
       then negb (String.eqb value "") else true)
      && match validity el with Some valid => valid | None => true end
  end.

(** The inputs that take part in validation, in declaration order. *)
Definition validated_inputs (v : View) : list Element :=
  List.filter is_validated_input (dom v).

(** The first invalid input of the walk, with its position. *)
Fixpoint first_invalid_in (inputEls : list (nat * Element)) : option (nat * Element) :=
  match inputEls with
  | [] => None
  | (i, el) :: rest =>
      if isElementValid el then first_invalid_in rest else Some (i, el)
  end.

Definition first_invalid (v : View) : option (nat * Element) :=
  first_invalid_in (query is_validated_input v).

(** The symbolic kind of the error shown for an invalid email or
    password field. *)
Definition email_error_kind (el : Element) : string :=
  if String.eqb (getElementValue el) "" then "EMAIL_REQUIRED" else "INVALID_EMAIL".

Definition password_error_kind (el : Element) : string :=
  if String.eqb (getElementValue el) "" then "PASSWORD_REQUIRED"
  else "PASSWORD_TOO_SHORT".

(** What destroying the displayed tooltips does to the view and what it
    emits. *)
Fixpoint unmark (displayed : list Tooltip) (v : View) : View :=
  match displayed with
  | [] => v
  | tooltip :: rest =>
      unmark rest (at_node (invalidEl tooltip) (removeClass "invalid") v)
  end.

Definition removed_events (displayed : list Tooltip) : list Event :=
  List.map (fun tooltip =>
              Triggered "validation_error_removed" [JSelement (invalidEl tooltip)])
           displayed.

(** The view after [showValidationError] has shown [err] on field [el]. *)
Definition with_tooltip (el : nat) (err : JSVal) (v : View) : View :=
  focus el
    (at_node el (addClass "invalid")
       (set_tooltips [mkTooltip el (toMessage err)] (unmark (tooltips v) v))).

Definition is_validity_check (e : Event) : Prop :=
  e = Invoked IsValidStart \/ e = Invoked IsValidEnd.

Definition is_pipeline_hook (hook : HookName) : Prop :=
  hook = BeforeSubmit \/ hook = Submit \/ hook = AfterSubmit.

Definition no_pipeline_hook (t : list Event) : Prop :=
  forall hook, is_pipeline_hook hook -> ~ In (Invoked hook) t.

(** How often [submit] was invoked. *)
Definition invokes_submit (e : Event) : bool :=
  match e with
  | Invoked Submit => true
  | _ => false
  end.

Definition submit_count (t : list Event) : nat :=
  List.length (List.filter invokes_submit t).

(** A computation under which the property [P] of the view is stable. *)
Definition preserves {A} (P : View -> Prop) (m : M A) : Prop :=
  forall v, P v -> P (view_of (m v)).

Definition hook_preserves {A} (P : View -> Prop) (hook : Hook A) : Prop :=
  forall v, P v -> P (hook v).2.

(** The value a settled promise carries, resolved or rejected. *)
Definition settled (o : Outcome JSVal) : JSVal :=
  match o with
  | Resolved a => a
  | Rejected e => e
  end.

(** The view as the submit handler finds it, and as it is left once the
    handler's promise has settled. *)
Definition submitting (v : View) : View := set_isSubmitting true v.

Definition idle (v : View) : View := set_isSubmitting false v.

(** The claim that [showValidationErrors] renders exactly one tooltip,
    anchored to the first invalid field, whatever the kind of that
    field. *)
Definition renders_one_tooltip_for_first_invalid (h : Hooks) (v : View) : Prop :=
  forall i el, first_invalid v = Some (i, el) ->
    exists msg, tooltips (view_of (showValidationErrors h v)) = [mkTooltip i msg].

(** The claim that the promise of [validateAndSubmit] is rejected with
    the exact message that was displayed: the rejection value is the
    message of a tooltip that is visible afterwards. *)
Definition rejects_with_displayed_message (h : Hooks) (v : View) : Prop :=
  exists el msg,
    outcome (validateAndSubmit h v) = Rejected (JSstring msg)
    /\ In (mkTooltip el msg) (tooltips (view_of (validateAndSubmit h v))).

Definition halted (v : View) : Prop := isHalted v = true.

Definition in_flight (v : View) : Prop := isSubmitting v = true.

(** Hooks that never clear the halted flag. *)
Definition keeps_halted (h : Hooks) : Prop :=
  hook_preserves halted (isValidStart h) /\ hook_preserves halted (isValidEnd h) /\
  hook_preserves halted (showValidationErrorsStart h) /\
  hook_preserves halted (showValidationErrorsEnd h) /\
  hook_preserves halted (beforeSubmit h) /\ hook_preserves halted (submit h) /\
  (forall result, hook_preserves halted (afterSubmit h result)).

(** Hooks that leave the submission-in-progress flag alone while the
    pipeline is on its way to [afterSubmit]. *)
Definition keeps_in_flight (h : Hooks) : Prop :=
  hook_preserves in_flight (isValidStart h) /\
  hook_preserves in_flight (isValidEnd h) /\
  hook_preserves in_flight (beforeSubmit h) /\
  hook_preserves in_flight (submit h).

(** The operations of a [FormView]: its methods, and the user typing
    into a field. *)
Inductive Operation : Type :=
| DoAfterRender (modelHasError : bool)
| DoFormChanged
| DoEnableSubmitIfValid
| DoDisableForm
| DoEnableForm
| DoValidateAndSubmit
| DoSubmitForm
| DoShowValidationErrors
| DoShowValidationError (el : nat) (err : JSVal)
| DoBeforeSubmit
| DoSubmit
| DoAfterSubmit (result : JSVal)
| DoHalt
| DoUpdateFormValueChanges
| UserTypes (el : nat) (text : string).

Definition setValue (text : string) (el : Element) : Element :=
  mkElement (tagName el) (attrs el) (classes el) text (validity el) (in_coppa el).

Definition perform (h : Hooks) (op : Operation) (v : View) : View :=
  match op with
  | DoAfterRender modelHasError => view_of (afterRender h modelHasError v)
  | DoFormChanged => view_of (ifFormValuesChanged (enableSubmitIfValid h) v)
  | DoEnableSubmitIfValid => view_of (enableSubmitIfValid h v)
  | DoDisableForm => disableForm v
  | DoEnableForm => enableForm v
  | DoValidateAndSubmit => view_of (validateAndSubmit h v)
  | DoSubmitForm => view_of (_submitForm h v)
  | DoShowValidationErrors => view_of (showValidationErrors h v)
  | DoShowValidationError el err => view_of (showValidationError el err v)
  | DoBeforeSubmit => (beforeSubmit h v).2
  | DoSubmit => (submit h v).2
  | DoAfterSubmit result => (afterSubmit h result v).2
  | DoHalt => halt v
  | DoUpdateFormValueChanges => (updateFormValueChanges v).2
  | UserTypes el text => at_node el (setValue text) v
  end.

Definition perform_all (h : Hooks) (ops : list Operation) (v : View) : View :=
  fold_left (fun v op => perform h op v) ops v.

(** A second [validateAndSubmit], made through the view [h'], arrives
    while the hook is pending. *)
Definition interrupted {A} (h' : Hooks) (hook : Hook A) : Hook A := fun v =>
  hook (view_of (validateAndSubmit h' v)).

Definition with_concurrent_attempts (h' h : Hooks) : Hooks :=
  mkHooks (isValidStart h) (isValidEnd h)
          (showValidationErrorsStart h) (showValidationErrorsEnd h)
          (interrupted h' (beforeSubmit h))
          (interrupted h' (submit h))
          (fun result => interrupted h' (afterSubmit h result)).

End Vocabulary.

(** ** Sample collaborators and forms *)

Module Sample.

(** Modelled from the spec: the format check of [lib/validate] is not
    part of this module; here an email address has one [@] with text on
    both sides. *)
Fixpoint after_at (s : string) : option string :=
  match s with
  | EmptyString => None
  | String c rest => if Ascii.eqb c "@" then Some rest else after_at rest
  end.

Definition starts_with_at (s : string) : bool :=
  match s with
  | String c _ => Ascii.eqb c "@"
  | EmptyString => false
  end.

Definition email_format (s : string) : bool :=
  negb (starts_with_at s) &&
  match after_at s with
  | Some domain =>
      negb (String.eqb domain "") &&
      match after_at domain with Some _ => false | None => true end
  | None => false
  end.

(** Modelled from the spec: the minimum length of a password is not
    part of this module; a password of length 3 is below it. *)
Definition PASSWORD_MIN_LENGTH : nat := 8.

(** Modelled from the spec: [lib/validate] is not part of this module.
    An email address is non-empty and passes a format check; a password
    is non-empty and passes a minimum-length check. *)
Definition validate : Validate := {|
  isEmailValid email := email_format email;
  isPasswordValid password := (PASSWORD_MIN_LENGTH <=? String.length password)%nat
|}.

(** Modelled from the spec: [lib/auth-errors] is not part of this
    module; it maps a symbolic error kind to a user-facing string. *)
Definition authErrors : AuthErrors := {|
  toMessage err :=
    match err with
    | JSerror "INVALID_EMAIL" => "Valid email required"
    | JSerror "EMAIL_REQUIRED" => "Email required"
    | JSerror "PASSWORD_TOO_SHORT" => "Must be at least 8 characters"
    | JSerror "PASSWORD_REQUIRED" => "Valid password required"
    | JSstring s => s
    | _ => "Unexpected error"
    end
|}.

(** A user agent that ignores [blur()] on a disabled element. *)
Definition userAgent : UserAgent := {|
  honoursBlur el := negb (is_disabled el)
|}.

Definition field (type name val : string) (required : bool) : Element :=
  mkElement input
    (if required then {[ "type" := type; "name" := name; "required" := "" ]}
     else {[ "type" := type; "name" := name ]})
    [] val None false.

Definition submit_button : Element :=
  mkElement button {[ "type" := "submit" ]} [] "" None false.

Definition fresh_view (els : list Element) : View :=
  mkView els None true false false None false false [].

(** Scenario A: an empty required text field before a valid email. *)
Definition scenario_A : View :=
  fresh_view [field "text" "displayName" "" true;
              field "email" "email" "a@b.com" true;
              submit_button].

(** Scenario B: an email field that does not hold an email address. *)
Definition scenario_B (email : string) : View :=
  fresh_view [field "email" "email" email true; submit_button].

(** Scenario C: a password field with a short or missing password. *)
Definition scenario_C (password : string) : View :=
  fresh_view [field "password" "password" password true; submit_button].

(** A form whose fields are all valid. *)
Definition valid_form : View :=
  fresh_view [field "email" "email" "a@b.com" true;
              field "password" "password" "correct horse" true;
              submit_button].

(** A view whose [submit] asks the flow to halt (scenario D). *)
Definition halting (h : Hooks) : Hooks :=
  mkHooks (isValidStart h) (isValidEnd h)
          (showValidationErrorsStart h) (showValidationErrorsEnd h)
          (beforeSubmit h)
          (fun v => (Resolved (JSobject [("halt", JSbool true)]), v))
          (afterSubmit h).

(** A view whose [submit] is rejected (scenario E). *)
Definition failing (err : JSVal) (h : Hooks) : Hooks :=
  mkHooks (isValidStart h) (isValidEnd h)
          (showValidationErrorsStart h) (showValidationErrorsEnd h)
          (beforeSubmit h)
          (fun v => (Rejected err, v))
          (afterSubmit h).

(** A view that displays a message of its own on the first field from
    [showValidationErrorsStart], and reports that it did. *)
Definition reporting (message : string) (h : Hooks) : Hooks :=
  mkHooks (isValidStart h) (isValidEnd h)
          (fun v => (Resolved (JSbool true),
                     view_of (@showValidationError authErrors 0 (JSstring message) v)))
          (showValidationErrorsEnd h)
          (beforeSubmit h) (submit h) (afterSubmit h).

(** A view whose [beforeSubmit] prevents the submission. *)
Definition aborting (h : Hooks) : Hooks :=
  mkHooks (isValidStart h) (isValidEnd h)
          (showValidationErrorsStart h) (showValidationErrorsEnd h)
          (fun v => (Resolved (JSbool false), v))
          (submit h)
          (afterSubmit h).

End Sample.

(** ** Further vocabulary *)

(** The fields whose value [getFormValues] reads. *)
Definition is_tracked_field (el : Element) : bool :=
  is_form_field el && bool_decide (attr "data-novalue" el = None).

(** The snapshot built from the fields that are read, in document order. *)
Definition snapshot_of (els : list Element) (values : gmap string string)
  : gmap string string :=
  fold_left (fun values el => assign (field_name el) (getElementValue el) values)
            els values.

(** The attributes the form reads from a field. *)
Definition read_attributes : list string :=
  ["type"; "name"; "id"; "data-novalue"; "required"].

(** Two elements the form cannot tell apart: they may differ in the
    attributes it does not read and in classes other than [password]. *)
Definition same_field (el el' : Element) : Prop :=
  tagName el' = tagName el
  /\ value el' = value el
  /\ validity el' = validity el
  /\ in_coppa el' = in_coppa el
  /\ (forall name, In name read_attributes -> attr name el' = attr name el)
  /\ hasClass "password" el' = hasClass "password" el.

Definition starts_with_space (s : string) : bool :=
  match s with
  | String c _ => is_space c
  | EmptyString => false
  end.

Fixpoint ends_with_space (s : string) : bool :=
  match s with
  | EmptyString => false
  | String c EmptyString => is_space c
  | String _ rest => ends_with_space rest
  end.

(** The baseline of change detection is the current snapshot [s]. *)
Definition baseline_is (s : gmap string string) (v : View) : Prop :=
  getFormValues v = s /\ _previousFormValues v = Some s.

(** The recorded form values are [s]. *)
Definition values_are (s : gmap string string) (v : View) : Prop :=
  getFormValues v = s.

(** Hooks that leave the recorded form values as they are. *)
Definition keeps_values (h : Hooks) : Prop :=
  forall s,
    hook_preserves (values_are s) (isValidStart h)
    /\ hook_preserves (values_are s) (isValidEnd h)
    /\ hook_preserves (values_are s) (showValidationErrorsStart h)
    /\ hook_preserves (values_are s) (showValidationErrorsEnd h)
    /\ hook_preserves (values_are s) (beforeSubmit h)
    /\ hook_preserves (values_are s) (submit h)
    /\ (forall result, hook_preserves (values_are s) (afterSubmit h result)).

(** ** The relier model of [models/reliers/relier] *)

Module Relier.

(** The two tables of query parameter rules; the rules themselves are
    validators of [lib/vat]. *)
Inductive Schema : Type :=
| QUERY_PARAMETER_SCHEMA
| VERIFICATION_QUERY_PARAMETER_SCHEMA.

(** A relier: the attribute hash of the Backbone model and the schema
    chosen by [initialize]. *)
Record Relier : Type := mkRelier {
  attributes : gmap string JSVal;
  _queryParameterSchema : Schema
}.

Definition defaults : gmap string JSVal :=
  list_to_map
    [("allowCachedCredentials", JSbool true);
     ("email", JSnull);
     ("entrypoint", JSnull);
     ("migration", JSnull);
     ("preVerifyToken", JSnull);
     ("resetPasswordConfirm", JSbool true);
     ("service", JSnull);
     ("setting", JSnull);
     ("uid", JSnull);
     ("utmCampaign", JSnull);
     ("utmContent", JSnull);
     ("utmMedium", JSnull);
     ("utmSource", JSnull);
     ("utmTerm", JSnull)].

(** [initialize(options)] on a model whose attribute hash is
    [attributes]: it chooses the schema.  The fields [sentryMetrics] and
    [window], which only the mixins read, are left out. *)
Definition initialize (options : JSVal) (attributes : gmap string JSVal) : Relier :=
  let options := if truthy options then options else JSobject [] in
  mkRelier attributes
    (if truthy (prop "isVerification" options)
     then VERIFICATION_QUERY_PARAMETER_SCHEMA
     else QUERY_PARAMETER_SCHEMA).

(** [Backbone.Model]: [get], [has] (the attribute is neither null nor
    undefined), [set] and [unset]. *)
Definition get (attr : string) (r : Relier) : JSVal :=
  default JSundefined (attributes r !! attr).

Definition has (attr : string) (r : Relier) : bool :=
  match get attr r with
  | JSundefined | JSnull => false
  | _ => true
  end.

Definition set (attr : string) (val : JSVal) (r : Relier) : Relier :=
  mkRelier (<[attr := val]> (attributes r)) (_queryParameterSchema r).

Definition unset (attr : string) (r : Relier) : Relier :=
  mkRelier (delete attr (attributes r)) (_queryParameterSchema r).

(** [x === s] for a string [s] *)
Definition is_string (s : string) (x : JSVal) : bool :=
  match x with
  | JSstring s' => String.eqb s' s
  | _ => false
  end.

Section Fetch.

(** [Constants.DISALLOW_CACHED_CREDENTIALS] *)
Variable DISALLOW_CACHED_CREDENTIALS : string.

(** The methods mixed in from [models/mixins/search-param] and
    [models/mixins/resume-token]: they read the location of the window,
    may change the relier and may throw. *)
Variable getSearchParam : string -> JSVal.
Variable populateFromStringifiedResumeToken : JSVal -> Relier -> Outcome unit * Relier.
Variable importSearchParamsUsingSchema : Schema -> Relier -> Outcome unit * Relier.

Definition normalize_entrypoint (r : Relier) : Relier :=
  if has "entryPoint" r && negb (has "entrypoint" r)
  then set "entrypoint" (get "entryPoint" r) r
  else r.

Definition normalize_email (r : Relier) : Relier :=
  if is_string DISALLOW_CACHED_CREDENTIALS (get "email" r)
  then set "allowCachedCredentials" (JSbool false) (unset "email" r)
  else r.

Definition fetch (r : Relier) : Outcome unit * Relier :=
  match populateFromStringifiedResumeToken (getSearchParam "resume") r with
  | (Resolved _, r1) =>
      match importSearchParamsUsingSchema (_queryParameterSchema r1) r1 with
      | (Resolved _, r2) =>
          (Resolved tt, normalize_email (normalize_entrypoint r2))
      | (Rejected e, r2) => (Rejected e, r2)
      end
  | (Rejected e, r1) => (Rejected e, r1)
  end.

Definition allowCachedCredentials (r : Relier) : JSVal :=
  get "allowCachedCredentials" r.

End Fetch.

End Relier.

(** ** Properties *)

Section Properties.

Context {validate : Validate} {authErrors : AuthErrors} {userAgent : UserAgent}.

(** *** Setters and getters *)

Lemma idle_submitting v : isSubmitting v = false -> idle (submitting v) = v.
Proof. destruct v; simpl; intros ->; reflexivity. Qed.

Lemma isHalted_submitting v : isHalted (submitting v) = isHalted v.
Proof. reflexivity. Qed.

Lemma isHalted_idle v : isHalted (idle v) = isHalted v.
Proof. reflexivity. Qed.

Lemma isSubmitting_submitting v : isSubmitting (submitting v) = true.
Proof. reflexivity. Qed.

(** *** Form State Tracker *)

Lemma getFormValues_set_previousFormValues o v :
  getFormValues (set_previousFormValues o v) = getFormValues v.
Proof. reflexivity. Qed.

Lemma detectFormValueChanges_None v :
  detectFormValueChanges v = None <->
  _previousFormValues v = Some (getFormValues v).
Proof.
  unfold detectFormValueChanges.
  case_bool_decide as Heq; simpl; split; intros H; congruence.
Qed.

Lemma detectFormValueChanges_Some v s :
  detectFormValueChanges v = Some s <->
  s = getFormValues v /\ _previousFormValues v <> Some s.
Proof.
  unfold detectFormValueChanges.
  case_bool_decide as Heq; simpl; split.
  - discriminate.
  - intros [-> Hne]. contradiction.
  - intros [= <-]. split; [reflexivity | exact Heq].
  - intros [-> _]. reflexivity.
Qed.

Lemma updateFormValueChanges_baseline v :
  _previousFormValues (updateFormValueChanges v).2 = Some (getFormValues v).
Proof.
  unfold updateFormValueChanges.
  destruct (detectFormValueChanges v) as [s|] eqn:Hd; simpl.
  - apply detectFormValueChanges_Some in Hd as [-> _]. reflexivity.
  - apply detectFormValueChanges_None in Hd. exact Hd.
Qed.

Lemma updateFormValueChanges_dom v : dom (updateFormValueChanges v).2 = dom v.
Proof.
  unfold updateFormValueChanges.
  destruct (detectFormValueChanges v); reflexivity.
Qed.

Lemma getFormValues_dom v v' : dom v' = dom v -> getFormValues v' = getFormValues v.
Proof. unfold getFormValues, query. intros ->. reflexivity. Qed.

(** C8. Committing the current snapshot as the baseline
    ([updateFormValueChanges]) and then running [detectFormValueChanges]
    on unchanged inputs returns null; and detection returns the new
    snapshot exactly when it differs, by structural comparison, from
    the last accepted baseline (it returns null exactly when they are
    equal). *)
Theorem detectFormValueChanges_round_trip (v : View) :
  (forall v', dom v' = dom v ->
     _previousFormValues v' = _previousFormValues (updateFormValueChanges v).2 ->
     detectFormValueChanges v' = None)
  /\ detectFormValueChanges (updateFormValueChanges v).2 = None
  /\ (forall s, detectFormValueChanges v = Some s <->
        s = getFormValues v /\ _previousFormValues v <> Some s)
  /\ (detectFormValueChanges v = None <->
        _previousFormValues v = Some (getFormValues v)).
Proof.
  assert (Hgen : forall v', dom v' = dom v ->
     _previousFormValues v' = _previousFormValues (updateFormValueChanges v).2 ->
     detectFormValueChanges v' = None).
  { intros v' Hdom Hprev. apply detectFormValueChanges_None.
    rewrite Hprev, updateFormValueChanges_baseline.
    f_equal. symmetry. apply getFormValues_dom, Hdom. }
  split; [exact Hgen |]. split.
  - apply Hgen; [apply updateFormValueChanges_dom | reflexivity].
  - split; [apply detectFormValueChanges_Some | apply detectFormValueChanges_None].
Qed.

(** *** Validation Engine *)

Lemma isValid_loop_false inputEls :
  isValid_loop inputEls = false <->
  exists i el, In (i, el) inputEls /\ isElementValid el = false.
Proof.
  induction inputEls as [|[i el] rest IH]; simpl.
  - split; [discriminate | intros (? & ? & [] & _)].
  - destruct (isElementValid el) eqn:Hel; simpl.
    + rewrite IH. split.
      * intros (j & el' & Hin & Hbad). exists j, el'. auto.
      * intros (j & el' & [Heq | Hin] & Hbad).
        -- inversion Heq; subst. congruence.
        -- exists j, el'. auto.
    + split; [| reflexivity]. intros _. exists i, el. auto.
Qed.

Lemma select_from_In n P els i el :
  In (i, el) (select_from n P els) -> In el (List.filter P els).
Proof.
  revert n. induction els as [|x rest IH]; simpl; intros n; [tauto |].
  destruct (P x); simpl.
  - intros [[= _ ->] | Hin]; [left; reflexivity | right; eauto].
  - eauto.
Qed.

Lemma In_select_from n P els el :
  In el (List.filter P els) -> exists i, In (i, el) (select_from n P els).
Proof.
  revert n. induction els as [|x rest IH]; simpl; intros n; [tauto |].
  destruct (P x); simpl.
  - intros [-> | Hin].
    + exists n. left. reflexivity.
    + destruct (IH (S n) Hin) as [i Hi]. exists i. right. exact Hi.
  - apply IH.
Qed.

Lemma map_snd_select_from n P els :
  List.map snd (select_from n P els) = List.filter P els.
Proof.
  revert n. induction els as [|x rest IH]; simpl; intros n; [reflexivity |].
  destruct (P x); simpl; rewrite ?IH; reflexivity.
Qed.

Lemma isValid_loop_map_snd l l' :
  List.map snd l = List.map snd l' -> isValid_loop l = isValid_loop l'.
Proof.
  revert l'. induction l as [|[i el] rest IH]; intros [|[j el'] rest']; simpl;
    try discriminate; [reflexivity |].
  intros [= -> Hrest]. rewrite (IH _ Hrest). reflexivity.
Qed.

Lemma isValid_loop_query_false v :
  isValid_loop (query is_validated_input v) = false <->
  exists el, In el (validated_inputs v) /\ isElementValid el = false.
Proof.
  rewrite isValid_loop_false. unfold query, validated_inputs. split.
  - intros (i & el & Hin & Hbad). exists el. split; [| exact Hbad].
    eapply select_from_In, Hin.
  - intros (el & Hin & Hbad).
    destruct (In_select_from 0 _ _ _ Hin) as [i Hi]. exists i, el. auto.
Qed.

Section ValidateRejectsEmpty.

Hypothesis isEmailValid_empty : isEmailValid "" = false.
Hypothesis isPasswordValid_empty : isPasswordValid "" = false.

Lemma isElementValid_rule el : isElementValid el = kind_specific_rule el.
Proof.
  unfold isElementValid, kind_specific_rule, field_kind.
  unfold validateEmail, validatePassword, validateInput.
  repeat case_bool_decide; simpl.
  - destruct (String.eqb_spec (getElementValue el) "") as [-> | _];
      [exact isEmailValid_empty | reflexivity].
  - destruct (String.eqb_spec (getElementValue el) "") as [-> | _];
      [exact isPasswordValid_empty | reflexivity].
  - destruct (String.eqb_spec (getElementValue el) "") as [-> | Hne]; simpl.
    + reflexivity.
    + destruct (getElementValue el); [contradiction | reflexivity].
  - reflexivity.
Qed.

End ValidateRejectsEmpty.

Lemma isValid_events h v :
  Forall is_validity_check (events_of (isValid h v)).
Proof.
  unfold isValid, bind, invoke, gets, ret, events_of.
  destruct (isValidStart h v) as [[ok|e] v1]; simpl;
    [destruct ok; simpl;
     [destruct (isValid_loop (query is_validated_input v1)); simpl;
      [destruct (isValidEnd h v1) as [o v2]; simpl | ] | ] | ];
    repeat (constructor; [unfold is_validity_check; auto |]);
    constructor.
Qed.

(** C3. When the hooks [isValidStart] and [isValidEnd] are predicates
    (they answer without changing the view), [isValid] answers false
    exactly when [isValidStart] fails, or some input outside [#coppa]
    fails the rule of its kind, or [isValidEnd] fails; it leaves the
    view as it was and emits nothing but the invocations of the two
    hooks; and a form with the same inputs outside [#coppa] gets the
    same answer. *)
Theorem isValid_iff (h : Hooks) (v : View) (okStart okEnd : bool) :
  isEmailValid "" = false ->
  isPasswordValid "" = false ->
  isValidStart h v = (Resolved okStart, v) ->
  isValidEnd h v = (Resolved okEnd, v) ->
  exists (valid : bool) (t : list Event),
    isValid h v = (Resolved valid, v, t)
    /\ Forall is_validity_check t
    /\ (valid = false <->
          okStart = false
          \/ (exists el, In el (validated_inputs v) /\ kind_specific_rule el = false)
          \/ okEnd = false)
    /\ (forall v', validated_inputs v' = validated_inputs v ->
          isValidStart h v' = (Resolved okStart, v') ->
          isValidEnd h v' = (Resolved okEnd, v') ->
          outcome (isValid h v') = Resolved valid).
Proof.
  intros Hemail Hpassword Hstart Hend.
  assert (Hrun : forall v', isValidStart h v' = (Resolved okStart, v') ->
            isValidEnd h v' = (Resolved okEnd, v') ->
            exists t, isValid h v' =
              (Resolved (okStart && isValid_loop (query is_validated_input v') && okEnd),
               v', t)).
  { intros v' Hs He. unfold isValid, bind, invoke, gets, ret. rewrite Hs.
    destruct okStart; simpl; [| eauto].
    destruct (isValid_loop (query is_validated_input v')); simpl; [| eauto].
    rewrite He. eauto. }
  destruct (Hrun v Hstart Hend) as [t Ht].
  eexists _, t. split; [exact Ht |]. split.
  { pose proof (isValid_events h v) as Hev. rewrite Ht in Hev. exact Hev. }
  split.
  - rewrite !andb_false_iff, isValid_loop_query_false.
    setoid_rewrite (isElementValid_rule Hemail Hpassword). tauto.
  - intros v' Hsame Hs He. destruct (Hrun v' Hs He) as [t' Ht'].
    rewrite Ht'. unfold outcome; simpl. do 3 f_equal.
    apply isValid_loop_map_snd. unfold query.
    rewrite !map_snd_select_from. exact Hsame.
Qed.

(** *** Error Presentation *)

Lemma Tooltip_destroy_all_run displayed v :
  Tooltip_destroy_all displayed v =
  (Resolved tt, unmark displayed v, removed_events displayed).
Proof.
  revert v. induction displayed as [|tooltip rest IH]; intros v; [reflexivity |].
  simpl. unfold bind at 1. unfold Tooltip_destroy, bind, modify, trigger, emit.
  simpl. rewrite IH. reflexivity.
Qed.

Lemma tooltips_unmark displayed v : tooltips (unmark displayed v) = tooltips v.
Proof.
  revert v. induction displayed as [|tooltip rest IH]; intros v; simpl;
    [reflexivity | rewrite IH; reflexivity].
Qed.

Lemma showValidationError_run el err v :
  showValidationError el err v =
  (Resolved (JSstring (toMessage err)), with_tooltip el err v,
   ErrorLogged err :: removed_events (tooltips v)
     ++ [Triggered "validation_error" [JSelement el; JSstring (toMessage err)]]).
Proof.
  unfold showValidationError, Tooltip_render, logError, trigger.
  unfold bind, modify, emit, gets, ret. simpl.
  rewrite Tooltip_destroy_all_run. simpl.
  rewrite app_nil_r. reflexivity.
Qed.

Lemma tooltips_focus el v : tooltips (focus el v) = tooltips v.
Proof.
  unfold focus. destruct (dom v !! el) as [x|]; [destruct (is_focusable x) |];
    reflexivity.
Qed.

Lemma isHalted_focus el v : isHalted (focus el v) = isHalted v.
Proof.
  unfold focus. destruct (dom v !! el) as [x|]; [destruct (is_focusable x) |];
    reflexivity.
Qed.

Lemma tooltips_with_tooltip el err v :
  tooltips (with_tooltip el err v) = [mkTooltip el (toMessage err)].
Proof. unfold with_tooltip. rewrite tooltips_focus. reflexivity. Qed.

Lemma showEmailValidationError_kind i el :
  showEmailValidationError i el = showValidationError i (toError (email_error_kind el)).
Proof.
  unfold showEmailValidationError, email_error_kind.
  destruct (String.eqb_spec (getElementValue el) "") as [-> | Hne]; simpl.
  - reflexivity.
  - destruct (getElementValue el); [contradiction | reflexivity].
Qed.

Lemma showPasswordValidationError_kind i el :
  showPasswordValidationError i el =
  showValidationError i (toError (password_error_kind el)).
Proof.
  unfold showPasswordValidationError, password_error_kind.
  destruct (String.eqb (getElementValue el) ""); reflexivity.
Qed.

(** C4. The error shown for an email field is [INVALID_EMAIL] when the
    value of the field (as [getElementValue] reads it) is non-empty and
    [EMAIL_REQUIRED] when it is empty; [showPasswordValidationError]
    shows [PASSWORD_TOO_SHORT] for a non-empty value, for instance one
    of length 3, and [PASSWORD_REQUIRED] for an empty one.  Showing an
    error of some kind logs that error and displays its message in the
    tooltip of the field, and that message is the result. *)
Theorem validation_error_kind (i : nat) (el : Element) (v : View) :
  (getElementValue el <> "" ->
     showEmailValidationError i el v = showValidationError i (toError "INVALID_EMAIL") v)
  /\ (getElementValue el = "" ->
     showEmailValidationError i el v = showValidationError i (toError "EMAIL_REQUIRED") v)
  /\ (getElementValue el <> "" ->
     showPasswordValidationError i el v =
     showValidationError i (toError "PASSWORD_TOO_SHORT") v)
  /\ (String.length (getElementValue el) = 3 ->
     showPasswordValidationError i el v =
     showValidationError i (toError "PASSWORD_TOO_SHORT") v)
  /\ (getElementValue el = "" ->
     showPasswordValidationError i el v =
     showValidationError i (toError "PASSWORD_REQUIRED") v)
  /\ (forall kind,
        let r := showValidationError i (toError kind) v in
        outcome r = Resolved (JSstring (toMessage (toError kind)))
        /\ tooltips (view_of r) = [mkTooltip i (toMessage (toError kind))]
        /\ In (ErrorLogged (toError kind)) (events_of r)
        /\ In (Triggered "validation_error"
                 [JSelement i; JSstring (toMessage (toError kind))]) (events_of r)).
Proof.
  assert (Hne : getElementValue el <> "" ->
            String.eqb (getElementValue el) "" = false).
  { intros H. destruct (String.eqb_spec (getElementValue el) ""); congruence. }
  rewrite showEmailValidationError_kind, showPasswordValidationError_kind.
  unfold email_error_kind, password_error_kind.
  repeat split.
  - intros H. rewrite (Hne H). reflexivity.
  - intros ->. reflexivity.
  - intros H. rewrite (Hne H). reflexivity.
  - intros H. rewrite Hne; [reflexivity |]. intros Heq. rewrite Heq in H.
    discriminate.
  - intros ->. reflexivity.
  - rewrite showValidationError_run. reflexivity.
  - rewrite showValidationError_run. apply tooltips_with_tooltip.
  - rewrite showValidationError_run. left. reflexivity.
  - rewrite showValidationError_run. unfold events_of; simpl.
    right. apply in_or_app. right. left. reflexivity.
Qed.

Lemma first_invalid_in_Some inputEls i el :
  first_invalid_in inputEls = Some (i, el) <->
  exists before rest,
    inputEls = before ++ (i, el) :: rest
    /\ Forall (fun x => isElementValid x.2 = true) before
    /\ isElementValid el = false.
Proof.
  induction inputEls as [|[j x] l IH]; simpl.
  - split; [discriminate |].
    intros (before & rest & Heq & _). destruct before; discriminate.
  - destruct (isElementValid x) eqn:Hx.
    + rewrite IH. split.
      * intros (before & rest & -> & Hall & Hbad).
        exists ((j, x) :: before), rest. repeat split; [| exact Hbad].
        constructor; [exact Hx | exact Hall].
      * intros (before & rest & Heq & Hall & Hbad).
        destruct before as [|y before]; simpl in Heq.
        -- inversion Heq; subst. congruence.
        -- inversion Heq; subst. inversion Hall; subst.
           exists before, rest. auto.
    + split.
      * intros [= -> ->]. exists [], l. repeat split; [constructor | exact Hx].
      * intros (before & rest & Heq & Hall & Hbad).
        destruct before as [|y before]; simpl in Heq.
        -- inversion Heq; subst. reflexivity.
        -- inversion Heq; subst. inversion Hall; subst. simpl in *. congruence.
Qed.

Lemma showValidationErrors_loop_first h inputEls i el :
  first_invalid_in inputEls = Some (i, el) ->
  showValidationErrors_loop h inputEls =
  match field_kind el with
  | EmailField => showEmailValidationError i el
  | PasswordField => showPasswordValidationError i el
  | GenericField => ret JSundefined
  end.
Proof.
  induction inputEls as [|[j x] l IH]; simpl; [discriminate |].
  destruct (isElementValid x) eqn:Hx; simpl; [exact IH |].
  intros [= -> ->]. unfold field_kind.
  repeat case_bool_decide; reflexivity.
Qed.

Lemma showValidationErrors_loop_none h inputEls :
  first_invalid_in inputEls = None ->
  showValidationErrors_loop h inputEls =
  (invoke ShowValidationErrorsEnd (showValidationErrorsEnd h) ;; ret JSundefined).
Proof.
  induction inputEls as [|[j x] l IH]; simpl; [reflexivity |].
  destruct (isElementValid x) eqn:Hx; simpl; [exact IH | discriminate].
Qed.

Lemma showValidationErrors_run h v :
  showValidationErrors h v =
  match showValidationErrorsStart h (hideError v) with
  | (Resolved shown, v1) =>
      if truthy shown
      then (Resolved JSundefined, v1, [Invoked ShowValidationErrorsStart])
      else
        match showValidationErrors_loop h (query is_validated_input v1) v1 with
        | (o, v2, t) => (o, v2, Invoked ShowValidationErrorsStart :: t)
        end
  | (Rejected e, v1) => (Rejected e, v1, [Invoked ShowValidationErrorsStart])
  end.
Proof.
  unfold showValidationErrors.
  unfold bind at 1. unfold modify. unfold bind at 1. unfold invoke at 1.
  destruct (showValidationErrorsStart h (hideError v)) as [[shown|e] v1];
    [| reflexivity].
  destruct (truthy shown); [reflexivity |].
  unfold bind, gets.
  destruct (showValidationErrors_loop h (query is_validated_input v1) v1)
    as [[o v2] t].
  reflexivity.
Qed.

Lemma showValidationErrors_start h v shown v1 :
  showValidationErrorsStart h (hideError v) = (Resolved shown, v1) ->
  truthy shown = false ->
  showValidationErrors h v =
  match showValidationErrors_loop h (query is_validated_input v1) v1 with
  | (o, v2, t) => (o, v2, Invoked ShowValidationErrorsStart :: t)
  end.
Proof.
  intros Hstart Hshown. rewrite showValidationErrors_run, Hstart, Hshown.
  reflexivity.
Qed.

(** C2 (amended). When [showValidationErrorsStart] reports nothing, the
    walk of [showValidationErrors] over the inputs outside [#coppa]
    stops at the first invalid one.  For an email field it renders one
    tooltip, anchored to that field, with the message of
    [INVALID_EMAIL] or [EMAIL_REQUIRED], and returns that message; for a
    password field likewise with [PASSWORD_TOO_SHORT] or
    [PASSWORD_REQUIRED]; for any other field it renders nothing, emits
    nothing and returns undefined.  No later field is reported, and the
    call leaves at most one tooltip visible if at most one was visible
    before. *)
Theorem showValidationErrors_first_invalid
    (h : Hooks) (v v1 : View) (shown : JSVal) (i : nat) (el : Element) :
  showValidationErrorsStart h (hideError v) = (Resolved shown, v1) ->
  truthy shown = false ->
  first_invalid v1 = Some (i, el) ->
  let r := showValidationErrors h v in
  (field_kind el = EmailField ->
     let err := toError (email_error_kind el) in
     r = (Resolved (JSstring (toMessage err)), with_tooltip i err v1,
          Invoked ShowValidationErrorsStart :: ErrorLogged err
            :: removed_events (tooltips v1)
            ++ [Triggered "validation_error" [JSelement i; JSstring (toMessage err)]])
     /\ tooltips (view_of r) = [mkTooltip i (toMessage err)])
  /\ (field_kind el = PasswordField ->
     let err := toError (password_error_kind el) in
     r = (Resolved (JSstring (toMessage err)), with_tooltip i err v1,
          Invoked ShowValidationErrorsStart :: ErrorLogged err
            :: removed_events (tooltips v1)
            ++ [Triggered "validation_error" [JSelement i; JSstring (toMessage err)]])
     /\ tooltips (view_of r) = [mkTooltip i (toMessage err)])
  /\ (field_kind el = GenericField ->
     r = (Resolved JSundefined, v1, [Invoked ShowValidationErrorsStart]))
  /\ (List.length (tooltips v1) <= 1 -> List.length (tooltips (view_of r)) <= 1).
Proof.
  intros Hstart Hshown Hfirst r. subst r.
  rewrite (showValidationErrors_start _ _ _ _ Hstart Hshown).
  rewrite (showValidationErrors_loop_first _ _ _ _ Hfirst).
  rewrite showEmailValidationError_kind, showPasswordValidationError_kind.
  destruct (field_kind el); rewrite ?showValidationError_run;
    repeat split; try discriminate; unfold view_of; simpl;
    rewrite ?tooltips_with_tooltip; auto.
Qed.

Lemma not_removed_event el m displayed :
  ~ In (Triggered "validation_error" [JSelement el; JSstring m])
       (removed_events displayed).
Proof.
  unfold removed_events. rewrite in_map_iff. intros (tooltip & Heq & _).
  discriminate.
Qed.

Lemma showValidationError_displayed el err v el' m :
  In (Triggered "validation_error" [JSelement el'; JSstring m])
     (events_of (showValidationError el err v)) ->
  outcome (showValidationError el err v) = Resolved (JSstring m).
Proof.
  rewrite showValidationError_run. unfold events_of, outcome; simpl.
  intros [Hlog | Hin]; [discriminate |].
  apply in_app_or in Hin as [Hin | [Heq | []]].
  - exfalso. eapply not_removed_event, Hin.
  - inversion Heq; subst. reflexivity.
Qed.

Lemma showValidationError_no_pipeline_hook el err v :
  no_pipeline_hook (events_of (showValidationError el err v)).
Proof.
  rewrite showValidationError_run. unfold events_of; simpl.
  intros hook _ [Hlog | Hin]; [discriminate |].
  apply in_app_or in Hin as [Hin | [Heq | []]]; [| discriminate].
  unfold removed_events in Hin. apply in_map_iff in Hin as (? & Heq & _).
  discriminate.
Qed.

Lemma showValidationErrors_loop_displayed h inputEls v :
  let r := showValidationErrors_loop h inputEls v in
  no_pipeline_hook (events_of r)
  /\ (forall el m,
        In (Triggered "validation_error" [JSelement el; JSstring m]) (events_of r) ->
        outcome r = Resolved (JSstring m)).
Proof.
  destruct (first_invalid_in inputEls) as [[i el]|] eqn:Hfirst.
  - rewrite (showValidationErrors_loop_first _ _ _ _ Hfirst).
    rewrite showEmailValidationError_kind, showPasswordValidationError_kind.
    destruct (field_kind el); cbv zeta; split.
    + apply showValidationError_no_pipeline_hook.
    + apply showValidationError_displayed.
    + apply showValidationError_no_pipeline_hook.
    + apply showValidationError_displayed.
    + intros hook _ Hin. exact Hin.
    + intros ? ? Hin. destruct Hin.
  - rewrite (showValidationErrors_loop_none _ _ Hfirst).
    unfold bind, invoke, ret, no_pipeline_hook, events_of, outcome.
    destruct (showValidationErrorsEnd h v) as [[a|e] v']; simpl; split.
    + intros hook Hhook [Heq | []]. inversion Heq; subst.
      destruct Hhook as [? | [? | ?]]; discriminate.
    + intros ? ? [? | []]. discriminate.
    + intros hook Hhook [Heq | []]. inversion Heq; subst.
      destruct Hhook as [? | [? | ?]]; discriminate.
    + intros ? ? [? | []]. discriminate.
Qed.

Lemma showValidationErrors_displayed h v :
  let r := showValidationErrors h v in
  no_pipeline_hook (events_of r)
  /\ (forall el m,
        In (Triggered "validation_error" [JSelement el; JSstring m]) (events_of r) ->
        outcome r = Resolved (JSstring m)).
Proof.
  assert (Hstart : no_pipeline_hook [Invoked ShowValidationErrorsStart]).
  { intros hook Hhook [Heq | []]. inversion Heq; subst.
    destruct Hhook as [? | [? | ?]]; discriminate. }
  cbv zeta. rewrite showValidationErrors_run.
  destruct (showValidationErrorsStart h (hideError v)) as [[shown|e] v1].
  - destruct (truthy shown).
    + unfold events_of, outcome; simpl.
      split; [exact Hstart | intros ? ? [? | []]; discriminate].
    + pose proof (showValidationErrors_loop_displayed h
                    (query is_validated_input v1) v1) as [Hno Hmsg].
      destruct (showValidationErrors_loop h (query is_validated_input v1) v1)
        as [[o v2] t].
      unfold events_of, outcome in *; simpl in *. split.
      * intros hook Hhook [Heq | Hin].
        -- eapply Hstart; [exact Hhook | left; exact Heq].
        -- eapply Hno; eauto.
      * intros el m [Heq | Hin]; [discriminate | eauto].
  - unfold events_of, outcome; simpl.
    split; [exact Hstart | intros ? ? [? | []]; discriminate].
Qed.

(** *** Submission Pipeline *)

Lemma validity_check_no_pipeline_hook t :
  Forall is_validity_check t -> no_pipeline_hook t.
Proof.
  intros Hall hook Hhook Hin.
  rewrite List.Forall_forall in Hall. specialize (Hall _ Hin).
  destruct Hall as [Heq | Heq]; inversion Heq; subst;
    destruct Hhook as [? | [? | ?]]; discriminate.
Qed.

Lemma validity_check_not_displayed t el m :
  Forall is_validity_check t ->
  ~ In (Triggered "validation_error" [JSelement el; JSstring m]) t.
Proof.
  intros Hall Hin. rewrite List.Forall_forall in Hall. specialize (Hall _ Hin).
  destruct Hall; discriminate.
Qed.

Lemma validateAndSubmit_in_flight h v :
  isSubmitting v = true ->
  validateAndSubmit h v = (Resolved JSundefined, v, []).
Proof.
  intros Hflag. unfold validateAndSubmit, allowOnlyOneSubmit.
  rewrite Hflag. reflexivity.
Qed.

Lemma validateAndSubmit_idle h v :
  isSubmitting v = false ->
  validateAndSubmit h v =
  match validateAndSubmit_handler h (submitting v) with
  | (o, v', t) => (o, idle v', t)
  end.
Proof.
  intros Hflag. unfold validateAndSubmit, allowOnlyOneSubmit.
  rewrite Hflag. reflexivity.
Qed.

Lemma validateAndSubmit_handler_halted h v :
  isHalted v = true ->
  validateAndSubmit_handler h v =
  (Resolved JSundefined, v, [Triggered "submitStart" []]).
Proof.
  intros Hhalted. unfold validateAndSubmit_handler.
  unfold bind, trigger, emit, gets, ret. simpl. rewrite Hhalted. reflexivity.
Qed.

Lemma validateAndSubmit_handler_invalid h v v1 t1 :
  isHalted v = false ->
  isValid h v = (Resolved false, v1, t1) ->
  validateAndSubmit_handler h v =
  (Rejected (settled (outcome (showValidationErrors h v1))),
   view_of (showValidationErrors h v1),
   Triggered "submitStart" [] :: t1 ++ events_of (showValidationErrors h v1)).
Proof.
  intros Hhalted Hvalid. unfold validateAndSubmit_handler.
  unfold bind at 1. unfold trigger, emit. unfold bind at 1. unfold gets at 1.
  rewrite Hhalted. unfold bind at 1. rewrite Hvalid. simpl.
  unfold bind, throw.
  destruct (showValidationErrors h v1) as [[[a|e] v2] t2]; simpl;
    rewrite ?app_nil_r; reflexivity.
Qed.

Lemma validateAndSubmit_handler_disabled h v v1 t1 :
  isHalted v = false ->
  isValid h v = (Resolved true, v1, t1) ->
  isFormEnabled v1 = false ->
  validateAndSubmit_handler h v =
  (Resolved JSundefined, v1, Triggered "submitStart" [] :: t1).
Proof.
  intros Hhalted Hvalid Hdisabled. unfold validateAndSubmit_handler.
  unfold bind at 1. unfold trigger, emit. unfold bind at 1. unfold gets at 1.
  rewrite Hhalted. unfold bind at 1. rewrite Hvalid. simpl.
  unfold bind, gets, ret. rewrite Hdisabled. simpl.
  rewrite app_nil_r. reflexivity.
Qed.

Lemma validateAndSubmit_handler_enabled h v v1 t1 :
  isHalted v = false ->
  isValid h v = (Resolved true, v1, t1) ->
  isFormEnabled v1 = true ->
  validateAndSubmit_handler h v =
  match _submitForm h v1 with
  | (o, v2, t2) =>
      (o, v2, Triggered "submitStart" [] :: t1 ++ ViewEventLogged "submit" :: t2)
  end.
Proof.
  intros Hhalted Hvalid Henabled. unfold validateAndSubmit_handler.
  unfold bind at 1. unfold trigger, emit. unfold bind at 1. unfold gets at 1.
  rewrite Hhalted. unfold bind at 1. rewrite Hvalid. simpl.
  unfold bind at 1. unfold gets at 1. rewrite Henabled. simpl.
  unfold bind at 1. unfold logViewEvent, emit.
  destruct (_submitForm h v1) as [[o v2] t2]. reflexivity.
Qed.

(** C1 (amended). On a view that is not halted, when [isValid] answers
    false, [validateAndSubmit] runs [showValidationErrors] and its
    promise is rejected with what [showValidationErrors] returned or
    threw; neither [submit] nor any other hook of the pipeline is
    invoked.  The rejection value is the displayed message when the
    form itself displays the error: [showValidationErrorsStart] reported
    nothing and the first invalid input is an email or a password
    field; one tooltip with that message is then anchored to the field.
    In the other cases the promise is rejected with undefined: when
    [showValidationErrorsStart] returns a truthy value, whatever the
    hook displayed; when the first invalid input is of another kind,
    for which nothing is displayed; and when no input is invalid, where
    [showValidationErrorsEnd] runs and its result is dropped.  This
    holds of the function as the source defines it, and of a call that
    enters it through the single-flight guard from an idle view. *)
Theorem validateAndSubmit_invalid
    (h : Hooks) (v v1 : View) (t1 : list Event) :
  isHalted v = false ->
  isValid h v = (Resolved false, v1, t1) ->
  let shown := showValidationErrors h v1 in
  let r := validateAndSubmit_handler h v in
  r = (Rejected (settled (outcome shown)), view_of shown,
       Triggered "submitStart" [] :: t1 ++ events_of shown)
  /\ In (Invoked ShowValidationErrorsStart) (events_of r)
  /\ (forall reported v2,
        showValidationErrorsStart h (hideError v1) = (Resolved reported, v2) ->
        (truthy reported = true ->
           outcome r = Rejected JSundefined /\ view_of r = v2)
        /\ (truthy reported = false ->
            forall i el, first_invalid v2 = Some (i, el) ->
              (field_kind el = EmailField ->
                 let msg := toMessage (toError (email_error_kind el)) in
                 outcome r = Rejected (JSstring msg)
                 /\ tooltips (view_of r) = [mkTooltip i msg])
              /\ (field_kind el = PasswordField ->
                 let msg := toMessage (toError (password_error_kind el)) in
                 outcome r = Rejected (JSstring msg)
                 /\ tooltips (view_of r) = [mkTooltip i msg])
              /\ (field_kind el = GenericField ->
                 outcome r = Rejected JSundefined /\ view_of r = v2))
        /\ (truthy reported = false -> first_invalid v2 = None ->
            forall o v3, showValidationErrorsEnd h v2 = (o, v3) ->
              outcome r = Rejected (match o with
                                    | Resolved _ => JSundefined
                                    | Rejected e => e
                                    end)
              /\ view_of r = v3))
  /\ (forall e v2,
        showValidationErrorsStart h (hideError v1) = (Rejected e, v2) ->
        outcome r = Rejected e /\ view_of r = v2)
  /\ ~ In (Invoked Submit) (events_of r)
  /\ no_pipeline_hook (events_of r)
  /\ (forall v0,
        isSubmitting v0 = false -> submitting v0 = v ->
        validateAndSubmit h v0 = (outcome r, idle (view_of r), events_of r)).
Proof.
  intros Hhalted Hvalid shown r. subst shown r.
  rewrite (validateAndSubmit_handler_invalid h v v1 t1 Hhalted Hvalid).
  pose proof (isValid_events h v) as Ht1.
  rewrite Hvalid in Ht1. unfold events_of at 1 in Ht1; simpl in Ht1.
  destruct (showValidationErrors_displayed h v1) as [Hno _].
  assert (Hnone : no_pipeline_hook
            (Triggered "submitStart" [] :: t1
               ++ events_of (showValidationErrors h v1))).
  { intros hook Hhook [Heq | Hin]; [discriminate |].
    apply in_app_or in Hin as [Hin | Hin].
    - eapply validity_check_no_pipeline_hook; eauto.
    - eapply Hno; eauto. }
  split; [reflexivity |]. split; [| split; [| split; [| split; [| split]]]].
  - unfold events_of at 1. cbn [snd]. right. apply in_or_app. right.
    rewrite showValidationErrors_run.
    destruct (showValidationErrorsStart h (hideError v1)) as [[reported|e] v2];
      [destruct (truthy reported) |]; try (left; reflexivity).
    destruct (showValidationErrors_loop h (query is_validated_input v2) v2)
      as [[o v3] t3].
    left. reflexivity.
  - intros reported v2 Hstart. unfold outcome at 1 3 5 7 9, view_of at 1 3 5 7 9.
    cbn [fst snd]. split; [| split].
    + intros Hreported. rewrite showValidationErrors_run, Hstart, Hreported.
      split; reflexivity.
    + intros Hreported i el Hfirst.
      rewrite (showValidationErrors_start _ _ _ _ Hstart Hreported).
      rewrite (showValidationErrors_loop_first _ _ _ _ Hfirst).
      rewrite showEmailValidationError_kind, showPasswordValidationError_kind.
      split; [| split]; intros Hkind; rewrite Hkind; cbv zeta;
        rewrite ?showValidationError_run; unfold outcome, view_of; cbn [fst snd settled];
        rewrite ?tooltips_with_tooltip; split; reflexivity.
    + intros Hreported Hfirst o v3 Hend.
      rewrite (showValidationErrors_start _ _ _ _ Hstart Hreported).
      rewrite (showValidationErrors_loop_none _ _ Hfirst).
      unfold bind, invoke, ret. rewrite Hend.
      destruct o; split; reflexivity.
  - intros e v2 Hstart. rewrite showValidationErrors_run, Hstart.
    split; reflexivity.
  - apply Hnone. right. left. reflexivity.
  - exact Hnone.
  - intros v0 Hidle <-. rewrite (validateAndSubmit_idle _ _ Hidle).
    rewrite (validateAndSubmit_handler_invalid h (submitting v0) v1 t1
               Hhalted Hvalid).
    reflexivity.
Qed.

(** C9. [validateAndSubmit] checks validity before enablement.  On a
    view that is not halted and whose form is disabled: when [isValid]
    answers true the promise resolves quietly, nothing is displayed and
    none of [beforeSubmit], [submit], [afterSubmit] is invoked; when
    [isValid] answers false the error-display pass
    [showValidationErrors] still runs and the promise is rejected with
    its result.  This holds of the function as the source defines it,
    and of a call that enters it through the single-flight guard from
    an idle view. *)
Theorem validateAndSubmit_disabled
    (h : Hooks) (v v1 : View) (valid : bool) (t1 : list Event) :
  isHalted v = false ->
  isValid h v = (Resolved valid, v1, t1) ->
  isFormEnabled v1 = false ->
  let shown := showValidationErrors h v1 in
  let r := validateAndSubmit_handler h v in
  r = (if valid
       then (Resolved JSundefined, v1, Triggered "submitStart" [] :: t1)
       else (Rejected (settled (outcome shown)), view_of shown,
             Triggered "submitStart" [] :: t1 ++ events_of shown))
  /\ Forall is_validity_check t1
  /\ no_pipeline_hook (events_of r)
  /\ (forall v0,
        isSubmitting v0 = false -> submitting v0 = v ->
        validateAndSubmit h v0 = (outcome r, idle (view_of r), events_of r)).
Proof.
  intros Hhalted Hvalid Hdisabled shown r. subst shown r.
  pose proof (isValid_events h v) as Ht1.
  rewrite Hvalid in Ht1. unfold events_of at 1 in Ht1; simpl in Ht1.
  assert (Hguard : forall v0,
            isSubmitting v0 = false -> submitting v0 = v ->
            validateAndSubmit h v0 =
            (outcome (validateAndSubmit_handler h v),
             idle (view_of (validateAndSubmit_handler h v)),
             events_of (validateAndSubmit_handler h v))).
  { intros v0 Hidle <-. rewrite (validateAndSubmit_idle _ _ Hidle).
    destruct (validateAndSubmit_handler h (submitting v0)) as [[o v'] t].
    reflexivity. }
  split; [| split; [exact Ht1 | split; [| exact Hguard]]].
  - destruct valid.
    + apply (validateAndSubmit_handler_disabled h v v1 t1 Hhalted Hvalid Hdisabled).
    + apply (validateAndSubmit_handler_invalid h v v1 t1 Hhalted Hvalid).
  - destruct valid.
    + rewrite (validateAndSubmit_handler_disabled h v v1 t1 Hhalted Hvalid Hdisabled).
      intros hook Hhook [Heq | Hin]; [discriminate |].
      eapply validity_check_no_pipeline_hook; eauto.
    + rewrite (validateAndSubmit_handler_invalid h v v1 t1 Hhalted Hvalid).
      destruct (showValidationErrors_displayed h v1) as [Hno _].
      intros hook Hhook [Heq | Hin]; [discriminate |].
      apply in_app_or in Hin as [Hin | Hin].
      * eapply validity_check_no_pipeline_hook; eauto.
      * eapply Hno; eauto.
Qed.

Lemma enableSubmitIfValid_busy h v :
  isSubmitting v = true \/ isHalted v = true ->
  enableSubmitIfValid h v = (Resolved tt, v, []).
Proof.
  intros Hbusy. unfold enableSubmitIfValid, bind, gets, ret.
  replace (isSubmitting v || isHalted v) with true; [reflexivity |].
  symmetry. apply orb_true_iff. exact Hbusy.
Qed.

Lemma enableSubmitIfValid_run h v :
  isSubmitting v = false ->
  isHalted v = false ->
  enableSubmitIfValid h v =
  match isValid h (hideSuccess (hideError v)) with
  | (Resolved valid, v1, t1) =>
      (Resolved tt, if valid then enableForm v1 else disableForm v1, t1)
  | (Rejected e, v1, t1) => (Rejected e, v1, t1)
  end.
Proof.
  intros Hidle Hhalted. unfold enableSubmitIfValid.
  unfold bind at 1. unfold gets at 1. rewrite Hidle, Hhalted. simpl.
  unfold bind at 1. unfold modify at 1. unfold bind at 1. unfold modify at 1.
  unfold bind.
  destruct (isValid h (hideSuccess (hideError v))) as [[[valid|e] v1] t1];
    [| reflexivity].
  destruct valid; unfold modify; simpl; rewrite app_nil_r; reflexivity.
Qed.

(** C10. [enableSubmitIfValid] is guarded.  While the view is
    submitting or halted the call changes nothing: enablement, the
    visible error and the visible success message stay as they are.
    Otherwise the error and the success message are hidden first, and
    then the form is enabled exactly when [isValid] answers true. *)
Theorem enableSubmitIfValid_guarded (h : Hooks) (v : View) :
  (isSubmitting v = true \/ isHalted v = true ->
     enableSubmitIfValid h v = (Resolved tt, v, []))
  /\ (isSubmitting v = false -> isHalted v = false ->
      forall valid v1 t1,
        isValid h (hideSuccess (hideError v)) = (Resolved valid, v1, t1) ->
        isErrorVisible (hideSuccess (hideError v)) = false
        /\ _isSuccessVisible (hideSuccess (hideError v)) = false
        /\ enableSubmitIfValid h v =
           (Resolved tt, if valid then enableForm v1 else disableForm v1, t1)
        /\ isFormEnabled (view_of (enableSubmitIfValid h v)) = valid).
Proof.
  split; [apply enableSubmitIfValid_busy |].
  intros Hidle Hhalted valid v1 t1 Hvalid.
  rewrite (enableSubmitIfValid_run _ _ Hidle Hhalted), Hvalid.
  repeat split. destruct valid; reflexivity.
Qed.

Lemma _submitForm_run h v :
  _submitForm h v =
  match beforeSubmit h v with
  | (Resolved shouldSubmit, v1) =>
      if is_not_false shouldSubmit then
        match submit h v1 with
        | (Resolved result, v2) =>
            match afterSubmit h result v2 with
            | (o, v3) =>
                (o, v3, [Invoked BeforeSubmit; Invoked Submit; Invoked AfterSubmit])
            end
        | (Rejected err, v2) =>
            (Rejected err, set_isErrorVisible true v2,
             [Invoked BeforeSubmit; Invoked Submit; ErrorDisplayed err])
        end
      else
        match afterSubmit h JSundefined v1 with
        | (o, v3) => (o, v3, [Invoked BeforeSubmit; Invoked AfterSubmit])
        end
  | (Rejected err, v1) =>
      (Rejected err, set_isErrorVisible true v1,
       [Invoked BeforeSubmit; ErrorDisplayed err])
  end.
Proof.
  unfold _submitForm, notifyDelayedRequest, showButtonProgressIndicator.
  unfold displayError, bind, catch, invoke, modify, emit, throw, ret.
  destruct (beforeSubmit h v) as [[shouldSubmit|err] v1]; [| reflexivity].
  destruct (is_not_false shouldSubmit).
  - destruct (submit h v1) as [[result|err] v2]; simpl.
    + destruct (afterSubmit h result v2) as [o v3]. reflexivity.
    + reflexivity.
  - simpl. destruct (afterSubmit h JSundefined v1) as [o v3]. reflexivity.
Qed.

(** C5. In the chain of [_submitForm]: when [beforeSubmit] returns or
    resolves to false, [submit] is skipped and [afterSubmit] still
    runs; when [beforeSubmit] or [submit] throws or is rejected, the
    error is handed to [displayError], the chain is rejected with that
    same error, and [afterSubmit] is not invoked. *)
Theorem _submitForm_chain (h : Hooks) (v : View) :
  (forall v1,
     beforeSubmit h v = (Resolved (JSbool false), v1) ->
     _submitForm h v =
       ((afterSubmit h JSundefined v1).1, (afterSubmit h JSundefined v1).2,
        [Invoked BeforeSubmit; Invoked AfterSubmit])
     /\ ~ In (Invoked Submit) (events_of (_submitForm h v))
     /\ In (Invoked AfterSubmit) (events_of (_submitForm h v)))
  /\ (forall err v1,
     beforeSubmit h v = (Rejected err, v1) ->
     _submitForm h v =
       (Rejected err, set_isErrorVisible true v1,
        [Invoked BeforeSubmit; ErrorDisplayed err])
     /\ ~ In (Invoked AfterSubmit) (events_of (_submitForm h v)))
  /\ (forall shouldSubmit v1 err v2,
     beforeSubmit h v = (Resolved shouldSubmit, v1) ->
     is_not_false shouldSubmit = true ->
     submit h v1 = (Rejected err, v2) ->
     _submitForm h v =
       (Rejected err, set_isErrorVisible true v2,
        [Invoked BeforeSubmit; Invoked Submit; ErrorDisplayed err])
     /\ ~ In (Invoked AfterSubmit) (events_of (_submitForm h v))).
Proof.
  rewrite _submitForm_run. repeat split.
  - rewrite H. simpl. destruct (afterSubmit h JSundefined v1). reflexivity.
  - rewrite H. simpl. destruct (afterSubmit h JSundefined v1).
    unfold events_of; simpl. intros [? | [? | []]]; discriminate.
  - rewrite H. simpl. destruct (afterSubmit h JSundefined v1).
    unfold events_of; simpl. auto.
  - rewrite H. reflexivity.
  - rewrite H. unfold events_of; simpl. intros [? | [? | []]]; discriminate.
  - rewrite H, H0, H1. reflexivity.
  - rewrite H, H0, H1. unfold events_of; simpl.
    intros [? | [? | [? | []]]]; discriminate.
Qed.

(** *** Stability of the flags *)

Lemma preserves_ret {A} P (a : A) : preserves P (ret a).
Proof. intros v Hv. exact Hv. Qed.

Lemma preserves_throw {A} P e : preserves P (@throw A e).
Proof. intros v Hv. exact Hv. Qed.

Lemma preserves_gets {A} P (f : View -> A) : preserves P (gets f).
Proof. intros v Hv. exact Hv. Qed.

Lemma preserves_emit P e : preserves P (emit e).
Proof. intros v Hv. exact Hv. Qed.

Lemma preserves_modify P f :
  (forall v, P v -> P (f v)) -> preserves P (modify f).
Proof. intros Hf v Hv. apply Hf, Hv. Qed.

Lemma preserves_invoke {A} P name (hook : Hook A) :
  hook_preserves P hook -> preserves P (invoke name hook).
Proof.
  intros Hhook v Hv. unfold invoke, view_of. specialize (Hhook v Hv).
  destruct (hook v) as [o v']. exact Hhook.
Qed.

Lemma preserves_bind {A B} P (m : M A) (k : A -> M B) :
  preserves P m -> (forall a, preserves P (k a)) -> preserves P (bind m k).
Proof.
  intros Hm Hk v Hv. unfold bind, view_of. specialize (Hm v Hv).
  unfold view_of in Hm. destruct (m v) as [[[a|e] v1] t1]; simpl in *.
  - specialize (Hk a v1 Hm). unfold view_of in Hk.
    destruct (k a v1) as [[o v2] t2]. exact Hk.
  - exact Hm.
Qed.

Lemma preserves_catch {A} P (m : M A) (onRejected : JSVal -> M A) :
  preserves P m -> (forall e, preserves P (onRejected e)) ->
  preserves P (catch m onRejected).
Proof.
  intros Hm Hk v Hv. unfold catch, view_of. specialize (Hm v Hv).
  unfold view_of in Hm. destruct (m v) as [[[a|e] v1] t1]; simpl in *.
  - exact Hm.
  - specialize (Hk e v1 Hm). unfold view_of in Hk.
    destruct (onRejected e v1) as [[o v2] t2]. exact Hk.
Qed.

Lemma preserves_if {A} P (b : bool) (m1 m2 : M A) :
  preserves P m1 -> preserves P m2 -> preserves P (if b then m1 else m2).
Proof. destruct b; auto. Qed.

(** Stability of a property along a computation, by its structure. *)
Ltac stable :=
  repeat first
    [ assumption
    | apply preserves_bind; [| intros ?]
    | apply preserves_catch; [| intros ?]
    | apply preserves_if
    | apply preserves_ret | apply preserves_throw | apply preserves_gets
    | apply preserves_emit
    | apply preserves_invoke; solve [auto]
    | apply preserves_modify; intros ? Hstable; exact Hstable ].

Lemma isValid_preserves P h :
  hook_preserves P (isValidStart h) -> hook_preserves P (isValidEnd h) ->
  preserves P (isValid h).
Proof. intros Hs He. unfold isValid. stable. Qed.

Lemma isHalted_unmark displayed v : isHalted (unmark displayed v) = isHalted v.
Proof.
  revert v. induction displayed as [|tooltip rest IH]; intros v; simpl;
    [reflexivity | rewrite IH; reflexivity].
Qed.

Lemma showValidationError_halted el err : preserves halted (showValidationError el err).
Proof.
  intros v Hv. rewrite showValidationError_run.
  unfold view_of, halted, with_tooltip; simpl.
  rewrite isHalted_focus. simpl. rewrite isHalted_unmark. exact Hv.
Qed.

Section HookedView.

Variable h : Hooks.
Hypothesis h_keeps_halted : keeps_halted h.

Lemma isValid_halted : preserves halted (isValid h).
Proof. apply isValid_preserves; apply h_keeps_halted. Qed.

Lemma showValidationErrors_loop_halted inputEls :
  preserves halted (showValidationErrors_loop h inputEls).
Proof.
  destruct h_keeps_halted as (_ & _ & _ & Hend & _).
  induction inputEls as [|[i el] rest IH]; simpl.
  - stable.
  - repeat apply preserves_if; try exact IH; try apply preserves_ret.
    + unfold showEmailValidationError. apply showValidationError_halted.
    + unfold showPasswordValidationError. apply showValidationError_halted.
Qed.

Lemma showValidationErrors_halted : preserves halted (showValidationErrors h).
Proof.
  destruct h_keeps_halted as (_ & _ & Hstart & _).
  unfold showValidationErrors. stable.
  apply showValidationErrors_loop_halted.
Qed.

Lemma _submitForm_halted : preserves halted (_submitForm h).
Proof.
  destruct h_keeps_halted as (_ & _ & _ & _ & Hbefore & Hsubmit & Hafter).
  unfold _submitForm, notifyDelayedRequest, showButtonProgressIndicator.
  unfold displayError. stable.
Qed.

Lemma validateAndSubmit_handler_keeps_halted :
  preserves halted (validateAndSubmit_handler h).
Proof.
  pose proof isValid_halted as Hvalid.
  pose proof showValidationErrors_halted as Hshow.
  pose proof _submitForm_halted as Hsubmit.
  unfold validateAndSubmit_handler, trigger, logViewEvent. stable.
Qed.

Lemma validateAndSubmit_halted : preserves halted (validateAndSubmit h).
Proof.
  intros v Hv. unfold validateAndSubmit, allowOnlyOneSubmit.
  destruct (isSubmitting v); [exact Hv |].
  pose proof (validateAndSubmit_handler_keeps_halted (submitting v) Hv) as Hh.
  unfold view_of, submitting in *.
  destruct (validateAndSubmit_handler h (set_isSubmitting true v)) as [[o v'] t].
  exact Hh.
Qed.

Lemma enableSubmitIfValid_halted : preserves halted (enableSubmitIfValid h).
Proof.
  intros v Hv. rewrite enableSubmitIfValid_busy; [exact Hv | right; exact Hv].
Qed.

Lemma updateFormValueChanges_halted v :
  halted v -> halted (updateFormValueChanges v).2.
Proof.
  unfold updateFormValueChanges.
  destruct (detectFormValueChanges v); intros Hv; exact Hv.
Qed.

Lemma afterRender_halted modelHasError :
  preserves halted (afterRender h modelHasError).
Proof.
  pose proof enableSubmitIfValid_halted as Henable.
  unfold afterRender. apply preserves_bind; [| intros ?; stable].
  apply preserves_modify. apply updateFormValueChanges_halted.
Qed.

Lemma ifFormValuesChanged_halted :
  preserves halted (ifFormValuesChanged (enableSubmitIfValid h)).
Proof.
  intros v Hv. unfold ifFormValuesChanged.
  pose proof (updateFormValueChanges_halted v Hv) as Hu.
  destruct (updateFormValueChanges v) as [[s|] v']; simpl in Hu; [| exact Hu].
  pose proof (enableSubmitIfValid_halted v' Hu) as He. unfold view_of in *.
  destruct (enableSubmitIfValid h v') as [[[a|e] v''] t]; exact He.
Qed.

Lemma perform_halted op v : halted v -> halted (perform h op v).
Proof.
  destruct h_keeps_halted as (_ & _ & _ & _ & Hbefore & Hsubmit & Hafter).
  intros Hv. destruct op; simpl.
  - apply afterRender_halted, Hv.
  - apply ifFormValuesChanged_halted, Hv.
  - apply enableSubmitIfValid_halted, Hv.
  - exact Hv.
  - exact Hv.
  - apply validateAndSubmit_halted, Hv.
  - apply _submitForm_halted, Hv.
  - apply showValidationErrors_halted, Hv.
  - apply showValidationError_halted, Hv.
  - apply Hbefore, Hv.
  - apply Hsubmit, Hv.
  - apply Hafter, Hv.
  - reflexivity.
  - apply updateFormValueChanges_halted, Hv.
  - exact Hv.
Qed.

Lemma perform_all_halted ops v : halted v -> halted (perform_all h ops v).
Proof.
  revert v. induction ops as [|op ops IH]; intros v Hv; simpl; [exact Hv |].
  apply IH, perform_halted, Hv.
Qed.

End HookedView.

Lemma FormView_keeps_halted : keeps_halted FormView.
Proof.
  unfold keeps_halted, hook_preserves, halted.
  split; [| split; [| split; [| split; [| split; [| split]]]]];
    try (intros v Hv; exact Hv).
  intros result v Hv. simpl. unfold default_afterSubmit.
  destruct (truthy result && truthy (prop "halt" result)); [reflexivity |].
  destruct (negb (isErrorVisible v)); exact Hv.
Qed.

Lemma FormView_keeps_in_flight : keeps_in_flight FormView.
Proof.
  unfold keeps_in_flight, hook_preserves, in_flight.
  split; [| split; [| split]]; intros v Hv; exact Hv.
Qed.

Lemma validateAndSubmit_handler_rejected h v e v1 t1 :
  isHalted v = false ->
  isValid h v = (Rejected e, v1, t1) ->
  validateAndSubmit_handler h v = (Rejected e, v1, Triggered "submitStart" [] :: t1).
Proof.
  intros Hhalted Hvalid. unfold validateAndSubmit_handler.
  unfold bind at 1. unfold trigger, emit. unfold bind at 1. unfold gets at 1.
  rewrite Hhalted. unfold bind at 1. rewrite Hvalid. reflexivity.
Qed.

Lemma halt_requested result :
  truthy (prop "halt" result) = true ->
  truthy result && truthy (prop "halt" result) = true.
Proof. destruct result; simpl; try discriminate. auto. Qed.

(** C6. When [submit] on a valid form resolves with a result whose
    [halt] is truthy, the default [afterSubmit] halts the view.  Once
    the view is halted, [validateAndSubmit] resolves without
    validating, displaying or submitting anything and leaves the view
    as it is.  And no operation of [FormView] clears the halted flag,
    nor does any operation of a descendant view whose own strategies
    leave the flag alone. *)
Theorem halted_is_terminal (h : Hooks) :
  (forall v v1 t1 shouldSubmit v2 result v3,
     afterSubmit h result v3 = default_afterSubmit result v3 ->
     isSubmitting v = false ->
     isHalted v = false ->
     isValid h (submitting v) = (Resolved true, v1, t1) ->
     isFormEnabled v1 = true ->
     beforeSubmit h v1 = (Resolved shouldSubmit, v2) ->
     is_not_false shouldSubmit = true ->
     submit h v2 = (Resolved result, v3) ->
     truthy (prop "halt" result) = true ->
     outcome (validateAndSubmit h v) = Resolved result
     /\ view_of (validateAndSubmit h v) = idle (halt v3)
     /\ isHalted (view_of (validateAndSubmit h v)) = true)
  /\ (forall v,
     isHalted v = true ->
     outcome (validateAndSubmit h v) = Resolved JSundefined
     /\ view_of (validateAndSubmit h v) = v
     /\ events_of (validateAndSubmit h v) =
        (if isSubmitting v then [] else [Triggered "submitStart" []]))
  /\ (forall ops v,
        isHalted v = true -> isHalted (perform_all FormView ops v) = true)
  /\ (keeps_halted h ->
      forall ops v, isHalted v = true -> isHalted (perform_all h ops v) = true).
Proof.
  split; [| split; [| split]].
  - intros v v1 t1 shouldSubmit v2 result v3
      Hafter Hidle Hhalted Hvalid Henabled Hbefore Hgo Hsubmit Hhalt.
    rewrite (validateAndSubmit_idle _ _ Hidle).
    rewrite (validateAndSubmit_handler_enabled h (submitting v) v1 t1
               Hhalted Hvalid Henabled).
    rewrite _submitForm_run, Hbefore, Hgo, Hsubmit, Hafter.
    unfold default_afterSubmit. rewrite (halt_requested _ Hhalt).
    repeat split.
  - intros v Hhalted. destruct (isSubmitting v) eqn:Hflag.
    + rewrite (validateAndSubmit_in_flight _ _ Hflag). repeat split.
    + rewrite (validateAndSubmit_idle _ _ Hflag).
      rewrite (validateAndSubmit_handler_halted h (submitting v) Hhalted).
      unfold view_of; simpl. rewrite (idle_submitting _ Hflag). repeat split.
  - intros ops v Hv.
    apply (perform_all_halted FormView FormView_keeps_halted ops v Hv).
  - intros Hkeeps ops v Hv. apply (perform_all_halted h Hkeeps ops v Hv).
Qed.

Lemma interrupted_in_flight {A} h' (hook : Hook A) v :
  isSubmitting v = true -> interrupted h' hook v = hook v.
Proof.
  intros Hflag. unfold interrupted.
  rewrite (validateAndSubmit_in_flight _ _ Hflag). reflexivity.
Qed.

Lemma _submitForm_concurrent h h' v :
  hook_preserves in_flight (beforeSubmit h) ->
  hook_preserves in_flight (submit h) ->
  isSubmitting v = true ->
  _submitForm (with_concurrent_attempts h' h) v = _submitForm h v.
Proof.
  intros Hbefore Hsubmit Hflag. rewrite !_submitForm_run. simpl.
  rewrite (interrupted_in_flight _ _ _ Hflag).
  specialize (Hbefore v Hflag).
  destruct (beforeSubmit h v) as [[shouldSubmit|err] v1]; [| reflexivity].
  simpl in Hbefore. destruct (is_not_false shouldSubmit).
  - rewrite (interrupted_in_flight _ _ _ Hbefore).
    specialize (Hsubmit v1 Hbefore).
    destruct (submit h v1) as [[result|err] v2]; [| reflexivity].
    simpl in Hsubmit. rewrite (interrupted_in_flight _ _ _ Hsubmit).
    reflexivity.
  - rewrite (interrupted_in_flight _ _ _ Hbefore). reflexivity.
Qed.

Lemma showValidationErrors_concurrent h h' v :
  showValidationErrors (with_concurrent_attempts h' h) v = showValidationErrors h v.
Proof.
  assert (Hloop : forall inputEls,
            showValidationErrors_loop (with_concurrent_attempts h' h) inputEls =
            showValidationErrors_loop h inputEls).
  { induction inputEls as [|[i el] rest IH]; simpl; [reflexivity |].
    rewrite IH. reflexivity. }
  rewrite !showValidationErrors_run. simpl.
  destruct (showValidationErrorsStart h (hideError v)) as [[shown|e] v1];
    [| reflexivity].
  rewrite Hloop. reflexivity.
Qed.

Lemma validateAndSubmit_handler_concurrent h h' v :
  keeps_in_flight h ->
  isSubmitting v = true ->
  validateAndSubmit_handler (with_concurrent_attempts h' h) v =
  validateAndSubmit_handler h v.
Proof.
  intros (Hstart & Hend & Hbefore & Hsubmit) Hflag.
  destruct (isHalted v) eqn:Hhalted.
  { rewrite !(validateAndSubmit_handler_halted _ _ Hhalted). reflexivity. }
  pose proof (isValid_preserves in_flight h Hstart Hend v Hflag) as Hv1.
  destruct (isValid h v) as [[[valid|e] v1] t1] eqn:Hvalid;
    unfold view_of in Hv1; simpl in Hv1.
  - destruct valid.
    + destruct (isFormEnabled v1) eqn:Henabled.
      * rewrite (validateAndSubmit_handler_enabled h v v1 t1
                   Hhalted Hvalid Henabled).
        rewrite (validateAndSubmit_handler_enabled
                   (with_concurrent_attempts h' h) v v1 t1
                   Hhalted Hvalid Henabled).
        rewrite (_submitForm_concurrent _ _ _ Hbefore Hsubmit Hv1).
        reflexivity.
      * rewrite (validateAndSubmit_handler_disabled h v v1 t1
                   Hhalted Hvalid Henabled).
        rewrite (validateAndSubmit_handler_disabled
                   (with_concurrent_attempts h' h) v v1 t1
                   Hhalted Hvalid Henabled).
        reflexivity.
    + rewrite (validateAndSubmit_handler_invalid h v v1 t1 Hhalted Hvalid).
      rewrite (validateAndSubmit_handler_invalid
                 (with_concurrent_attempts h' h) v v1 t1 Hhalted Hvalid).
      rewrite showValidationErrors_concurrent. reflexivity.
  - rewrite (validateAndSubmit_handler_rejected h v e v1 t1 Hhalted Hvalid).
    rewrite (validateAndSubmit_handler_rejected
               (with_concurrent_attempts h' h) v e v1 t1 Hhalted Hvalid).
    reflexivity.
Qed.

Lemma submit_count_app t1 t2 :
  submit_count (t1 ++ t2) = submit_count t1 + submit_count t2.
Proof.
  unfold submit_count. rewrite List.filter_app, List.length_app. reflexivity.
Qed.

Lemma submit_count_no_pipeline_hook t :
  no_pipeline_hook t -> submit_count t = 0.
Proof.
  induction t as [|e t IH]; intros Hno; [reflexivity |].
  unfold submit_count in *. simpl.
  destruct (invokes_submit e) eqn:He.
  - exfalso. destruct e as [| | | |hook]; try discriminate.
    destruct hook; try discriminate.
    apply (Hno Submit); [right; left; reflexivity | left; reflexivity].
  - apply IH. intros hook Hhook Hin. apply (Hno hook Hhook). right. exact Hin.
Qed.

Lemma submit_count_submitForm h v :
  submit_count (events_of (_submitForm h v)) <= 1.
Proof.
  rewrite _submitForm_run.
  destruct (beforeSubmit h v) as [[shouldSubmit|err] v1];
    [| unfold submit_count, events_of; simpl; lia].
  destruct (is_not_false shouldSubmit).
  - destruct (submit h v1) as [[result|err] v2];
      [| unfold submit_count, events_of; simpl; lia].
    destruct (afterSubmit h result v2) as [o v3].
    unfold submit_count, events_of; simpl; lia.
  - destruct (afterSubmit h JSundefined v1) as [o v3].
    unfold submit_count, events_of; simpl; lia.
Qed.

Lemma submit_count_handler h v :
  submit_count (events_of (validateAndSubmit_handler h v)) <= 1.
Proof.
  destruct (isHalted v) eqn:Hhalted.
  { rewrite (validateAndSubmit_handler_halted _ _ Hhalted).
    unfold submit_count, events_of; simpl; lia. }
  pose proof (isValid_events h v) as Ht1.
  destruct (isValid h v) as [[[valid|e] v1] t1] eqn:Hvalid;
    unfold events_of at 1 in Ht1; simpl in Ht1;
    apply validity_check_no_pipeline_hook, submit_count_no_pipeline_hook in Ht1.
  - destruct valid.
    + destruct (isFormEnabled v1) eqn:Henabled.
      * rewrite (validateAndSubmit_handler_enabled h v v1 t1
                   Hhalted Hvalid Henabled).
        pose proof (submit_count_submitForm h v1) as Hsubmit.
        destruct (_submitForm h v1) as [[o v2] t2].
        unfold events_of in *; simpl in *.
        change (submit_count (t1 ++ ViewEventLogged "submit" :: t2) <= 1).
        rewrite submit_count_app, Ht1. exact Hsubmit.
      * rewrite (validateAndSubmit_handler_disabled h v v1 t1
                   Hhalted Hvalid Henabled).
        unfold events_of; simpl. change (submit_count t1 <= 1). lia.
    + rewrite (validateAndSubmit_handler_invalid h v v1 t1 Hhalted Hvalid).
      destruct (showValidationErrors_displayed h v1) as [Hno _].
      apply submit_count_no_pipeline_hook in Hno.
      unfold events_of at 1; simpl.
      change (submit_count (t1 ++ events_of (showValidationErrors h v1)) <= 1).
      rewrite submit_count_app, Ht1, Hno. lia.
  - rewrite (validateAndSubmit_handler_rejected h v e v1 t1 Hhalted Hvalid).
    unfold events_of; simpl. change (submit_count t1 <= 1). lia.
Qed.

(** C7. Submission is single-flight.  A call of [validateAndSubmit]
    made while a submission is in flight resolves at once, changes
    nothing in the view and emits nothing: no second [submit], no state
    transition, no queuing and no error.  Consequently a submission
    during which further attempts arrive, while [beforeSubmit], [submit]
    or [afterSubmit] is pending, runs exactly as it does undisturbed;
    and one call never invokes [submit] more than once. *)
Theorem validateAndSubmit_single_flight (h h' : Hooks) (v : View) :
  (isSubmitting v = true ->
     validateAndSubmit h v = (Resolved JSundefined, v, []))
  /\ (isSubmitting v = false ->
      keeps_in_flight h ->
      validateAndSubmit (with_concurrent_attempts h' h) v = validateAndSubmit h v)
  /\ submit_count (events_of (validateAndSubmit h v)) <= 1.
Proof.
  split; [apply validateAndSubmit_in_flight | split].
  - intros Hidle Hkeeps. rewrite !(validateAndSubmit_idle _ _ Hidle).
    rewrite (validateAndSubmit_handler_concurrent h h' (submitting v) Hkeeps);
      reflexivity.
  - destruct (isSubmitting v) eqn:Hflag.
    + rewrite (validateAndSubmit_in_flight _ _ Hflag).
      unfold submit_count, events_of; simpl; lia.
    + rewrite (validateAndSubmit_idle _ _ Hflag).
      pose proof (submit_count_handler h (submitting v)) as Hcount.
      destruct (validateAndSubmit_handler h (submitting v)) as [[o v'] t].
      exact Hcount.
Qed.

End Properties.

(** ** Further properties of the form view *)

Section MoreProperties.

Context {validate : Validate} {authErrors : AuthErrors} {userAgent : UserAgent}.

(** *** The snapshot of the form values *)

Lemma filter_filter_and {A} (P Q : A -> bool) (l : list A) :
  List.filter Q (List.filter P l) = List.filter (fun x => P x && Q x) l.
Proof.
  induction l as [|x l IH]; simpl; [reflexivity |].
  destruct (P x); simpl; [destruct (Q x) |]; rewrite ?IH; reflexivity.
Qed.

Lemma getFormValues_loop_snapshot inputEls values :
  getFormValues_loop inputEls values =
  snapshot_of
    (List.filter (fun el => bool_decide (attr "data-novalue" el = None))
                 (List.map snd inputEls))
    values.
Proof.
  revert values. induction inputEls as [|[i el] rest IH]; intros values; simpl;
    [reflexivity |].
  case_bool_decide; simpl; apply IH.
Qed.

Lemma getFormValues_snapshot v :
  getFormValues v = snapshot_of (List.filter is_tracked_field (dom v)) ∅.
Proof.
  unfold getFormValues, query. rewrite getFormValues_loop_snapshot.
  rewrite map_snd_select_from, filter_filter_and. reflexivity.
Qed.

Lemma assign_lookup name val values k :
  assign name val values !! k =
  if String.eqb name k && negb (String.eqb k "__proto__") then Some val
  else values !! k.
Proof.
  unfold assign.
  destruct (String.eqb_spec name "__proto__") as [Hproto | Hproto];
    destruct (String.eqb_spec name k) as [Heq | Hne]; cbn [andb].
  - subst k. rewrite Hproto, String.eqb_refl. reflexivity.
  - reflexivity.
  - subst k. apply String.eqb_neq in Hproto. rewrite Hproto. cbn [negb].
    apply lookup_insert_eq.
  - apply lookup_insert_ne. exact Hne.
Qed.

Lemma snapshot_of_lookup els values k :
  snapshot_of els values !! k =
  match last (List.map getElementValue
                (List.filter (fun el => String.eqb (field_name el) k
                                        && negb (String.eqb k "__proto__")) els)) with
  | Some val => Some val
  | None => values !! k
  end.
Proof.
  revert values. induction els as [|el els IH]; intros values;
    [reflexivity |].
  unfold snapshot_of in *. cbn [fold_left List.filter]. rewrite IH.
  rewrite assign_lookup.
  destruct (String.eqb (field_name el) k && negb (String.eqb k "__proto__"));
    [| reflexivity].
  cbn [List.map]. rewrite last_cons. destruct (last _); reflexivity.
Qed.

(** X1. [getFormValues] ignores everything but the inputs, textareas
    and selects that carry no [data-novalue] attribute: taking all other
    elements out of the form leaves the values as they are. *)
Theorem getFormValues_ignores_untracked (v : View) :
  getFormValues (set_dom (List.filter is_tracked_field) v) = getFormValues v.
Proof.
  rewrite !getFormValues_snapshot. simpl.
  rewrite filter_filter_and. f_equal.
  induction (dom v) as [|el els IH]; simpl; [reflexivity |].
  destruct (is_tracked_field el); simpl; rewrite IH; reflexivity.
Qed.

Lemma getFormValues_lookup_last v k :
  getFormValues v !! k =
  if String.eqb k "__proto__" then None
  else last (List.map getElementValue
               (List.filter (fun el => is_tracked_field el
                                       && String.eqb (field_name el) k)
                            (dom v))).
Proof.
  rewrite getFormValues_snapshot, snapshot_of_lookup, filter_filter_and.
  rewrite lookup_empty.
  destruct (String.eqb k "__proto__"); cbn [negb].
  - replace (List.filter _ (dom v)) with (@nil Element); [reflexivity |].
    induction (dom v) as [|x els IH]; cbn [List.filter]; [reflexivity |].
    rewrite !andb_false_r. exact IH.
  - replace (List.filter (fun x => is_tracked_field x
                                   && (String.eqb (field_name x) k && true)) (dom v))
      with (List.filter (fun el => is_tracked_field el
                                   && String.eqb (field_name el) k) (dom v)).
    + destruct (last _); reflexivity.
    + induction (dom v) as [|x els IH]; cbn [List.filter]; [reflexivity |].
      rewrite andb_true_r, IH. reflexivity.
Qed.

Lemma getFormValues_no_proto v : getFormValues v !! "__proto__" = None.
Proof. rewrite getFormValues_lookup_last. reflexivity. Qed.

Lemma getFormValues_lookup_key v k :
  k <> "__proto__" ->
  getFormValues v !! k =
  last (List.map getElementValue
          (List.filter (fun el => is_tracked_field el && String.eqb (field_name el) k)
                       (dom v))).
Proof.
  intros Hk. rewrite getFormValues_lookup_last.
  apply String.eqb_neq in Hk. rewrite Hk. reflexivity.
Qed.

(** X2. The form values are the own properties of a plain object.  No
    value is ever recorded under the key [__proto__].  Under any other
    key, the value recorded is that of the last field read whose name,
    or whose id when it has no name, is that key; such a key is absent
    exactly when no field read carries it. *)
Theorem getFormValues_lookup (v : View) (k : string) :
  getFormValues v !! "__proto__" = None
  /\ (k <> "__proto__" ->
      getFormValues v !! k =
      last (List.map getElementValue
              (List.filter (fun el => is_tracked_field el
                                      && String.eqb (field_name el) k)
                           (dom v)))
      /\ (getFormValues v !! k = None <->
          forall el, In el (dom v) -> is_tracked_field el = true ->
                     field_name el <> k)).
Proof.
  split; [apply getFormValues_no_proto |].
  intros Hk. split; [apply getFormValues_lookup_key, Hk |].
  rewrite (getFormValues_lookup_key _ _ Hk).
  induction (dom v) as [|x els IH]; cbn [List.filter List.map].
  - split; [intros _ el [] | reflexivity].
  - destruct (is_tracked_field x) eqn:Hx; cbn [andb].
    + destruct (String.eqb_spec (field_name x) k) as [Heq | Hne].
      * cbn [List.map]. rewrite last_cons. split.
        -- destruct (last _); discriminate.
        -- intros Hnone. exfalso. apply (Hnone x); [left; reflexivity | exact Hx | exact Heq].
      * rewrite IH. split.
        -- intros Hnone el [<- | Hin] Hel; [exact Hne | apply Hnone; assumption].
        -- intros Hnone el Hin. apply Hnone. right. exact Hin.
    + rewrite IH. split.
      * intros Hnone el [<- | Hin] Hel; [congruence | apply Hnone; assumption].
      * intros Hnone el Hin. apply Hnone. right. exact Hin.
Qed.

(** *** Elements the form cannot tell apart *)

Lemma same_field_refl el : same_field el el.
Proof. repeat split. Qed.

Lemma same_field_addClass c el :
  c <> "password" -> same_field el (addClass c el).
Proof.
  intros Hc. unfold addClass. destruct (hasClass c el); [apply same_field_refl |].
  repeat split. unfold hasClass. cbn [classes]. rewrite existsb_app.
  cbn [existsb].
  destruct (String.eqb_spec "password" c) as [Heq | _]; [congruence |].
  rewrite !orb_false_r. reflexivity.
Qed.

Lemma same_field_removeClass c el :
  c <> "password" -> same_field el (removeClass c el).
Proof.
  intros Hc. repeat split. unfold hasClass, removeClass. cbn [classes].
  induction (classes el) as [|c' cs IH]; [reflexivity |].
  cbn [List.filter existsb].
  destruct (String.eqb_spec c c') as [Heq | Hne]; cbn [negb existsb].
  - rewrite IH. subst c'.
    destruct (String.eqb_spec "password" c); [congruence | reflexivity].
  - rewrite IH. reflexivity.
Qed.

Lemma same_field_setAttr name val el :
  ~ In name read_attributes -> same_field el (setAttr name val el).
Proof.
  intros Hname. repeat split. intros name' Hin. unfold attr. simpl.
  apply lookup_insert_ne. intros ->. contradiction.
Qed.

Lemma same_field_trans el1 el2 el3 :
  same_field el1 el2 -> same_field el2 el3 -> same_field el1 el3.
Proof.
  intros (H1 & H2 & H3 & H4 & H5 & H6) (G1 & G2 & G3 & G4 & G5 & G6).
  repeat split; try congruence.
  intros name Hin. rewrite (G5 _ Hin). apply H5, Hin.
Qed.

Lemma same_field_getElementType el el' :
  same_field el el' -> getElementType el' = getElementType el.
Proof.
  intros (_ & _ & _ & _ & Hattr & Hclass). unfold getElementType.
  rewrite Hclass, (Hattr "type"); [reflexivity |]. simpl. auto.
Qed.

Lemma same_field_getElementValue el el' :
  same_field el el' -> getElementValue el' = getElementValue el.
Proof.
  intros Hsame. unfold getElementValue.
  rewrite (same_field_getElementType _ _ Hsame).
  destruct Hsame as (_ & -> & _). reflexivity.
Qed.

Lemma same_field_field_name el el' :
  same_field el el' -> field_name el' = field_name el.
Proof.
  intros (_ & _ & _ & _ & Hattr & _). unfold field_name.
  rewrite (Hattr "name"), (Hattr "id"); simpl; auto.
Qed.

Lemma same_field_is_tracked_field el el' :
  same_field el el' -> is_tracked_field el' = is_tracked_field el.
Proof.
  intros (Htag & _ & _ & _ & Hattr & _). unfold is_tracked_field, is_form_field.
  rewrite Htag, (Hattr "data-novalue"); simpl; auto 10.
Qed.

Lemma same_field_is_validated_input el el' :
  same_field el el' -> is_validated_input el' = is_validated_input el.
Proof.
  intros (Htag & _ & _ & Hcoppa & _). unfold is_validated_input, is_input.
  rewrite Htag, Hcoppa. reflexivity.
Qed.

Lemma same_field_isElementValid el el' :
  same_field el el' -> isElementValid el' = isElementValid el.
Proof.
  intros Hsame. unfold isElementValid, validateEmail, validatePassword, validateInput.
  rewrite (same_field_getElementType _ _ Hsame).
  rewrite (same_field_getElementValue _ _ Hsame).
  destruct Hsame as (_ & _ & -> & _ & Hattr & _).
  rewrite (Hattr "required"); [reflexivity |]. simpl. auto 10.
Qed.

Lemma same_fields_map g els :
  (forall el, same_field el (g el)) -> Forall2 same_field els (List.map g els).
Proof.
  intros Hg. induction els as [|el els IH]; simpl; constructor; auto.
Qed.

Lemma same_fields_refl els : Forall2 same_field els els.
Proof. induction els; constructor; auto using same_field_refl. Qed.

Lemma same_fields_alter f i els :
  (forall el, same_field el (f el)) -> Forall2 same_field els (alter f i els).
Proof.
  intros Hf. revert i. induction els as [|el els IH]; intros i; simpl;
    [constructor |].
  destruct i; simpl; constructor;
    auto using same_fields_refl, same_field_refl.
  apply IH.
Qed.

Lemma same_fields_trans l1 l2 l3 :
  Forall2 same_field l1 l2 -> Forall2 same_field l2 l3 -> Forall2 same_field l1 l3.
Proof.
  intros H12. revert l3. induction H12; intros l3 H23; inversion H23; subst;
    constructor; eauto using same_field_trans.
Qed.

Lemma same_fields_tracked els els' values :
  Forall2 same_field els els' ->
  snapshot_of (List.filter is_tracked_field els') values
  = snapshot_of (List.filter is_tracked_field els) values.
Proof.
  intros Hsame. revert values. unfold snapshot_of.
  induction Hsame as [|el el' els els' Hel _ IH]; intros values; simpl;
    [reflexivity |].
  rewrite (same_field_is_tracked_field _ _ Hel).
  destruct (is_tracked_field el); simpl; [| apply IH].
  rewrite (same_field_field_name _ _ Hel), (same_field_getElementValue _ _ Hel).
  apply IH.
Qed.

Lemma same_fields_getFormValues v v' :
  Forall2 same_field (dom v) (dom v') -> getFormValues v' = getFormValues v.
Proof.
  intros Hsame. rewrite !getFormValues_snapshot.
  apply same_fields_tracked, Hsame.
Qed.

Lemma same_fields_isValid_loop n els els' :
  Forall2 same_field els els' ->
  isValid_loop (select_from n is_validated_input els')
  = isValid_loop (select_from n is_validated_input els).
Proof.
  intros Hsame. revert n.
  induction Hsame as [|el el' els els' Hel _ IH]; intros n; simpl; [reflexivity |].
  rewrite (same_field_is_validated_input _ _ Hel).
  destruct (is_validated_input el); simpl; [| apply IH].
  rewrite (same_field_isElementValid _ _ Hel), IH. reflexivity.
Qed.

Lemma same_fields_first_invalid n els els' :
  Forall2 same_field els els' ->
  fst <$> first_invalid_in (select_from n is_validated_input els')
  = fst <$> first_invalid_in (select_from n is_validated_input els).
Proof.
  intros Hsame. revert n.
  induction Hsame as [|el el' els els' Hel _ IH]; intros n; simpl; [reflexivity |].
  rewrite (same_field_is_validated_input _ _ Hel).
  destruct (is_validated_input el); simpl; [| apply IH].
  rewrite (same_field_isElementValid _ _ Hel).
  destruct (isElementValid el); [apply IH | reflexivity].
Qed.

Lemma same_fields_each P f v :
  (forall el, same_field el (f el)) -> Forall2 same_field (dom v) (dom (each P f v)).
Proof.
  intros Hf. unfold each. simpl. apply same_fields_map.
  intros el. destruct (P el); [apply Hf | apply same_field_refl].
Qed.

Lemma same_fields_at_node i f v :
  (forall el, same_field el (f el)) ->
  Forall2 same_field (dom v) (dom (at_node i f v)).
Proof. intros Hf. unfold at_node. simpl. apply same_fields_alter, Hf. Qed.

Lemma invalid_is_not_password : "invalid" <> "password".
Proof. discriminate. Qed.

Lemma disabled_is_not_password : "disabled" <> "password".
Proof. discriminate. Qed.

Lemma disabled_is_not_read : ~ In "disabled" read_attributes.
Proof. simpl. intros [H | [H | [H | [H | [H | []]]]]]; discriminate. Qed.

Lemma same_fields_disableForm v : Forall2 same_field (dom v) (dom (disableForm v)).
Proof.
  apply (same_fields_each is_submit_button (addClass "disabled") v).
  intros el. apply same_field_addClass, disabled_is_not_password.
Qed.

Lemma same_fields_enableForm v : Forall2 same_field (dom v) (dom (enableForm v)).
Proof.
  apply (same_fields_each is_submit_button (removeClass "disabled") v).
  intros el. apply same_field_removeClass, disabled_is_not_password.
Qed.

Lemma same_fields_halt v : Forall2 same_field (dom v) (dom (halt v)).
Proof.
  unfold halt. simpl.
  assert (Hblur : forall w, dom (blur is_interactive w) = dom w).
  { intros w. unfold blur. destruct (activeElement w) as [i|]; [| reflexivity].
    destruct (dom w !! i) as [el|]; [| reflexivity].
    destruct (is_interactive el && honoursBlur el); reflexivity. }
  rewrite Hblur.
  apply (same_fields_each is_interactive (setAttr "disabled" "disabled") v).
  intros el. apply same_field_setAttr, disabled_is_not_read.
Qed.

Lemma same_fields_unmark displayed v :
  Forall2 same_field (dom v) (dom (unmark displayed v)).
Proof.
  revert v. induction displayed as [|tooltip rest IH]; intros v; simpl;
    [apply same_fields_refl |].
  eapply same_fields_trans; [| apply IH].
  apply same_fields_at_node. intros el.
  apply same_field_removeClass, invalid_is_not_password.
Qed.

Lemma dom_focus el v : dom (focus el v) = dom v.
Proof.
  unfold focus. destruct (dom v !! el) as [x|]; [destruct (is_focusable x) |];
    reflexivity.
Qed.

Lemma same_fields_with_tooltip el err v :
  Forall2 same_field (dom v) (dom (with_tooltip el err v)).
Proof.
  unfold with_tooltip. rewrite dom_focus.
  eapply same_fields_trans; [apply (same_fields_unmark (tooltips v)) |].
  apply (same_fields_at_node el (addClass "invalid")
           (set_tooltips [mkTooltip el (toMessage err)] (unmark (tooltips v) v))).
  intros x. apply same_field_addClass, invalid_is_not_password.
Qed.

Lemma first_invalid_same_fields v v' :
  Forall2 same_field (dom v) (dom v') ->
  fst <$> first_invalid v' = fst <$> first_invalid v.
Proof. intros Hsame. apply same_fields_first_invalid, Hsame. Qed.

Lemma is_submit_button_addClass c el :
  is_submit_button (addClass c el) = is_submit_button el.
Proof. unfold addClass. destruct (hasClass c el); reflexivity. Qed.

Lemma is_submit_button_removeClass c el :
  is_submit_button (removeClass c el) = is_submit_button el.
Proof. reflexivity. Qed.

Lemma filter_out_snoc c (cs : list string) :
  List.filter (fun c' => negb (String.eqb c c')) (cs ++ [c])
  = List.filter (fun c' => negb (String.eqb c c')) cs.
Proof.
  rewrite List.filter_app. cbn [List.filter]. rewrite String.eqb_refl.
  apply app_nil_r.
Qed.

Lemma removeClass_addClass c el : removeClass c (addClass c el) = removeClass c el.
Proof.
  unfold addClass. destruct (hasClass c el); [reflexivity |].
  unfold removeClass. cbn [tagName attrs classes value validity in_coppa].
  rewrite filter_out_snoc. reflexivity.
Qed.

Lemma hasClass_addClass c el : hasClass c (addClass c el) = true.
Proof.
  unfold addClass. destruct (hasClass c el) eqn:Hc; [exact Hc |].
  unfold hasClass. cbn [classes]. rewrite existsb_app. cbn [existsb].
  rewrite String.eqb_refl. apply orb_true_iff. right. reflexivity.
Qed.

Lemma addClass_addClass c el : addClass c (addClass c el) = addClass c el.
Proof. unfold addClass at 1. rewrite hasClass_addClass. reflexivity. Qed.

Lemma filter_out_idem c (cs : list string) :
  List.filter (fun c' => negb (String.eqb c c'))
              (List.filter (fun c' => negb (String.eqb c c')) cs)
  = List.filter (fun c' => negb (String.eqb c c')) cs.
Proof.
  rewrite filter_filter_and. apply List.filter_ext.
  intros c'. apply andb_diag.
Qed.

Lemma removeClass_removeClass c el :
  removeClass c (removeClass c el) = removeClass c el.
Proof.
  unfold removeClass. cbn [tagName attrs classes value validity in_coppa].
  rewrite filter_out_idem. reflexivity.
Qed.

Lemma each_each P f g v :
  (forall el, P (g el) = P el) ->
  each P f (each P g v) = each P (fun el => f (g el)) v.
Proof.
  intros HP. unfold each, set_dom. simpl. f_equal.
  rewrite List.map_map. apply List.map_ext. intros el.
  destruct (P el) eqn:Hel; [rewrite HP, Hel | rewrite Hel]; reflexivity.
Qed.

Lemma each_ext P f g v :
  (forall el, f el = g el) -> each P f v = each P g v.
Proof.
  intros Hfg. unfold each, set_dom. f_equal. apply List.map_ext.
  intros el. rewrite Hfg. reflexivity.
Qed.

Lemma each_set_isFormEnabled P f b v :
  each P f (set_isFormEnabled b v) = set_isFormEnabled b (each P f v).
Proof. reflexivity. Qed.

Lemma set_isFormEnabled_twice b b' v :
  set_isFormEnabled b' (set_isFormEnabled b v) = set_isFormEnabled b' v.
Proof. reflexivity. Qed.

(** X3. Disabling or enabling the form touches nothing the form reads
    from its fields: the recorded values and the first invalid field
    stay the same.  Enabling after disabling is enabling, and disabling
    or enabling twice is doing it once. *)
Theorem disableForm_enableForm (v : View) :
  getFormValues (disableForm v) = getFormValues v
  /\ getFormValues (enableForm v) = getFormValues v
  /\ fst <$> first_invalid (disableForm v) = fst <$> first_invalid v
  /\ fst <$> first_invalid (enableForm v) = fst <$> first_invalid v
  /\ enableForm (disableForm v) = enableForm v
  /\ disableForm (disableForm v) = disableForm v
  /\ enableForm (enableForm v) = enableForm v.
Proof.
  split; [apply same_fields_getFormValues, same_fields_disableForm |].
  split; [apply same_fields_getFormValues, same_fields_enableForm |].
  split; [apply first_invalid_same_fields, same_fields_disableForm |].
  split; [apply first_invalid_same_fields, same_fields_enableForm |].
  unfold enableForm, disableForm.
  rewrite !each_set_isFormEnabled, !set_isFormEnabled_twice.
  split; [| split].
  - rewrite each_each by apply is_submit_button_addClass.
    f_equal. apply each_ext, removeClass_addClass.
  - rewrite each_each by apply is_submit_button_addClass.
    f_equal. apply each_ext, addClass_addClass.
  - rewrite each_each by apply is_submit_button_removeClass.
    f_equal. apply each_ext, removeClass_removeClass.
Qed.




(** X5. A password field that was turned into a text field carrying the
    class [password] is still treated as a password field: it has the
    same value, the same validity and the same validation error. *)
Theorem password_shown_as_text (i : nat) (el el' : Element) :
  attr "type" el = Some "password" ->
  attr "type" el' = Some "text" ->
  hasClass "password" el' = true ->
  value el' = value el ->
  getElementType el' = getElementType el
  /\ getElementValue el' = getElementValue el
  /\ isElementValid el' = isElementValid el
  /\ showPasswordValidationError i el' = showPasswordValidationError i el.
Proof.
  intros Hpassword Htext Hclass Hvalue.
  assert (Htype : getElementType el = Some "password").
  { unfold getElementType. rewrite Hpassword.
    case_bool_decide; [discriminate | reflexivity]. }
  assert (Htype' : getElementType el' = Some "password").
  { unfold getElementType. rewrite Htext, Hclass.
    case_bool_decide; [reflexivity | congruence]. }
  assert (Hread : getElementValue el' = getElementValue el).
  { unfold getElementValue. rewrite Htype, Htype', Hvalue.
    case_bool_decide; [discriminate |]. rewrite !andb_false_r. reflexivity. }
  split; [congruence |]. split; [exact Hread |]. split.
  - unfold isElementValid, validatePassword. rewrite Htype, Htype', Hread.
    reflexivity.
  - unfold showPasswordValidationError. rewrite Hread. reflexivity.
Qed.

Lemma flags_focus el v :
  _isFormEnabled (focus el v) = _isFormEnabled v
  /\ _isSubmitting (focus el v) = _isSubmitting v
  /\ _isHalted (focus el v) = _isHalted v
  /\ _previousFormValues (focus el v) = _previousFormValues v
  /\ _isErrorVisible (focus el v) = _isErrorVisible v
  /\ _isSuccessVisible (focus el v) = _isSuccessVisible v.
Proof.
  unfold focus. destruct (dom v !! el) as [x|]; [destruct (is_focusable x) |];
    repeat split.
Qed.

Lemma flags_unmark displayed v :
  _isFormEnabled (unmark displayed v) = _isFormEnabled v
  /\ _isSubmitting (unmark displayed v) = _isSubmitting v
  /\ _isHalted (unmark displayed v) = _isHalted v
  /\ _previousFormValues (unmark displayed v) = _previousFormValues v
  /\ _isErrorVisible (unmark displayed v) = _isErrorVisible v
  /\ _isSuccessVisible (unmark displayed v) = _isSuccessVisible v.
Proof.
  revert v. induction displayed as [|tooltip rest IH]; intros v; simpl;
    [repeat split |].
  destruct (IH (at_node (invalidEl tooltip) (removeClass "invalid") v))
    as (-> & -> & -> & -> & -> & ->).
  repeat split.
Qed.

Lemma flags_with_tooltip el err v :
  _isFormEnabled (with_tooltip el err v) = _isFormEnabled v
  /\ _isSubmitting (with_tooltip el err v) = _isSubmitting v
  /\ _isHalted (with_tooltip el err v) = _isHalted v
  /\ _previousFormValues (with_tooltip el err v) = _previousFormValues v
  /\ _isErrorVisible (with_tooltip el err v) = _isErrorVisible v
  /\ _isSuccessVisible (with_tooltip el err v) = _isSuccessVisible v.
Proof.
  unfold with_tooltip.
  destruct (flags_focus el
              (at_node el (addClass "invalid")
                 (set_tooltips [mkTooltip el (toMessage err)]
                    (unmark (tooltips v) v))))
    as (-> & -> & -> & -> & -> & ->).
  cbn [at_node set_dom set_tooltips _isFormEnabled _isSubmitting _isHalted
       _previousFormValues _isErrorVisible _isSuccessVisible].
  apply flags_unmark.
Qed.

(** X6. Showing a validation error changes nothing the form reads from
    its fields and none of its flags: the recorded values, the outcome
    of change detection, the first invalid field, enablement and the
    visibility of the error message stay as they were. *)
Theorem showValidationError_frame (el : nat) (err : JSVal) (v : View) :
  let v' := view_of (showValidationError el err v) in
  getFormValues v' = getFormValues v
  /\ detectFormValueChanges v' = detectFormValueChanges v
  /\ fst <$> first_invalid v' = fst <$> first_invalid v
  /\ isFormEnabled v' = isFormEnabled v
  /\ isSubmitting v' = isSubmitting v
  /\ isHalted v' = isHalted v
  /\ isErrorVisible v' = isErrorVisible v.
Proof.
  cbv zeta. rewrite showValidationError_run. unfold view_of. cbn [fst snd].
  pose proof (same_fields_with_tooltip el err v) as Hsame.
  destruct (flags_with_tooltip el err v) as (He & Hs & Hh & Hp & Hv & _).
  assert (Hvalues : getFormValues (with_tooltip el err v) = getFormValues v)
    by apply same_fields_getFormValues, Hsame.
  split; [exact Hvalues |]. split.
  { unfold detectFormValueChanges. rewrite Hvalues, Hp. reflexivity. }
  split; [apply first_invalid_same_fields, Hsame |].
  repeat split; assumption.
Qed.

Lemma first_invalid_in_select_from n els i el :
  first_invalid_in (select_from n is_validated_input els) = Some (i, el) ->
  n <= i
  /\ els !! (i - n) = Some el
  /\ is_validated_input el = true
  /\ isElementValid el = false
  /\ (forall j el', j < i - n -> els !! j = Some el' ->
        is_validated_input el' = true -> isElementValid el' = true).
Proof.
  revert n. induction els as [|x els IH]; intros n; simpl; [discriminate |].
  destruct (is_validated_input x) eqn:Hx; simpl.
  - destruct (isElementValid x) eqn:Hvalid.
    + intros Hfirst. destruct (IH _ Hfirst) as (Hle & Hat & HP & Hbad & Hbefore).
      replace (i - n) with (S (i - S n)) by lia.
      split; [lia |]. split; [exact Hat |]. split; [exact HP |].
      split; [exact Hbad |].
      intros [|j] el' Hj Hlook Hel'; simpl in Hlook.
      * inversion Hlook; subst. exact Hvalid.
      * apply (Hbefore j el'); [lia | exact Hlook | exact Hel'].
    + intros [= <- <-]. replace (n - n) with 0 by lia.
      split; [lia |]. split; [reflexivity |]. split; [exact Hx |].
      split; [exact Hvalid |]. intros j el' Hj. lia.
  - intros Hfirst. destruct (IH _ Hfirst) as (Hle & Hat & HP & Hbad & Hbefore).
    replace (i - n) with (S (i - S n)) by lia.
    split; [lia |]. split; [exact Hat |]. split; [exact HP |].
    split; [exact Hbad |].
    intros [|j] el' Hj Hlook Hel'; simpl in Hlook.
    + inversion Hlook; subst. congruence.
    + apply (Hbefore j el'); [lia | exact Hlook | exact Hel'].
Qed.

Lemma first_invalid_in_None inputEls :
  first_invalid_in inputEls = None <-> isValid_loop inputEls = true.
Proof.
  induction inputEls as [|[i el] rest IH]; simpl; [tauto |].
  destruct (isElementValid el); simpl; [exact IH |].
  split; discriminate.
Qed.

(** X7. The field at which the walk over the form stops is a field of
    the form, found at the position it is reported under: an input
    outside [#coppa] that is invalid, all inputs outside [#coppa]
    before it being valid.  The loop of [showValidationErrors] does
    for the form what it does for that field alone. *)
Theorem first_invalid_spec (v : View) (i : nat) (el : Element) :
  first_invalid v = Some (i, el) ->
  dom v !! i = Some el
  /\ is_input el = true
  /\ in_coppa el = false
  /\ isElementValid el = false
  /\ (forall j el', j < i -> dom v !! j = Some el' ->
        is_input el' = true -> in_coppa el' = false -> isElementValid el' = true)
  /\ (forall h : Hooks,
        showValidationErrors_loop h (query is_validated_input v) =
        match field_kind el with
        | EmailField => showEmailValidationError i el
        | PasswordField => showPasswordValidationError i el
        | GenericField => ret JSundefined
        end).
Proof.
  intros Hfirst.
  assert (Hloop : forall h : Hooks,
            showValidationErrors_loop h (query is_validated_input v) =
            match field_kind el with
            | EmailField => showEmailValidationError i el
            | PasswordField => showPasswordValidationError i el
            | GenericField => ret JSundefined
            end)
    by (intros h; apply showValidationErrors_loop_first; exact Hfirst).
  unfold first_invalid, query in Hfirst.
  destruct (first_invalid_in_select_from 0 _ _ _ Hfirst)
    as (_ & Hat & HP & Hbad & Hbefore).
  rewrite Nat.sub_0_r in *.
  unfold is_validated_input in HP. apply andb_true_iff in HP as [Hinput Hcoppa].
  apply negb_true_iff in Hcoppa.
  split; [exact Hat |]. split; [exact Hinput |]. split; [exact Hcoppa |].
  split; [exact Hbad |]. split; [| exact Hloop].
  intros j el' Hj Hlook Hin Hout. apply (Hbefore j el' Hj Hlook).
  unfold is_validated_input. rewrite Hin, Hout. reflexivity.
Qed.

(** X8. When the hooks [isValidStart] and [isValidEnd] pass, [isValid]
    answers false exactly when the walk of [showValidationErrors] finds
    a field to stop at: the two walks agree. *)
Theorem isValid_agrees_with_first_invalid (h : Hooks) (v : View) :
  isValidStart h v = (Resolved true, v) ->
  isValidEnd h v = (Resolved true, v) ->
  (outcome (isValid h v) = Resolved false <->
   exists i el, first_invalid v = Some (i, el))
  /\ (outcome (isValid h v) = Resolved true <-> first_invalid v = None).
Proof.
  intros Hstart Hend.
  assert (Hrun : outcome (isValid h v)
                 = Resolved (isValid_loop (query is_validated_input v))).
  { unfold isValid, bind, invoke, gets, ret, outcome. rewrite Hstart. simpl.
    destruct (isValid_loop (query is_validated_input v)); simpl;
      [rewrite Hend |]; reflexivity. }
  rewrite Hrun. unfold first_invalid.
  pose proof (first_invalid_in_None (query is_validated_input v)) as Hnone.
  destruct (isValid_loop (query is_validated_input v));
    destruct (first_invalid_in (query is_validated_input v)) as [[i el]|];
    split; split; try discriminate; try reflexivity; eauto;
    try (intros _; destruct Hnone as [H1 H2]; first [discriminate (H2 eq_refl)
                                                     | discriminate (H1 eq_refl)]).
  intros (? & ? & ?). discriminate.
Qed.

(** X9. [isValid] fails fast: [isValidEnd] is consulted only after
    [isValidStart] has passed and every input outside [#coppa] has been
    found valid, and [isValidStart] is consulted in every case. *)
Theorem isValid_fails_fast (h : Hooks) (v : View) :
  In (Invoked IsValidStart) (events_of (isValid h v))
  /\ (In (Invoked IsValidEnd) (events_of (isValid h v)) <->
      exists v1, isValidStart h v = (Resolved true, v1) /\ first_invalid v1 = None).
Proof.
  unfold isValid, bind, invoke, gets, ret, events_of, first_invalid.
  destruct (isValidStart h v) as [[ok|e] v1]; simpl.
  - destruct ok; simpl.
    + pose proof (first_invalid_in_None (query is_validated_input v1)) as Hnone.
      destruct (isValid_loop (query is_validated_input v1)); simpl.
      * destruct (isValidEnd h v1) as [o v2]. simpl.
        split; [auto |]. split; [| auto].
        intros _. exists v1. split; [reflexivity | apply Hnone; reflexivity].
      * split; [auto |]. split.
        -- intros [H | []]. discriminate.
        -- intros (v1' & [= <-] & Hfirst). apply Hnone in Hfirst. discriminate.
    + split; [auto |]. split.
      * intros [H | []]. discriminate.
      * intros (v1' & [=] & _).
  - split; [auto |]. split.
    + intros [H | []]. discriminate.
    + intros (v1' & [=] & _).
Qed.

(** X10. [showValidationErrors] hides the visible error message before
    anything else.  When [showValidationErrorsStart] reports an error,
    no field is examined and [showValidationErrorsEnd] is not run; when
    it reports none and every input is valid, [showValidationErrorsEnd]
    is run and the result is undefined whatever that hook returns. *)
Theorem showValidationErrors_nothing_invalid (h : Hooks) (v : View) :
  isErrorVisible (hideError v) = false
  /\ (forall shown v1,
        showValidationErrorsStart h (hideError v) = (Resolved shown, v1) ->
        truthy shown = true ->
        showValidationErrors h v
        = (Resolved JSundefined, v1, [Invoked ShowValidationErrorsStart]))
  /\ (forall e v1,
        showValidationErrorsStart h (hideError v) = (Rejected e, v1) ->
        showValidationErrors h v = (Rejected e, v1, [Invoked ShowValidationErrorsStart]))
  /\ (forall shown v1,
        showValidationErrorsStart h (hideError v) = (Resolved shown, v1) ->
        truthy shown = false ->
        first_invalid v1 = None ->
        showValidationErrors h v
        = (match (showValidationErrorsEnd h v1).1 with
           | Resolved _ => Resolved JSundefined
           | Rejected e => Rejected e
           end,
           (showValidationErrorsEnd h v1).2,
           [Invoked ShowValidationErrorsStart; Invoked ShowValidationErrorsEnd])).
Proof.
  split; [reflexivity |]. rewrite showValidationErrors_run.
  split; [| split].
  - intros shown v1 -> ->. reflexivity.
  - intros e v1 ->. reflexivity.
  - intros shown v1 -> -> Hnone. unfold first_invalid in Hnone.
    rewrite (showValidationErrors_loop_none _ _ Hnone).
    unfold bind, invoke, ret.
    destruct (showValidationErrorsEnd h v1) as [[a|e] v2]; reflexivity.
Qed.

(** X11. With the default [beforeSubmit] and [afterSubmit], [submit]
    runs while the form is disabled, and once it has resolved the view
    is halted when the result asks for it, left disabled when an error
    is visible, and enabled again otherwise; the caller gets the result
    of [submit]. *)
Theorem default_submission_enablement
    (h : Hooks) (v v1 v2 : View) (t1 : list Event) (result : JSVal) :
  beforeSubmit h v1 = default_beforeSubmit v1 ->
  afterSubmit h result v2 = default_afterSubmit result v2 ->
  isHalted v = false ->
  isValid h v = (Resolved true, v1, t1) ->
  isFormEnabled v1 = true ->
  submit h (disableForm v1) = (Resolved result, v2) ->
  isFormEnabled (disableForm v1) = false
  /\ validateAndSubmit_handler h v
     = (Resolved result,
        (if truthy result && truthy (prop "halt" result) then halt v2
         else if isErrorVisible v2 then v2
         else enableForm v2),
        Triggered "submitStart" [] :: t1
          ++ [ViewEventLogged "submit"; Invoked BeforeSubmit; Invoked Submit;
              Invoked AfterSubmit]).
Proof.
  intros Hbefore Hafter Hhalted Hvalid Henabled Hsubmit.
  split; [reflexivity |].
  rewrite (validateAndSubmit_handler_enabled h v v1 t1 Hhalted Hvalid Henabled).
  rewrite _submitForm_run, Hbefore. unfold default_beforeSubmit.
  cbn [is_not_false]. rewrite Hsubmit, Hafter. unfold default_afterSubmit.
  destruct (truthy result && truthy (prop "halt" result)); [reflexivity |].
  destruct (isErrorVisible v2); reflexivity.
Qed.

(** *** Change events *)

Lemma baseline_is_detect s v : baseline_is s v -> detectFormValueChanges v = None.
Proof.
  intros [Hvalues Hprev]. apply detectFormValueChanges_None.
  rewrite Hprev, Hvalues. reflexivity.
Qed.

Lemma baseline_is_same_fields s v v' :
  Forall2 same_field (dom v) (dom v') ->
  _previousFormValues v' = _previousFormValues v ->
  baseline_is s v -> baseline_is s v'.
Proof.
  intros Hsame Hprev [Hvalues Hbase]. split.
  - rewrite (same_fields_getFormValues _ _ Hsame). exact Hvalues.
  - rewrite Hprev. exact Hbase.
Qed.

Lemma enableSubmitIfValid_baseline s h :
  hook_preserves (baseline_is s) (isValidStart h) ->
  hook_preserves (baseline_is s) (isValidEnd h) ->
  preserves (baseline_is s) (enableSubmitIfValid h).
Proof.
  intros Hstart Hend. unfold enableSubmitIfValid.
  apply preserves_bind; [apply preserves_gets | intros busy].
  apply preserves_if; [apply preserves_ret |].
  apply preserves_bind; [| intros _].
  { apply preserves_modify. intros w Hw. exact Hw. }
  apply preserves_bind; [| intros _].
  { apply preserves_modify. intros w Hw. exact Hw. }
  apply preserves_bind; [apply isValid_preserves; assumption | intros valid].
  apply preserves_if; apply preserves_modify; intros w Hw.
  - apply (baseline_is_same_fields s w (enableForm w));
      [apply same_fields_enableForm | reflexivity | exact Hw].
  - apply (baseline_is_same_fields s w (disableForm w));
      [apply same_fields_disableForm | reflexivity | exact Hw].
Qed.

Lemma ifFormValuesChanged_unchanged {A} (handler : M A) v :
  detectFormValueChanges v = None ->
  ifFormValuesChanged handler v = (Resolved None, v, []).
Proof.
  intros Hnone. unfold ifFormValuesChanged, updateFormValueChanges.
  rewrite Hnone. reflexivity.
Qed.

(** X12. A change event runs [enableSubmitIfValid] only when the form
    values differ from the baseline, and makes them the baseline: when
    the validity hooks leave the fields and the baseline alone, an
    event that follows at once is ignored, the view staying as it is. *)
Theorem form_event_repeated (h : Hooks) (v : View) :
  (forall s, hook_preserves (baseline_is s) (isValidStart h)) ->
  (forall s, hook_preserves (baseline_is s) (isValidEnd h)) ->
  let v1 := view_of (ifFormValuesChanged (enableSubmitIfValid h) v) in
  ifFormValuesChanged (enableSubmitIfValid h) v1 = (Resolved None, v1, []).
Proof.
  intros Hstart Hend v1. apply ifFormValuesChanged_unchanged. subst v1.
  unfold ifFormValuesChanged, updateFormValueChanges.
  destruct (detectFormValueChanges v) as [s|] eqn:Hdetect.
  - apply detectFormValueChanges_Some in Hdetect as [-> _].
    assert (Hbase : baseline_is (getFormValues v)
                      (set_previousFormValues (Some (getFormValues v)) v))
      by (split; reflexivity).
    pose proof (enableSubmitIfValid_baseline _ h (Hstart _) (Hend _) _ Hbase)
      as Hkept.
    unfold view_of in *.
    destruct (enableSubmitIfValid h _) as [[[a|e] v'] t];
      apply (baseline_is_detect _ _ Hkept).
  - exact Hdetect.
Qed.

(** X13. An error handed over from the previous screen survives the
    first events on the rendered form: [afterRender] leaves the error
    visible when the model has one, and seeds the baseline, so that a
    change event on untouched fields is ignored. *)
Theorem afterRender_keeps_passed_error (h : Hooks) (v : View) :
  let v1 := view_of (afterRender h true v) in
  events_of (afterRender h true v) = []
  /\ isErrorVisible v1 = isErrorVisible v
  /\ isFormEnabled v1 = isFormEnabled v
  /\ ifFormValuesChanged (enableSubmitIfValid h) v1 = (Resolved None, v1, []).
Proof.
  cbv zeta.
  assert (Hrun : afterRender h true v = (Resolved tt, (updateFormValueChanges v).2, []))
    by reflexivity.
  rewrite Hrun. unfold view_of, events_of. cbn [fst snd].
  assert (Hflags : isErrorVisible (updateFormValueChanges v).2 = isErrorVisible v
                   /\ isFormEnabled (updateFormValueChanges v).2 = isFormEnabled v).
  { unfold updateFormValueChanges.
    destruct (detectFormValueChanges v); split; reflexivity. }
  destruct Hflags as [Herror Henabled].
  repeat split; try assumption.
  apply ifFormValuesChanged_unchanged, detectFormValueChanges_None.
  rewrite updateFormValueChanges_baseline. f_equal. symmetry.
  apply getFormValues_dom, updateFormValueChanges_dom.
Qed.

(** *** Typing into a field *)

Lemma is_tracked_field_setValue text el :
  is_tracked_field (setValue text el) = is_tracked_field el.
Proof. reflexivity. Qed.

Lemma field_name_setValue text el : field_name (setValue text el) = field_name el.
Proof. reflexivity. Qed.

Lemma no_field_with_key k els :
  (forall j el', els !! j = Some el' -> is_tracked_field el' = true ->
     field_name el' <> k) ->
  List.filter (fun el => is_tracked_field el && String.eqb (field_name el) k) els = [].
Proof.
  induction els as [|x els IH]; intros Hnone; simpl; [reflexivity |].
  destruct (is_tracked_field x) eqn:Hx; simpl.
  - destruct (String.eqb_spec (field_name x) k) as [Heq | _].
    + exfalso. apply (Hnone 0 x); auto.
    + apply IH. intros j el'. apply (Hnone (S j)).
  - apply IH. intros j el'. apply (Hnone (S j)).
Qed.

Lemma typed_lookup k text els i el :
  els !! i = Some el ->
  is_tracked_field el = true ->
  (forall j el', j <> i -> els !! j = Some el' -> is_tracked_field el' = true ->
     field_name el' <> field_name el) ->
  last (List.map getElementValue
          (List.filter (fun el => is_tracked_field el && String.eqb (field_name el) k)
                       (alter (setValue text) i els)))
  = if String.eqb (field_name el) k then Some (getElementValue (setValue text el))
    else last (List.map getElementValue
                 (List.filter (fun el => is_tracked_field el
                                         && String.eqb (field_name el) k) els)).
Proof.
  revert i. induction els as [|x els IH]; intros i Hlook Htracked Hunique;
    [destruct i; discriminate |].
  destruct i as [|i]; simpl in Hlook.
  - inversion Hlook; subst x. simpl.
    rewrite is_tracked_field_setValue, field_name_setValue, Htracked. simpl.
    destruct (String.eqb_spec (field_name el) k) as [Heq | Hne]; [| reflexivity].
    rewrite no_field_with_key; [reflexivity |].
    intros j el' Hj Hel'. rewrite <- Heq. apply (Hunique (S j)); auto.
  - change (alter (setValue text) (S i) (x :: els))
      with (x :: alter (setValue text) i els).
    assert (IH' := IH i Hlook Htracked
                     (fun j el' Hj => Hunique (S j) el' (fun H => Hj (eq_add_S _ _ H)))).
    cbn [List.filter].
    destruct (is_tracked_field x) eqn:Hx; cbn [andb]; [| exact IH'].
    destruct (String.eqb_spec (field_name x) k) as [Heq | Hne]; [| exact IH'].
    assert (Hdiff : field_name x <> field_name el)
      by (apply (Hunique 0 x); auto).
    destruct (String.eqb_spec (field_name el) k) as [Heq' | Hne'];
      [congruence |].
    cbn [List.map]. rewrite !last_cons, IH'. reflexivity.
Qed.

Lemma filter_alter_out {A} (P : A -> bool) (f : A -> A) i els :
  (forall x, els !! i = Some x -> P x = false /\ P (f x) = false) ->
  List.filter P (alter f i els) = List.filter P els.
Proof.
  revert i. induction els as [|x els IH]; intros i Hout; [reflexivity |].
  destruct i as [|i].
  - destruct (Hout x eq_refl) as [Hx Hfx].
    change (alter f 0 (x :: els)) with (f x :: els).
    cbn [List.filter]. rewrite Hx, Hfx. reflexivity.
  - change (alter f (S i) (x :: els)) with (x :: alter f i els).
    cbn [List.filter]. rewrite (IH i); [reflexivity |].
    intros y Hy. apply Hout. exact Hy.
Qed.

Lemma typing_into_proto v i el text :
  dom v !! i = Some el ->
  field_name el = "__proto__" ->
  getFormValues (at_node i (setValue text) v) = getFormValues v.
Proof.
  intros Hlook Hname. apply map_eq. intros k.
  rewrite !getFormValues_lookup_last.
  destruct (String.eqb_spec k "__proto__") as [Hk | Hk]; [reflexivity |].
  unfold at_node. cbn [dom set_dom].
  rewrite filter_alter_out; [reflexivity |].
  intros x Hx. rewrite Hlook in Hx. inversion Hx; subst x.
  rewrite field_name_setValue, Hname.
  assert (Hne : String.eqb "__proto__" k = false)
    by (apply String.eqb_neq; congruence).
  rewrite Hne, !andb_false_r. split; reflexivity.
Qed.

(** X14. When the user types into a field that is read and whose key no
    other such field shares, the form values change at that key only, to
    the value read from the field; if the baseline was the previous
    values and the value read differs from the previous one, change
    detection reports the new values.  A field whose key is [__proto__]
    is the exception: typing into it changes neither the form values
    nor the answer of change detection. *)
Theorem typing_updates_form_values
    (v : View) (i : nat) (el : Element) (text : string) :
  dom v !! i = Some el ->
  is_tracked_field el = true ->
  let v' := at_node i (setValue text) v in
  (field_name el <> "__proto__" ->
   (forall j el', j <> i -> dom v !! j = Some el' -> is_tracked_field el' = true ->
      field_name el' <> field_name el) ->
   getFormValues v'
   = <[field_name el := getElementValue (setValue text el)]> (getFormValues v)
   /\ (_previousFormValues v = Some (getFormValues v) ->
       getElementValue (setValue text el) <> getElementValue el ->
       detectFormValueChanges v' = Some (getFormValues v')))
  /\ (field_name el = "__proto__" ->
      getFormValues v' = getFormValues v
      /\ detectFormValueChanges v' = detectFormValueChanges v).
Proof.
  intros Hlook Htracked v'. split.
  - intros Hname Hunique.
    assert (Hvalues : getFormValues v'
              = <[field_name el := getElementValue (setValue text el)]>
                  (getFormValues v)).
    { apply map_eq. intros k. subst v'.
      destruct (String.eqb_spec k "__proto__") as [Hk | Hk].
      - subst k. rewrite lookup_insert_ne by exact Hname.
        rewrite !getFormValues_no_proto. reflexivity.
      - rewrite (getFormValues_lookup_key _ _ Hk).
        unfold at_node. cbn [dom set_dom].
        rewrite (typed_lookup k text _ _ _ Hlook Htracked Hunique).
        destruct (String.eqb_spec (field_name el) k) as [Heq | Hne].
        + rewrite Heq. symmetry. apply lookup_insert_eq.
        + rewrite lookup_insert_ne by exact Hne. symmetry.
          apply getFormValues_lookup_key, Hk. }
    split; [exact Hvalues |].
    intros Hbase Hdiff. apply detectFormValueChanges_Some.
    split; [reflexivity |].
    change (_previousFormValues v') with (_previousFormValues v).
    rewrite Hbase, Hvalues. intros [= Heq].
    assert (Hold : getFormValues v !! field_name el = Some (getElementValue el)).
    { rewrite (getFormValues_lookup_key _ _ Hname).
      pose proof (typed_lookup (field_name el) (value el) _ _ _
                    Hlook Htracked Hunique) as Hsame.
      rewrite String.eqb_refl in Hsame.
      assert (Hid : alter (setValue (value el)) i (dom v) = dom v).
      { apply list_eq. intros j. destruct (decide (j = i)) as [-> | Hne].
        - rewrite list_lookup_alter_eq, Hlook. destruct el; reflexivity.
        - rewrite list_lookup_alter_ne by congruence. reflexivity. }
      rewrite Hid in Hsame. rewrite Hsame. f_equal; destruct el; reflexivity. }
    rewrite Heq, lookup_insert_eq in Hold. congruence.
  - intros Hname.
    assert (Hvalues : getFormValues v' = getFormValues v)
      by (apply (typing_into_proto v i el text Hlook Hname)).
    split; [exact Hvalues |].
    unfold detectFormValueChanges. rewrite Hvalues. reflexivity.
Qed.

(** *** Whitespace around an email address *)

Lemma starts_with_space_ltrim s : starts_with_space (ltrim s) = false.
Proof.
  induction s as [|c s IH]; simpl; [reflexivity |].
  destruct (is_space c) eqn:Hc; [exact IH | simpl; exact Hc].
Qed.

Lemma starts_with_space_rtrim s :
  starts_with_space s = false -> starts_with_space (rtrim s) = false.
Proof.
  destruct s as [|c s]; simpl; [reflexivity |]. intros Hc.
  destruct (rtrim s).
  - rewrite Hc. simpl. exact Hc.
  - simpl. exact Hc.
Qed.

Lemma ends_with_space_rtrim s : ends_with_space (rtrim s) = false.
Proof.
  induction s as [|c s IH]; simpl; [reflexivity |].
  destruct (rtrim s) as [|c' s'] eqn:Hs.
  - destruct (is_space c) eqn:Hc; simpl; [reflexivity | exact Hc].
  - exact IH.
Qed.

Lemma ltrim_id s : starts_with_space s = false -> ltrim s = s.
Proof. destruct s as [|c s]; simpl; [reflexivity |]. intros ->. reflexivity. Qed.

Lemma rtrim_id s : ends_with_space s = false -> rtrim s = s.
Proof.
  induction s as [|c s IH]; [reflexivity |].
  destruct s as [|c' s'].
  - simpl. intros ->. reflexivity.
  - intros Hend. change (ends_with_space (String c' s') = false) in Hend.
    change (rtrim (String c (String c' s')))
      with (match rtrim (String c' s') with
            | EmptyString => if is_space c then EmptyString else String c EmptyString
            | rest' => String c rest'
            end).
    rewrite (IH Hend). reflexivity.
Qed.

Lemma trim_spec s :
  starts_with_space (trim s) = false
  /\ ends_with_space (trim s) = false
  /\ trim (trim s) = trim s.
Proof.
  unfold trim.
  assert (Hstart : starts_with_space (rtrim (ltrim s)) = false)
    by apply starts_with_space_rtrim, starts_with_space_ltrim.
  assert (Hend : ends_with_space (rtrim (ltrim s)) = false)
    by apply ends_with_space_rtrim.
  repeat split; try assumption.
  rewrite (ltrim_id _ Hstart). apply rtrim_id, Hend.
Qed.

(** X15. The value read from an email field never begins or ends with
    whitespace, and writing it back into the field and reading again
    gives the same value; the value of a field of another type is read
    as it is. *)
Theorem getElementValue_email_trimmed (el : Element) :
  (getElementType el = Some "email" ->
     starts_with_space (getElementValue el) = false
     /\ ends_with_space (getElementValue el) = false
     /\ getElementValue (setValue (getElementValue el) el) = getElementValue el)
  /\ (getElementType el <> Some "email" -> getElementValue el = value el).
Proof.
  split.
  - intros Htype.
    assert (Htype' : forall text, getElementType (setValue text el) = Some "email")
      by (intros text; exact Htype).
    destruct (trim_spec (value el)) as (Hstart & Hend & Hidem).
    unfold getElementValue at 1 2 3. rewrite Htype.
    unfold getElementValue at 1. rewrite Htype'. cbn [value setValue].
    unfold getElementValue. rewrite Htype.
    rewrite bool_decide_eq_true_2 by reflexivity. rewrite !andb_true_r.
    destruct (String.eqb_spec (value el) "") as [Hempty | Hfull]; cbn [negb].
    + rewrite Hempty. repeat split.
    + split; [exact Hstart |]. split; [exact Hend |].
      destruct (String.eqb (trim (value el)) ""); cbn [negb];
        [reflexivity | exact Hidem].
  - intros Htype. unfold getElementValue.
    rewrite bool_decide_eq_false_2 by exact Htype.
    rewrite andb_false_r. reflexivity.
Qed.

(** *** What submitting leaves alone *)

Ltac framed :=
  repeat first
    [ assumption
    | apply preserves_bind; [| intros ?]
    | apply preserves_catch; [| intros ?]
    | apply preserves_if
    | apply preserves_ret | apply preserves_throw | apply preserves_gets
    | apply preserves_emit
    | apply preserves_invoke; assumption
    | apply preserves_modify; intros ? Hframed; exact Hframed ].

Lemma values_are_same_fields s v v' :
  Forall2 same_field (dom v) (dom v') -> values_are s v -> values_are s v'.
Proof.
  unfold values_are. intros Hsame <-. apply same_fields_getFormValues, Hsame.
Qed.

Lemma showValidationError_values s el err :
  preserves (values_are s) (showValidationError el err).
Proof.
  intros v Hv. rewrite showValidationError_run. unfold view_of. cbn [fst snd].
  eapply values_are_same_fields; [apply same_fields_with_tooltip | exact Hv].
Qed.

Lemma FormView_keeps_values : keeps_values FormView.
Proof.
  intros s. unfold hook_preserves.
  split; [| split; [| split; [| split; [| split; [| split]]]]];
    try (intros v Hv; exact Hv).
  - intros v Hv. cbn [FormView beforeSubmit default_beforeSubmit snd].
    eapply values_are_same_fields; [apply same_fields_disableForm | exact Hv].
  - intros result v Hv. cbn [FormView afterSubmit]. unfold default_afterSubmit.
    destruct (truthy result && truthy (prop "halt" result)); cbn [snd].
    + eapply values_are_same_fields; [apply same_fields_halt | exact Hv].
    + destruct (negb (isErrorVisible v)); cbn [snd]; [| exact Hv].
      eapply values_are_same_fields; [apply same_fields_enableForm | exact Hv].
Qed.

Section ValuesKept.

Variable h : Hooks.
Variable s : gmap string string.
Hypothesis h_keeps_values : keeps_values h.

Lemma showValidationErrors_loop_values inputEls :
  preserves (values_are s) (showValidationErrors_loop h inputEls).
Proof.
  destruct (h_keeps_values s) as (_ & _ & _ & Hend & _).
  induction inputEls as [|[i el] rest IH]; simpl.
  - framed.
  - repeat apply preserves_if; try exact IH; try apply preserves_ret.
    + unfold showEmailValidationError. apply showValidationError_values.
    + unfold showPasswordValidationError. apply showValidationError_values.
Qed.

Lemma showValidationErrors_values : preserves (values_are s) (showValidationErrors h).
Proof.
  destruct (h_keeps_values s) as (_ & _ & Hstart & _).
  unfold showValidationErrors. framed. apply showValidationErrors_loop_values.
Qed.

Lemma _submitForm_values : preserves (values_are s) (_submitForm h).
Proof.
  destruct (h_keeps_values s) as (_ & _ & _ & _ & Hbefore & Hsubmit & Hafter).
  unfold _submitForm, notifyDelayedRequest, showButtonProgressIndicator.
  unfold displayError. framed. apply preserves_invoke, Hafter.
Qed.

Lemma validateAndSubmit_handler_values :
  preserves (values_are s) (validateAndSubmit_handler h).
Proof.
  destruct (h_keeps_values s) as (Hstart & Hend & _).
  pose proof (isValid_preserves (values_are s) h Hstart Hend) as Hvalid.
  pose proof showValidationErrors_values as Hshow.
  pose proof _submitForm_values as Hsubmit.
  unfold validateAndSubmit_handler, trigger, logViewEvent. framed.
Qed.

End ValuesKept.

(** X18. Submitting never alters what the user entered: after
    [validateAndSubmit], whether it resolves or is rejected, the
    recorded form values are those from before, for the strategies of
    [FormView] itself and for every descendant view whose own hooks
    leave the values alone. *)
Theorem submission_keeps_form_values (h : Hooks) (v : View) :
  getFormValues (view_of (validateAndSubmit_handler FormView v)) = getFormValues v
  /\ getFormValues (view_of (validateAndSubmit FormView v)) = getFormValues v
  /\ (keeps_values h ->
      getFormValues (view_of (validateAndSubmit_handler h v)) = getFormValues v
      /\ getFormValues (view_of (validateAndSubmit h v)) = getFormValues v).
Proof.
  assert (Hgen : forall h', keeps_values h' ->
            getFormValues (view_of (validateAndSubmit_handler h' v)) = getFormValues v
            /\ getFormValues (view_of (validateAndSubmit h' v)) = getFormValues v).
  { intros h' Hkeeps. split.
    - apply (validateAndSubmit_handler_values h' (getFormValues v) Hkeeps v).
      reflexivity.
    - unfold validateAndSubmit, allowOnlyOneSubmit.
      destruct (isSubmitting v); [reflexivity |].
      pose proof (validateAndSubmit_handler_values h' (getFormValues v) Hkeeps
                    (set_isSubmitting true v) eq_refl) as Hkept.
      unfold view_of in *.
      destruct (validateAndSubmit_handler h' (set_isSubmitting true v))
        as [[o v'] t].
      exact Hkept. }
  destruct (Hgen FormView FormView_keeps_values) as [Hhandler Hcall].
  split; [exact Hhandler |]. split; [exact Hcall |]. apply Hgen.
Qed.

(** *** Showing the validation errors again *)

Lemma same_fields_first_invalid_related n els els' :
  Forall2 same_field els els' ->
  match first_invalid_in (select_from n is_validated_input els),
        first_invalid_in (select_from n is_validated_input els') with
  | Some (i, el), Some (i', el') => i' = i /\ same_field el el'
  | None, None => True
  | _, _ => False
  end.
Proof.
  intros Hsame. revert n.
  induction Hsame as [|el el' els els' Hel _ IH]; intros n; simpl; [exact I |].
  rewrite (same_field_is_validated_input _ _ Hel).
  destruct (is_validated_input el); simpl; [| apply IH].
  rewrite (same_field_isElementValid _ _ Hel).
  destruct (isElementValid el); [apply IH | split; [reflexivity | exact Hel]].
Qed.

Lemma same_field_field_kind el el' :
  same_field el el' -> field_kind el' = field_kind el.
Proof.
  intros Hsame. unfold field_kind.
  rewrite (same_field_getElementType _ _ Hsame). reflexivity.
Qed.

Lemma same_field_error_kinds el el' :
  same_field el el' ->
  email_error_kind el' = email_error_kind el
  /\ password_error_kind el' = password_error_kind el.
Proof.
  intros Hsame. unfold email_error_kind, password_error_kind.
  rewrite (same_field_getElementValue _ _ Hsame). split; reflexivity.
Qed.

Lemma showValidationErrors_FormView v :
  showValidationErrors FormView v =
  match first_invalid v with
  | Some (i, el) =>
      match field_kind el with
      | EmailField =>
          let err := toError (email_error_kind el) in
          (Resolved (JSstring (toMessage err)), with_tooltip i err (hideError v),
           Invoked ShowValidationErrorsStart :: ErrorLogged err
             :: removed_events (tooltips v)
             ++ [Triggered "validation_error" [JSelement i; JSstring (toMessage err)]])
      | PasswordField =>
          let err := toError (password_error_kind el) in
          (Resolved (JSstring (toMessage err)), with_tooltip i err (hideError v),
           Invoked ShowValidationErrorsStart :: ErrorLogged err
             :: removed_events (tooltips v)
             ++ [Triggered "validation_error" [JSelement i; JSstring (toMessage err)]])
      | GenericField =>
          (Resolved JSundefined, hideError v, [Invoked ShowValidationErrorsStart])
      end
  | None =>
      (Resolved JSundefined, hideError v,
       [Invoked ShowValidationErrorsStart; Invoked ShowValidationErrorsEnd])
  end.
Proof.
  rewrite showValidationErrors_run.
  change (showValidationErrorsStart FormView (hideError v))
    with (@Resolved JSVal JSundefined, hideError v).
  cbn [truthy].
  change (query is_validated_input (hideError v)) with (query is_validated_input v).
  unfold first_invalid.
  destruct (first_invalid_in (query is_validated_input v)) as [[i el]|] eqn:Hfirst.
  - rewrite (showValidationErrors_loop_first _ _ _ _ Hfirst).
    rewrite showEmailValidationError_kind, showPasswordValidationError_kind.
    destruct (field_kind el); rewrite ?showValidationError_run; reflexivity.
  - rewrite (showValidationErrors_loop_none _ _ Hfirst). reflexivity.
Qed.

(** X19. Showing the validation errors twice in a row, the fields being
    untouched in between, shows the same error again: the second call
    returns what the first returned and leaves the same tooltips. *)
Theorem showValidationErrors_twice (v : View) :
  let r1 := showValidationErrors FormView v in
  let r2 := showValidationErrors FormView (view_of r1) in
  outcome r2 = outcome r1
  /\ tooltips (view_of r2) = tooltips (view_of r1)
  /\ fst <$> first_invalid (view_of r1) = fst <$> first_invalid v.
Proof.
  cbv zeta.
  assert (Hsame : Forall2 same_field (dom v)
                    (dom (view_of (showValidationErrors FormView v)))).
  { rewrite showValidationErrors_FormView.
    destruct (first_invalid v) as [[i el]|]; [| apply same_fields_refl].
    destruct (field_kind el); unfold view_of; cbn [fst snd];
      try apply same_fields_refl;
      apply (same_fields_with_tooltip i _ (hideError v)). }
  pose proof (same_fields_first_invalid_related 0 _ _ Hsame) as Hrel.
  fold (query is_validated_input v) in Hrel.
  fold (query is_validated_input (view_of (showValidationErrors FormView v))) in Hrel.
  fold (first_invalid v) in Hrel.
  fold (first_invalid (view_of (showValidationErrors FormView v))) in Hrel.
  split; [| split; [| apply first_invalid_same_fields, Hsame]];
    rewrite (showValidationErrors_FormView
               (view_of (showValidationErrors FormView v)));
    destruct (first_invalid (view_of (showValidationErrors FormView v)))
      as [[i' el']|];
    rewrite showValidationErrors_FormView in *;
    destruct (first_invalid v) as [[i el]|]; try contradiction;
    try reflexivity;
    destruct Hrel as [-> Hel];
    rewrite (same_field_field_kind _ _ Hel);
    destruct (same_field_error_kinds _ _ Hel) as [-> ->];
    destruct (field_kind el); unfold outcome, view_of; cbn [fst snd];
    rewrite ?tooltips_with_tooltip; reflexivity.
Qed.

End MoreProperties.

(** ** Properties of the relier *)

Section RelierProperties.

Import Relier.

Variable DISALLOW_CACHED_CREDENTIALS : string.
Variable getSearchParam : string -> JSVal.
Variable populateFromStringifiedResumeToken : JSVal -> Relier -> Outcome unit * Relier.
Variable importSearchParamsUsingSchema : Schema -> Relier -> Outcome unit * Relier.

Lemma get_set_eq attr val r : get attr (set attr val r) = val.
Proof. unfold get, set. cbn [attributes]. rewrite lookup_insert_eq. reflexivity. Qed.

Lemma get_set_ne attr attr' val r :
  attr <> attr' -> get attr' (set attr val r) = get attr' r.
Proof.
  intros Hne. unfold get, set. cbn [attributes].
  rewrite lookup_insert_ne by exact Hne. reflexivity.
Qed.

Lemma get_unset_eq attr r : get attr (unset attr r) = JSundefined.
Proof. unfold get, unset. cbn [attributes]. rewrite lookup_delete_eq. reflexivity. Qed.

Lemma get_unset_ne attr attr' r :
  attr <> attr' -> get attr' (unset attr r) = get attr' r.
Proof.
  intros Hne. unfold get, unset. cbn [attributes].
  rewrite lookup_delete_ne by exact Hne. reflexivity.
Qed.

Lemma get_normalize_email attr r :
  attr <> "email" -> attr <> "allowCachedCredentials" ->
  get attr (Relier.normalize_email DISALLOW_CACHED_CREDENTIALS r) = get attr r.
Proof.
  intros Hemail Hallow. unfold normalize_email.
  destruct (is_string _ _); [| reflexivity].
  rewrite get_set_ne by congruence. apply get_unset_ne. congruence.
Qed.

Lemma fetch_resolved r u1 r1 u2 r2 :
  populateFromStringifiedResumeToken (getSearchParam "resume") r = (Resolved u1, r1) ->
  importSearchParamsUsingSchema (_queryParameterSchema r1) r1 = (Resolved u2, r2) ->
  Relier.fetch DISALLOW_CACHED_CREDENTIALS getSearchParam
      populateFromStringifiedResumeToken importSearchParamsUsingSchema r
    = (Resolved tt, Relier.normalize_email DISALLOW_CACHED_CREDENTIALS (normalize_entrypoint r2)).
Proof. intros H1 H2. unfold fetch. rewrite H1, H2. reflexivity. Qed.

(** X16. Once the resume token and the query parameters are imported,
    [fetch] makes [entrypoint] hold whichever spelling was supplied:
    an [entrypoint] that is set is kept, otherwise it takes the value
    of [entryPoint], which itself stays as it is. *)
Theorem fetch_normalizes_entrypoint (r r1 r2 : Relier) (u1 u2 : unit) :
  populateFromStringifiedResumeToken (getSearchParam "resume") r = (Resolved u1, r1) ->
  importSearchParamsUsingSchema (_queryParameterSchema r1) r1 = (Resolved u2, r2) ->
  exists r',
    Relier.fetch DISALLOW_CACHED_CREDENTIALS getSearchParam
      populateFromStringifiedResumeToken importSearchParamsUsingSchema r
    = (Resolved tt, r')
    /\ has "entrypoint" r' = has "entrypoint" r2 || has "entryPoint" r2
    /\ (has "entrypoint" r2 = true -> get "entrypoint" r' = get "entrypoint" r2)
    /\ (has "entrypoint" r2 = false -> has "entryPoint" r2 = true ->
        get "entrypoint" r' = get "entryPoint" r2)
    /\ get "entryPoint" r' = get "entryPoint" r2.
Proof.
  intros H1 H2. eexists. split; [apply (fetch_resolved _ _ _ _ _ H1 H2) |].
  assert (Hentry : forall attr, attr = "entrypoint" \/ attr = "entryPoint" ->
            get attr (Relier.normalize_email DISALLOW_CACHED_CREDENTIALS (normalize_entrypoint r2))
            = get attr (normalize_entrypoint r2)).
  { intros attr [-> | ->]; apply get_normalize_email; discriminate. }
  unfold has. rewrite !Hentry by auto. unfold normalize_entrypoint, has.
  destruct (get "entrypoint" r2) eqn:Hlower;
    destruct (get "entryPoint" r2) eqn:Hupper; cbn [andb negb orb];
    rewrite ?get_set_eq, ?get_set_ne, ?Hlower, ?Hupper by discriminate;
    repeat split; try discriminate; reflexivity.
Qed.

(** X17. After [fetch] the email of the relier is never the value that
    disallows cached credentials: when that value was imported, the
    email is unset and [allowCachedCredentials] answers false;
    otherwise the email and [allowCachedCredentials] are as imported. *)
Theorem fetch_blank_email (r r1 r2 : Relier) (u1 u2 : unit) :
  populateFromStringifiedResumeToken (getSearchParam "resume") r = (Resolved u1, r1) ->
  importSearchParamsUsingSchema (_queryParameterSchema r1) r1 = (Resolved u2, r2) ->
  exists r',
    Relier.fetch DISALLOW_CACHED_CREDENTIALS getSearchParam
      populateFromStringifiedResumeToken importSearchParamsUsingSchema r
    = (Resolved tt, r')
    /\ is_string DISALLOW_CACHED_CREDENTIALS (get "email" r') = false
    /\ (is_string DISALLOW_CACHED_CREDENTIALS (get "email" r2) = true ->
        has "email" r' = false /\ allowCachedCredentials r' = JSbool false)
    /\ (is_string DISALLOW_CACHED_CREDENTIALS (get "email" r2) = false ->
        get "email" r' = get "email" r2
        /\ allowCachedCredentials r' = allowCachedCredentials r2).
Proof.
  intros H1 H2. eexists. split; [apply (fetch_resolved _ _ _ _ _ H1 H2) |].
  assert (Hemail : get "email" (normalize_entrypoint r2) = get "email" r2).
  { unfold normalize_entrypoint. destruct (_ && _); [| reflexivity].
    apply get_set_ne. discriminate. }
  assert (Hallow : get "allowCachedCredentials" (normalize_entrypoint r2)
                   = get "allowCachedCredentials" r2).
  { unfold normalize_entrypoint. destruct (_ && _); [| reflexivity].
    apply get_set_ne. discriminate. }
  unfold normalize_email, allowCachedCredentials, has. rewrite Hemail.
  destruct (is_string DISALLOW_CACHED_CREDENTIALS (get "email" r2)) eqn:Hblank.
  - rewrite get_set_ne by discriminate. rewrite get_unset_eq.
    rewrite get_set_eq.
    split; [reflexivity |]. split; [intros _; split; reflexivity | discriminate].
  - rewrite Hemail, Hallow, Hblank.
    split; [reflexivity |]. split; [discriminate | intros _; split; reflexivity].
Qed.

(** [fetch] is rejected exactly when reading the resume token or
    importing the query parameters throws; the relier is then left as
    that step left it. *)
Lemma fetch_rejected (r : Relier) (e : JSVal) (r' : Relier) :
  Relier.fetch DISALLOW_CACHED_CREDENTIALS getSearchParam
      populateFromStringifiedResumeToken importSearchParamsUsingSchema r
    = (Rejected e, r') <->
  populateFromStringifiedResumeToken (getSearchParam "resume") r = (Rejected e, r')
  \/ exists u1 r1,
       populateFromStringifiedResumeToken (getSearchParam "resume") r = (Resolved u1, r1)
       /\ importSearchParamsUsingSchema (_queryParameterSchema r1) r1 = (Rejected e, r').
Proof.
  unfold fetch.
  destruct (populateFromStringifiedResumeToken (getSearchParam "resume") r)
    as [[u1|e1] r1].
  - destruct (importSearchParamsUsingSchema (_queryParameterSchema r1) r1)
      as [[u2|e2] r2] eqn:Himport; split.
    + discriminate.
    + intros [H | (u & x & [= _ <-] & H)]; [discriminate |].
      rewrite Himport in H. discriminate.
    + intros [= <- <-]. right. exists u1, r1. auto.
    + intros [H | (u & x & [= _ <-] & H)]; [discriminate |].
      rewrite Himport in H. exact H.
  - split.
    + intros H. left. exact H.
    + intros [H | (u & x & H & _)]; [exact H | discriminate].
Qed.

End RelierProperties.

(** ** The scenarios of the specification *)

#[local] Existing Instance Sample.validate.
#[local] Existing Instance Sample.authErrors.
#[local] Existing Instance Sample.userAgent.

Lemma halting_keeps_halted : keeps_halted (Sample.halting FormView).
Proof.
  destruct FormView_keeps_halted as (H1 & H2 & H3 & H4 & H5 & H6 & H7).
  unfold keeps_halted.
  split; [| split; [| split; [| split; [| split; [| split]]]]];
    assumption.
Qed.

(** Scenario A: the walk stops at the empty required field, which is
    not an email or password field, so nothing is displayed. *)
Example scenario_A_isValid :
  outcome (isValid FormView Sample.scenario_A) = Resolved false
  /\ first_invalid Sample.scenario_A
     = Some (0, Sample.field "text" "displayName" "" true).
Proof. split; reflexivity. Qed.

(** Scenario B *)
Example scenario_B_invalid_email :
  In (ErrorLogged (toError "INVALID_EMAIL"))
     (events_of (showValidationErrors FormView (Sample.scenario_B "not-an-email")))
  /\ In (ErrorLogged (toError "EMAIL_REQUIRED"))
        (events_of (showValidationErrors FormView (Sample.scenario_B ""))).
Proof. split; vm_compute; auto. Qed.

(** An email field holding only whitespace counts as empty. *)
Example scenario_B_blank_email :
  In (ErrorLogged (toError "EMAIL_REQUIRED"))
     (events_of (showValidationErrors FormView (Sample.scenario_B "   "))).
Proof. vm_compute. auto. Qed.

(** Scenario C *)
Example scenario_C_password :
  In (ErrorLogged (toError "PASSWORD_TOO_SHORT"))
     (events_of (showValidationErrors FormView (Sample.scenario_C "abc")))
  /\ In (ErrorLogged (toError "PASSWORD_REQUIRED"))
        (events_of (showValidationErrors FormView (Sample.scenario_C ""))).
Proof. split; vm_compute; auto. Qed.

(** Scenario E: the error is displayed once, the caller sees the
    rejection, and the form stays disabled. *)
Example scenario_E_rejected_submit :
  let r := validateAndSubmit (Sample.failing (JSerror "UNEXPECTED_ERROR") FormView)
                             Sample.valid_form in
  outcome r = Rejected (JSerror "UNEXPECTED_ERROR")
  /\ List.filter (fun e => match e with ErrorDisplayed _ => true | _ => false end)
                 (events_of r)
     = [ErrorDisplayed (JSerror "UNEXPECTED_ERROR")]
  /\ isSubmitting (view_of r) = false
  /\ isErrorVisible (view_of r) = true
  /\ isFormEnabled (view_of r) = false.
Proof. repeat split. Qed.

(** C1 (amended), at an email field that does not hold an email
    address. *)
Lemma validateAndSubmit_invalid_witness :
  let v0 := Sample.scenario_B "not-an-email" in
  let v := submitting v0 in
  let el := Sample.field "email" "email" "not-an-email" true in
  (isHalted v = false
   /\ isValid FormView v = (Resolved false, v, [Invoked IsValidStart])
   /\ showValidationErrorsStart FormView (hideError v)
      = (Resolved JSundefined, hideError v)
   /\ truthy JSundefined = false
   /\ first_invalid (hideError v) = Some (0, el)
   /\ field_kind el = EmailField)
  /\ (outcome (validateAndSubmit_handler FormView v)
      = Rejected (JSstring "Valid email required")
      /\ tooltips (view_of (validateAndSubmit_handler FormView v))
         = [mkTooltip 0 "Valid email required"])
  /\ validateAndSubmit FormView v0
     = (Rejected (JSstring "Valid email required"),
        idle (view_of (showValidationErrors FormView v)),
        [Triggered "submitStart" []; Invoked IsValidStart;
         Invoked ShowValidationErrorsStart; ErrorLogged (toError "INVALID_EMAIL");
         Triggered "validation_error"
           [JSelement 0; JSstring "Valid email required"]])
  /\ ~ In (Invoked Submit) (events_of (validateAndSubmit_handler FormView v)).
Proof.
  intros v0 v el.
  assert (Hhalted : isHalted v = false) by reflexivity.
  assert (Hvalid : isValid FormView v = (Resolved false, v, [Invoked IsValidStart]))
    by reflexivity.
  assert (Hstart : showValidationErrorsStart FormView (hideError v)
                   = (Resolved JSundefined, hideError v)) by reflexivity.
  assert (Hreported : truthy JSundefined = false) by reflexivity.
  assert (Hfirst : first_invalid (hideError v) = Some (0, el)) by reflexivity.
  assert (Hkind : field_kind el = EmailField) by reflexivity.
  split; [auto 7 |].
  destruct (validateAndSubmit_invalid FormView v _ _ Hhalted Hvalid)
    as (Hrun & _ & Hcases & _ & Hsubmit & _ & Hguard).
  destruct (Hcases _ _ Hstart) as (_ & Hfield & _).
  destruct (Hfield Hreported _ _ Hfirst) as (Hemail & _ & _).
  split; [exact (Hemail Hkind) |].
  split; [| exact Hsubmit].
  rewrite (Hguard v0 eq_refl eq_refl), Hrun. reflexivity.
Defined.

(** C1: in scenario A the promise is rejected with undefined and no
    message is displayed. *)
Lemma validateAndSubmit_invalid_counterexample :
  isHalted Sample.scenario_A = false
  /\ outcome (isValid FormView Sample.scenario_A) = Resolved false
  /\ outcome (validateAndSubmit FormView Sample.scenario_A) = Rejected JSundefined
  /\ tooltips (view_of (validateAndSubmit FormView Sample.scenario_A)) = []
  /\ ~ rejects_with_displayed_message FormView Sample.scenario_A.
Proof.
  split; [reflexivity |]. split; [reflexivity |].
  split; [reflexivity |]. split; [reflexivity |].
  intros (el & msg & Hrejected & _).
  vm_compute in Hrejected. discriminate Hrejected.
Qed.

(** A message that [showValidationErrorsStart] displays does not reach
    the caller either: the promise is rejected with undefined while the
    tooltip of the hook is visible. *)
Example validateAndSubmit_hook_displays :
  let h := Sample.reporting "Name required" FormView in
  outcome (isValid h Sample.scenario_A) = Resolved false
  /\ outcome (validateAndSubmit h Sample.scenario_A) = Rejected JSundefined
  /\ tooltips (view_of (validateAndSubmit h Sample.scenario_A))
     = [mkTooltip 0 "Name required"]
  /\ ~ rejects_with_displayed_message h Sample.scenario_A.
Proof.
  intros h.
  split; [reflexivity |]. split; [reflexivity |]. split; [reflexivity |].
  intros (el & msg & Hrejected & _).
  vm_compute in Hrejected. discriminate Hrejected.
Qed.

(** C2: in scenario A no tooltip is rendered for the required field. *)
Lemma showValidationErrors_generic_field_counterexample :
  ~ renders_one_tooltip_for_first_invalid FormView Sample.scenario_A.
Proof.
  intros Hclaim.
  destruct (Hclaim 0 (Sample.field "text" "displayName" "" true) eq_refl)
    as [msg Hmsg].
  vm_compute in Hmsg. discriminate Hmsg.
Qed.

(** C2 (amended), in scenario A. *)
Lemma showValidationErrors_first_invalid_witness :
  let v := Sample.scenario_A in
  let el := Sample.field "text" "displayName" "" true in
  (showValidationErrorsStart FormView (hideError v) = (Resolved JSundefined, hideError v)
   /\ truthy JSundefined = false
   /\ first_invalid (hideError v) = Some (0, el))
  /\ showValidationErrors FormView v
     = (Resolved JSundefined, hideError v, [Invoked ShowValidationErrorsStart]).
Proof.
  intros v el.
  assert (Hstart : showValidationErrorsStart FormView (hideError v)
                   = (Resolved JSundefined, hideError v)) by reflexivity.
  assert (Hshown : truthy JSundefined = false) by reflexivity.
  assert (Hfirst : first_invalid (hideError v) = Some (0, el)) by reflexivity.
  split; [auto |].
  destruct (showValidationErrors_first_invalid FormView v _ _ _ _
              Hstart Hshown Hfirst) as (_ & _ & Hgeneric & _).
  apply Hgeneric. reflexivity.
Defined.

(** C3, in scenario A. *)
Lemma isValid_iff_witness :
  let v := Sample.scenario_A in
  (isEmailValid "" = false /\ isPasswordValid "" = false
   /\ isValidStart FormView v = (Resolved true, v)
   /\ isValidEnd FormView v = (Resolved true, v))
  /\ exists valid t,
       isValid FormView v = (Resolved valid, v, t)
       /\ (valid = false <->
             true = false
             \/ (exists el, In el (validated_inputs v) /\ kind_specific_rule el = false)
             \/ true = false).
Proof.
  intros v.
  assert (Hemail : isEmailValid "" = false) by reflexivity.
  assert (Hpassword : isPasswordValid "" = false) by reflexivity.
  assert (Hstart : isValidStart FormView v = (Resolved true, v)) by reflexivity.
  assert (Hend : isValidEnd FormView v = (Resolved true, v)) by reflexivity.
  split; [auto |].
  destruct (isValid_iff FormView v true true Hemail Hpassword Hstart Hend)
    as (valid & t & Hrun & _ & Hiff & _).
  exists valid, t. split; [exact Hrun | exact Hiff].
Defined.

(** C4, at a password of length 3. *)
Lemma validation_error_kind_witness :
  let el := Sample.field "password" "password" "abc" true in
  let v := Sample.scenario_C "abc" in
  String.length (getElementValue el) = 3
  /\ showPasswordValidationError 0 el v
     = showValidationError 0 (toError "PASSWORD_TOO_SHORT") v.
Proof.
  intros el v.
  assert (Hlength : String.length (getElementValue el) = 3) by reflexivity.
  split; [exact Hlength |].
  destruct (validation_error_kind 0 el v) as (_ & _ & _ & Hshort & _).
  apply Hshort. exact Hlength.
Defined.

(** C5, for a [beforeSubmit] that prevents the submission and for a
    [submit] that is rejected. *)
Lemma _submitForm_chain_witness :
  let v := Sample.valid_form in
  let err := JSerror "UNEXPECTED_ERROR" in
  (beforeSubmit (Sample.aborting FormView) v = (Resolved (JSbool false), v)
   /\ events_of (_submitForm (Sample.aborting FormView) v)
      = [Invoked BeforeSubmit; Invoked AfterSubmit])
  /\ (beforeSubmit (Sample.failing err FormView) v = (Resolved JSundefined, disableForm v)
      /\ is_not_false JSundefined = true
      /\ submit (Sample.failing err FormView) (disableForm v)
         = (Rejected err, disableForm v)
      /\ _submitForm (Sample.failing err FormView) v
         = (Rejected err, set_isErrorVisible true (disableForm v),
            [Invoked BeforeSubmit; Invoked Submit; ErrorDisplayed err])).
Proof.
  intros v err. split.
  - assert (Hbefore : beforeSubmit (Sample.aborting FormView) v
                      = (Resolved (JSbool false), v)) by reflexivity.
    split; [exact Hbefore |].
    destruct (_submitForm_chain (Sample.aborting FormView) v) as (Habort & _).
    destruct (Habort v Hbefore) as (Hrun & _). rewrite Hrun. reflexivity.
  - assert (Hbefore : beforeSubmit (Sample.failing err FormView) v
                      = (Resolved JSundefined, disableForm v)) by reflexivity.
    assert (Hgo : is_not_false JSundefined = true) by reflexivity.
    assert (Hsubmit : submit (Sample.failing err FormView) (disableForm v)
                      = (Rejected err, disableForm v)) by reflexivity.
    split; [exact Hbefore | split; [exact Hgo | split; [exact Hsubmit |]]].
    destruct (_submitForm_chain (Sample.failing err FormView) v) as (_ & _ & Hfail).
    destruct (Hfail _ _ _ _ Hbefore Hgo Hsubmit) as (Hrun & _). exact Hrun.
Defined.

(** C6, in scenario D. *)
Lemma halted_is_terminal_witness :
  let h := Sample.halting FormView in
  let v := Sample.valid_form in
  let result := JSobject [("halt", JSbool true)] in
  (isSubmitting v = false /\ isHalted v = false
   /\ isValid h (submitting v)
      = (Resolved true, submitting v, [Invoked IsValidStart; Invoked IsValidEnd])
   /\ isFormEnabled (submitting v) = true
   /\ submit h (disableForm (submitting v)) = (Resolved result, disableForm (submitting v))
   /\ truthy (prop "halt" result) = true
   /\ keeps_halted h)
  /\ isHalted (view_of (validateAndSubmit h v)) = true
  /\ events_of (validateAndSubmit h (view_of (validateAndSubmit h v)))
     = [Triggered "submitStart" []]
  /\ isHalted (perform_all h [UserTypes 0 "c@d.org"; DoFormChanged;
                              DoEnableForm; DoValidateAndSubmit]
                  (view_of (validateAndSubmit h v)))
     = true.
Proof.
  intros h v result.
  destruct (halted_is_terminal h) as (Hhalts & Hnoop & _ & Hterminal).
  assert (Hidle : isSubmitting v = false) by reflexivity.
  assert (Hnot : isHalted v = false) by reflexivity.
  assert (Hvalid : isValid h (submitting v)
                   = (Resolved true, submitting v,
                      [Invoked IsValidStart; Invoked IsValidEnd]))
    by (vm_compute; reflexivity).
  assert (Henabled : isFormEnabled (submitting v) = true) by reflexivity.
  assert (Hbefore : beforeSubmit h (submitting v)
                    = (Resolved JSundefined, disableForm (submitting v)))
    by reflexivity.
  assert (Hgo : is_not_false JSundefined = true) by reflexivity.
  assert (Hsubmit : submit h (disableForm (submitting v))
                    = (Resolved result, disableForm (submitting v)))
    by reflexivity.
  assert (Hhalt : truthy (prop "halt" result) = true) by reflexivity.
  assert (Hafter : afterSubmit h result (disableForm (submitting v))
                   = default_afterSubmit result (disableForm (submitting v)))
    by reflexivity.
  destruct (Hhalts v (submitting v) _ JSundefined (disableForm (submitting v))
              result (disableForm (submitting v))
              Hafter Hidle Hnot Hvalid Henabled Hbefore Hgo Hsubmit Hhalt)
    as (_ & _ & Hhalted).
  split.
  { split; [exact Hidle | split; [exact Hnot | split; [exact Hvalid |]]].
    split; [exact Henabled | split; [exact Hsubmit | split; [exact Hhalt |]]].
    apply halting_keeps_halted. }
  split; [exact Hhalted |]. split.
  - destruct (Hnoop _ Hhalted) as (_ & _ & Hevents). rewrite Hevents.
    vm_compute. reflexivity.
  - apply (Hterminal halting_keeps_halted _ _ Hhalted).
Defined.

(** C7, for an attempt made while the valid form is being submitted. *)
Lemma validateAndSubmit_single_flight_witness :
  let v := Sample.valid_form in
  (isSubmitting (submitting v) = true /\ isSubmitting v = false
   /\ keeps_in_flight FormView)
  /\ validateAndSubmit FormView (submitting v)
     = (Resolved JSundefined, submitting v, [])
  /\ validateAndSubmit (with_concurrent_attempts FormView FormView) v
     = validateAndSubmit FormView v.
Proof.
  intros v.
  split; [split; [reflexivity | split; [reflexivity |]];
          apply FormView_keeps_in_flight |].
  split.
  - destruct (validateAndSubmit_single_flight FormView FormView (submitting v))
      as (Hdropped & _).
    apply Hdropped. reflexivity.
  - destruct (validateAndSubmit_single_flight FormView FormView v)
      as (_ & Hundisturbed & _).
    apply Hundisturbed; [reflexivity | apply FormView_keeps_in_flight].
Defined.

(** C8, on the valid form. *)
Lemma detectFormValueChanges_round_trip_witness :
  let v := Sample.valid_form in
  let v' := set_isFormEnabled false (updateFormValueChanges v).2 in
  (dom v' = dom v
   /\ _previousFormValues v' = _previousFormValues (updateFormValueChanges v).2)
  /\ detectFormValueChanges v' = None
  /\ detectFormValueChanges v = Some (getFormValues v).
Proof.
  intros v v'.
  assert (Hdom : dom v' = dom v) by reflexivity.
  assert (Hprev : _previousFormValues v'
                  = _previousFormValues (updateFormValueChanges v).2)
    by reflexivity.
  destruct (detectFormValueChanges_round_trip v) as (Hsame & _ & Hsome & _).
  split; [auto |]. split.
  - apply (Hsame v' Hdom Hprev).
  - apply Hsome. split; [reflexivity | discriminate].
Defined.

(** C9, on the valid form with its submit button disabled. *)
Lemma validateAndSubmit_disabled_witness :
  let v0 := disableForm Sample.valid_form in
  let v := submitting v0 in
  (isHalted v = false
   /\ isValid FormView v
      = (Resolved true, v, [Invoked IsValidStart; Invoked IsValidEnd])
   /\ isFormEnabled v = false)
  /\ validateAndSubmit FormView v0
     = (Resolved JSundefined, v0,
        [Triggered "submitStart" []; Invoked IsValidStart; Invoked IsValidEnd]).
Proof.
  intros v0 v.
  assert (Hhalted : isHalted v = false) by reflexivity.
  assert (Hvalid : isValid FormView v
                   = (Resolved true, v, [Invoked IsValidStart; Invoked IsValidEnd]))
    by reflexivity.
  assert (Hdisabled : isFormEnabled v = false) by reflexivity.
  split; [auto |].
  destruct (validateAndSubmit_disabled FormView v _ _ _ Hhalted Hvalid Hdisabled)
    as (Hrun & _ & _ & Hguard).
  rewrite (Hguard v0 eq_refl eq_refl), Hrun. reflexivity.
Defined.

(** C10, in scenario A and on the valid form while it is submitting. *)
Lemma enableSubmitIfValid_guarded_witness :
  let v := Sample.scenario_A in
  let w := submitting Sample.valid_form in
  (isSubmitting v = false /\ isHalted v = false
   /\ isValid FormView (hideSuccess (hideError v))
      = (Resolved false, hideSuccess (hideError v), [Invoked IsValidStart])
   /\ isSubmitting w = true)
  /\ isFormEnabled (view_of (enableSubmitIfValid FormView v)) = false
  /\ enableSubmitIfValid FormView w = (Resolved tt, w, []).
Proof.
  intros v w.
  assert (Hvalid : isValid FormView (hideSuccess (hideError v))
                   = (Resolved false, hideSuccess (hideError v),
                      [Invoked IsValidStart]))
    by reflexivity.
  split; [repeat split |]. split.
  - destruct (enableSubmitIfValid_guarded FormView v) as (_ & Hrun).
    destruct (Hrun eq_refl eq_refl _ _ _ Hvalid) as (_ & _ & _ & Henabled).
    exact Henabled.
  - destruct (enableSubmitIfValid_guarded FormView w) as (Hbusy & _).
    apply Hbusy. left. reflexivity.
Defined.

(** ** Instances of the further properties *)

(** X2, on the valid form: the email is recorded, the submit button is
    not. *)
Lemma getFormValues_lookup_witness :
  ("email" <> "__proto__" /\ "submit" <> "__proto__")
  /\ getFormValues Sample.valid_form !! "email" = Some "a@b.com"
  /\ getFormValues Sample.valid_form !! "submit" = None.
Proof.
  assert (Hemail : "email" <> "__proto__") by discriminate.
  assert (Hsubmit : "submit" <> "__proto__") by discriminate.
  split; [auto |]. split.
  - destruct (getFormValues_lookup Sample.valid_form "email") as (_ & Hkey).
    destruct (Hkey Hemail) as (Hlast & _).
    rewrite Hlast. vm_compute. reflexivity.
  - destruct (getFormValues_lookup Sample.valid_form "submit") as (_ & Hkey).
    destruct (Hkey Hsubmit) as (_ & Hnone).
    apply Hnone. intros el Hin Htracked.
    destruct Hin as [<- | [<- | [<- | []]]]; vm_compute; discriminate.
Defined.


(** X5, for a short password shown as text. *)
Lemma password_shown_as_text_witness :
  let el := Sample.field "password" "password" "abc" true in
  let el' := setAttr "type" "text" (addClass "password" el) in
  (attr "type" el = Some "password" /\ attr "type" el' = Some "text"
   /\ hasClass "password" el' = true /\ value el' = value el)
  /\ isElementValid el' = false
  /\ showPasswordValidationError 0 el' = showPasswordValidationError 0 el.
Proof.
  intros el el'.
  assert (H1 : attr "type" el = Some "password") by (vm_compute; reflexivity).
  assert (H2 : attr "type" el' = Some "text") by (vm_compute; reflexivity).
  assert (H3 : hasClass "password" el' = true) by (vm_compute; reflexivity).
  assert (H4 : value el' = value el) by reflexivity.
  split; [auto |].
  destruct (password_shown_as_text 0 el el' H1 H2 H3 H4) as (_ & _ & Hvalid & Hshow).
  split; [| exact Hshow].
  rewrite Hvalid. vm_compute. reflexivity.
Defined.

(** X7, in scenario A. *)
Lemma first_invalid_spec_witness :
  let el := Sample.field "text" "displayName" "" true in
  first_invalid Sample.scenario_A = Some (0, el)
  /\ dom Sample.scenario_A !! 0 = Some el
  /\ isElementValid el = false.
Proof.
  intros el.
  assert (Hfirst : first_invalid Sample.scenario_A = Some (0, el))
    by (vm_compute; reflexivity).
  split; [exact Hfirst |].
  destruct (first_invalid_spec Sample.scenario_A 0 el Hfirst)
    as (Hat & _ & _ & Hbad & _).
  split; assumption.
Defined.

(** X8, in scenario A. *)
Lemma isValid_agrees_with_first_invalid_witness :
  let v := Sample.scenario_A in
  (isValidStart FormView v = (Resolved true, v)
   /\ isValidEnd FormView v = (Resolved true, v))
  /\ outcome (isValid FormView v) = Resolved false.
Proof.
  intros v.
  assert (Hstart : isValidStart FormView v = (Resolved true, v)) by reflexivity.
  assert (Hend : isValidEnd FormView v = (Resolved true, v)) by reflexivity.
  split; [auto |].
  destruct (isValid_agrees_with_first_invalid FormView v Hstart Hend) as (Hfalse & _).
  apply Hfalse. eexists _, _. vm_compute. reflexivity.
Defined.

(** X10, on the valid form. *)
Lemma showValidationErrors_nothing_invalid_witness :
  let v := Sample.valid_form in
  (showValidationErrorsStart FormView (hideError v) = (Resolved JSundefined, hideError v)
   /\ truthy JSundefined = false
   /\ first_invalid (hideError v) = None)
  /\ showValidationErrors FormView v
     = (Resolved JSundefined, hideError v,
        [Invoked ShowValidationErrorsStart; Invoked ShowValidationErrorsEnd]).
Proof.
  intros v.
  assert (Hstart : showValidationErrorsStart FormView (hideError v)
                   = (Resolved JSundefined, hideError v)) by reflexivity.
  assert (Hshown : truthy JSundefined = false) by reflexivity.
  assert (Hnone : first_invalid (hideError v) = None) by (vm_compute; reflexivity).
  split; [auto |].
  destruct (showValidationErrors_nothing_invalid FormView v) as (_ & _ & _ & Hend).
  rewrite (Hend _ _ Hstart Hshown Hnone). reflexivity.
Defined.

(** X11, on the valid form with the default strategies. *)
Lemma default_submission_enablement_witness :
  let v := Sample.valid_form in
  (beforeSubmit FormView v = default_beforeSubmit v
   /\ afterSubmit FormView JSundefined (disableForm v)
      = default_afterSubmit JSundefined (disableForm v)
   /\ isHalted v = false
   /\ isValid FormView v = (Resolved true, v, [Invoked IsValidStart; Invoked IsValidEnd])
   /\ isFormEnabled v = true
   /\ submit FormView (disableForm v) = (Resolved JSundefined, disableForm v))
  /\ outcome (validateAndSubmit_handler FormView v) = Resolved JSundefined
  /\ isFormEnabled (view_of (validateAndSubmit_handler FormView v)) = true.
Proof.
  intros v.
  assert (H1 : beforeSubmit FormView v = default_beforeSubmit v) by reflexivity.
  assert (H2 : afterSubmit FormView JSundefined (disableForm v)
               = default_afterSubmit JSundefined (disableForm v)) by reflexivity.
  assert (H3 : isHalted v = false) by reflexivity.
  assert (H4 : isValid FormView v
               = (Resolved true, v, [Invoked IsValidStart; Invoked IsValidEnd]))
    by (vm_compute; reflexivity).
  assert (H5 : isFormEnabled v = true) by reflexivity.
  assert (H6 : submit FormView (disableForm v) = (Resolved JSundefined, disableForm v))
    by reflexivity.
  split; [auto 10 |].
  destruct (default_submission_enablement FormView v v (disableForm v) _ JSundefined
              H1 H2 H3 H4 H5 H6) as (_ & Hrun).
  rewrite Hrun. split; reflexivity.
Defined.

Lemma FormView_keeps_baseline :
  (forall s, hook_preserves (baseline_is s) (isValidStart FormView))
  /\ (forall s, hook_preserves (baseline_is s) (isValidEnd FormView)).
Proof. split; intros s v Hv; exact Hv. Qed.

(** X12, on the valid form. *)
Lemma form_event_repeated_witness :
  let v1 := view_of (ifFormValuesChanged (enableSubmitIfValid FormView)
                       Sample.valid_form) in
  ((forall s, hook_preserves (baseline_is s) (isValidStart FormView))
   /\ (forall s, hook_preserves (baseline_is s) (isValidEnd FormView)))
  /\ _previousFormValues v1 = Some (getFormValues Sample.valid_form)
  /\ ifFormValuesChanged (enableSubmitIfValid FormView) v1 = (Resolved None, v1, []).
Proof.
  intros v1. split; [apply FormView_keeps_baseline |].
  split; [vm_compute; reflexivity |].
  destruct FormView_keeps_baseline as [Hstart Hend].
  apply (form_event_repeated FormView Sample.valid_form Hstart Hend).
Defined.

(** X14, for a new address typed into the email field of the valid
    form, and for a text typed into a field named [__proto__]. *)
Lemma typing_updates_form_values_witness :
  let v := Sample.valid_form in
  let el := Sample.field "email" "email" "a@b.com" true in
  let w := Sample.fresh_view [Sample.field "text" "__proto__" "x" false] in
  let proto := Sample.field "text" "__proto__" "x" false in
  ((dom v !! 0 = Some el /\ is_tracked_field el = true
    /\ field_name el <> "__proto__")
   /\ getFormValues (at_node 0 (setValue " c@d.org ") v)
      = <["email" := "c@d.org"]> (getFormValues v))
  /\ ((dom w !! 0 = Some proto /\ is_tracked_field proto = true
       /\ field_name proto = "__proto__")
      /\ getFormValues (at_node 0 (setValue "y") w) = getFormValues w).
Proof.
  intros v el w proto. split.
  - assert (Hlook : dom v !! 0 = Some el) by reflexivity.
    assert (Htracked : is_tracked_field el = true) by (vm_compute; reflexivity).
    assert (Hname : field_name el <> "__proto__") by (vm_compute; discriminate).
    assert (Hunique : forall j el', j <> 0 -> dom v !! j = Some el' ->
              is_tracked_field el' = true -> field_name el' <> field_name el).
    { intros j el' Hj Hel' Hel'tracked.
      destruct j as [|[|[|j]]]; [congruence | | |]; simpl in Hel'.
      - inversion Hel'; subst el'. vm_compute. discriminate.
      - inversion Hel'; subst el'. vm_compute in Hel'tracked. discriminate.
      - discriminate. }
    split; [auto |].
    destruct (typing_updates_form_values v 0 el " c@d.org " Hlook Htracked)
      as (Hkey & _).
    destruct (Hkey Hname Hunique) as (Hvalues & _).
    rewrite Hvalues. vm_compute. reflexivity.
  - assert (Hlook : dom w !! 0 = Some proto) by reflexivity.
    assert (Htracked : is_tracked_field proto = true) by (vm_compute; reflexivity).
    assert (Hname : field_name proto = "__proto__") by (vm_compute; reflexivity).
    split; [auto |].
    destruct (typing_updates_form_values w 0 proto "y" Hlook Htracked)
      as (_ & Hproto).
    destruct (Hproto Hname) as (Hvalues & _).
    exact Hvalues.
Defined.

(** X15, for an address typed with blanks around it. *)
Lemma getElementValue_email_trimmed_witness :
  let el := Sample.field "email" "email" "  a@b.com " true in
  getElementType el = Some "email"
  /\ getElementValue el = "a@b.com"
  /\ ends_with_space (getElementValue el) = false.
Proof.
  intros el.
  assert (Htype : getElementType el = Some "email") by (vm_compute; reflexivity).
  split; [exact Htype |]. split; [vm_compute; reflexivity |].
  destruct (getElementValue_email_trimmed el) as (Hemail & _).
  destruct (Hemail Htype) as (_ & Hend & _). exact Hend.
Defined.

(** X16 and X17, for a relier opened with [entryPoint=menupanel] and
    [email=blank]. *)
Lemma fetch_normalizes_entrypoint_witness :
  let populate := fun (_ : JSVal) (r : Relier.Relier) => (Resolved tt, r) in
  let import := fun (_ : Relier.Schema) (r : Relier.Relier) =>
    (Resolved tt,
     Relier.set "email" (JSstring "blank")
       (Relier.set "entryPoint" (JSstring "menupanel") r)) in
  let r := Relier.initialize JSundefined Relier.defaults in
  let r2 := (import Relier.QUERY_PARAMETER_SCHEMA r).2 in
  (populate JSundefined r = (Resolved tt, r)
   /\ import (Relier._queryParameterSchema r) r = (Resolved tt, r2))
  /\ exists r',
       Relier.fetch "blank" (fun _ => JSundefined) populate import r = (Resolved tt, r')
       /\ Relier.get "entrypoint" r' = JSstring "menupanel".
Proof.
  intros populate import r r2.
  assert (H1 : populate ((fun _ : string => JSundefined) "resume") r = (Resolved tt, r))
    by reflexivity.
  assert (H2 : import (Relier._queryParameterSchema r) r = (Resolved tt, r2))
    by reflexivity.
  split; [auto |].
  destruct (fetch_normalizes_entrypoint "blank" (fun _ => JSundefined) populate import
              r r r2 tt tt H1 H2) as (r' & Hrun & _ & _ & Hupper & _).
  exists r'. split; [exact Hrun |].
  rewrite Hupper; vm_compute; reflexivity.
Defined.

Lemma fetch_blank_email_witness :
  let populate := fun (_ : JSVal) (r : Relier.Relier) => (Resolved tt, r) in
  let import := fun (_ : Relier.Schema) (r : Relier.Relier) =>
    (Resolved tt,
     Relier.set "email" (JSstring "blank")
       (Relier.set "entryPoint" (JSstring "menupanel") r)) in
  let r := Relier.initialize JSundefined Relier.defaults in
  let r2 := (import Relier.QUERY_PARAMETER_SCHEMA r).2 in
  (populate JSundefined r = (Resolved tt, r)
   /\ import (Relier._queryParameterSchema r) r = (Resolved tt, r2)
   /\ Relier.allowCachedCredentials r = JSbool true)
  /\ exists r',
       Relier.fetch "blank" (fun _ => JSundefined) populate import r = (Resolved tt, r')
       /\ Relier.has "email" r' = false
       /\ Relier.allowCachedCredentials r' = JSbool false.
Proof.
  intros populate import r r2.
  assert (H1 : populate ((fun _ : string => JSundefined) "resume") r = (Resolved tt, r))
    by reflexivity.
  assert (H2 : import (Relier._queryParameterSchema r) r = (Resolved tt, r2))
    by reflexivity.
  split; [split; [exact H1 | split; [exact H2 | vm_compute; reflexivity]] |].
  destruct (fetch_blank_email "blank" (fun _ => JSundefined) populate import
              r r r2 tt tt H1 H2) as (r' & Hrun & _ & Hblank & _).
  exists r'. split; [exact Hrun |].
  apply Hblank. vm_compute. reflexivity.
Defined.

(** X9, on the valid form and in scenario A. *)
Lemma isValid_fails_fast_witness :
  (isValidStart FormView Sample.valid_form = (Resolved true, Sample.valid_form)
   /\ first_invalid Sample.valid_form = None)
  /\ In (Invoked IsValidEnd) (events_of (isValid FormView Sample.valid_form))
  /\ ~ In (Invoked IsValidEnd) (events_of (isValid FormView Sample.scenario_A)).
Proof.
  assert (Hstart : isValidStart FormView Sample.valid_form
                   = (Resolved true, Sample.valid_form)) by reflexivity.
  assert (Hnone : first_invalid Sample.valid_form = None) by (vm_compute; reflexivity).
  split; [auto |]. split.
  - destruct (isValid_fails_fast FormView Sample.valid_form) as (_ & Hend).
    apply Hend. exists Sample.valid_form. auto.
  - destruct (isValid_fails_fast FormView Sample.scenario_A) as (_ & Hend).
    intros Hin. apply Hend in Hin as (v1 & Hv1 & Hfirst).
    inversion Hv1; subst v1. vm_compute in Hfirst. discriminate.
Defined.

Lemma halting_keeps_values : keeps_values (Sample.halting FormView).
Proof.
  intros s. destruct (FormView_keeps_values s) as (H1 & H2 & H3 & H4 & H5 & _ & H7).
  split; [| split; [| split; [| split; [| split; [| split]]]]]; assumption.
Qed.

(** X18, for the view of scenario D. *)
Lemma submission_keeps_form_values_witness :
  let h := Sample.halting FormView in
  let v := Sample.valid_form in
  keeps_values h
  /\ isHalted (view_of (validateAndSubmit h v)) = true
  /\ getFormValues (view_of (validateAndSubmit h v)) = getFormValues v.
Proof.
  intros h v. split; [apply halting_keeps_values |].
  split; [vm_compute; reflexivity |].
  destruct (submission_keeps_form_values h v) as (_ & _ & Hkept).
  destruct (Hkept halting_keeps_values) as (_ & Hcall). exact Hcall.
Defined.
